(** * Task manager: a shallow embedding of [task_manager.py]

    The development follows the source file top to bottom: Python values
    and exceptions, strings, [datetime], the [Priority] and [Status]
    enumerations, the [Task] class, the [TaskManager] class and the
    full-listing sort of [TaskManagerApp.view_all_tasks]. *)

From Stdlib Require Import ZArith List String Ascii Bool Lia.
From Stdlib Require Import Permutation Sorted SpecFloat OrderedTypeEx.
Import ListNotations.

Local Open Scope string_scope.
Local Open Scope Z_scope.
Local Open Scope list_scope.

(** ** Exceptions and results *)

(** The exception classes the modelled code can raise. *)
Inductive exn : Type :=
| JSONDecodeError
| KeyError (key : string)
| FileNotFoundError
| ValueError
| TypeError
| AttributeError.

Inductive result (A : Type) : Type :=
| Ok (a : A)
| Raise (e : exn).
Arguments Ok {A} a.
Arguments Raise {A} e.

Definition rbind {A B} (r : result A) (k : A -> result B) : result B :=
  match r with
  | Ok a => k a
  | Raise e => Raise e
  end.

Declare Scope result_scope.
Delimit Scope result_scope with result.
Notation "x <- r ;; k" := (rbind r (fun x => k))
  (at level 61, r at next level, right associativity) : result_scope.

(** ** Python values

    The values [json.load] produces, which are also the values the
    untyped attributes of a task ([id], [title], ...) can hold.  Floats
    are IEEE binary64 numbers ([spec_float] at precision 53); strings are
    sequences of code points below 256; a [dict] is kept as its list of
    items, looked up from the front. *)

#[local] Set Warnings "-register-all".

Inductive pyval : Type :=
| PNone
| PBool (b : bool)
| PInt (n : Z)
| PFloat (f : spec_float)
| PStr (s : string)
| PList (l : list pyval)
| PDict (items : list (string * pyval)).

Definition prec64 : Z := 53.
Definition emax64 : Z := 1024.

(** [float(n)] for an integer [n]. *)
Definition float_of_Z (n : Z) : spec_float := binary_normalize prec64 emax64 n 0 false.
Definition fadd : spec_float -> spec_float -> spec_float := SFadd prec64 emax64.
Definition fmul : spec_float -> spec_float -> spec_float := SFmul prec64 emax64.
Definition fdiv : spec_float -> spec_float -> spec_float := SFdiv prec64 emax64.

(** [f == n] for a float and an integer: Python compares the exact values. *)
Definition float_eq_Z (f : spec_float) (n : Z) : bool :=
  match f with
  | S754_zero _ => n =? 0
  | S754_finite s m e =>
      let mz := cond_Zopp s (Zpos m) in
      if 0 <=? e then mz * 2 ^ e =? n
      else (mz mod 2 ^ (- e) =? 0) && (mz / 2 ^ (- e) =? n)
  | S754_infinity _ | S754_nan => false
  end.

Definition Z_of_bool (b : bool) : Z := if b then 1 else 0.

(** [v == n] where [n] is an [int]: never raises. *)
Definition py_eq_int (v : pyval) (n : Z) : bool :=
  match v with
  | PInt m => m =? n
  | PBool b => Z_of_bool b =? n
  | PFloat f => float_eq_Z f n
  | PNone | PStr _ | PList _ | PDict _ => false
  end.

(** Truth value of [v], as tested by [if v:]. *)
Definition py_truthy (v : pyval) : bool :=
  match v with
  | PNone => false
  | PBool b => b
  | PInt n => negb (n =? 0)
  | PFloat (S754_zero _) => false
  | PFloat _ => true
  | PStr s => negb (String.eqb s "")
  | PList l => match l with [] => false | _ => true end
  | PDict d => match d with [] => false | _ => true end
  end.

(** [v + 1], as computed by [v += 1]. *)
Definition py_add_one (v : pyval) : result pyval :=
  match v with
  | PInt n => Ok (PInt (n + 1))
  | PBool b => Ok (PInt (Z_of_bool b + 1))
  | PFloat f => Ok (PFloat (fadd f (float_of_Z 1)))
  | PNone | PStr _ | PList _ | PDict _ => Raise TypeError
  end.

(** Items of a [dict], first match first. *)
Fixpoint assoc (k : string) (items : list (string * pyval)) : option pyval :=
  match items with
  | [] => None
  | (k', v) :: rest => if String.eqb k k' then Some v else assoc k rest
  end.

(** [data[k]]: subscripting anything but a [dict] with a string key is a
    [TypeError]; a missing key is a [KeyError]. *)
Definition py_getitem (data : pyval) (k : string) : result pyval :=
  match data with
  | PDict items =>
      match assoc k items with
      | Some v => Ok v
      | None => Raise (KeyError k)
      end
  | _ => Raise TypeError
  end.

(** [data.get(k, default)]: only a [dict] has the method. *)
Definition py_get (data : pyval) (k : string) (default : pyval) : result pyval :=
  match data with
  | PDict items =>
      match assoc k items with
      | Some v => Ok v
      | None => Ok default
      end
  | _ => Raise AttributeError
  end.

(** The elements [for x in v] visits. *)
Definition py_iter (v : pyval) : result (list pyval) :=
  match v with
  | PList l => Ok l
  | PStr s => Ok (map (fun c => PStr (String c "")) (list_ascii_of_string s))
  | PDict items => Ok (map (fun kv => PStr (fst kv)) items)
  | PNone | PBool _ | PInt _ | PFloat _ => Raise TypeError
  end.

(** ** Strings *)

Definition code (c : ascii) : Z := Z.of_nat (nat_of_ascii c).

(** [c in s] for a one-character string [c]. *)
Fixpoint contains (c : ascii) (s : string) : bool :=
  match s with
  | EmptyString => false
  | String c' s' => Ascii.eqb c c' || contains c s'
  end.

(** [str.lower] on one code point below 256: the letters A-Z and the
    Latin-1 capitals U+00C0-U+00DE (U+00D7 is the multiplication sign). *)
Definition lower_char (c : ascii) : ascii :=
  let n := code c in
  if ((65 <=? n) && (n <=? 90)) || ((192 <=? n) && (n <=? 222) && negb (n =? 215))
  then ascii_of_nat (nat_of_ascii c + 32)
  else c.

Fixpoint lower (s : string) : string :=
  match s with
  | EmptyString => EmptyString
  | String c s' => String (lower_char c) (lower s')
  end.

Definition is_digit (c : ascii) : bool := (48 <=? code c) && (code c <=? 57).
Definition digit_val (c : ascii) : Z := code c - 48.
Definition digit_char (k : Z) : ascii := ascii_of_nat (48 + Z.to_nat k).

(** [int(s)] on text captured by a numeric directive: digits, after
    optional leading blanks. *)
Fixpoint int_digits (acc : Z) (s : string) : Z :=
  match s with
  | EmptyString => acc
  | String c s' => int_digits (10 * acc + digit_val c) s'
  end.

Fixpoint lstrip (s : string) : string :=
  match s with
  | String c s' => if Ascii.eqb c " " then lstrip s' else s
  | EmptyString => EmptyString
  end.

Definition py_int (s : string) : Z := int_digits 0 (lstrip s).

(** ** datetime *)

Record datetime : Type := mk_datetime {
  year : Z; month : Z; day : Z;
  hour : Z; minute : Z; second : Z; microsecond : Z
}.

Definition is_leap (y : Z) : bool :=
  (y mod 4 =? 0) && (negb (y mod 100 =? 0) || (y mod 400 =? 0)).

Definition days_in_month (y m : Z) : Z :=
  match m with
  | 1 | 3 | 5 | 7 | 8 | 10 | 12 => 31
  | 4 | 6 | 9 | 11 => 30
  | 2 => if is_leap y then 29 else 28
  | _ => 0
  end.

Definition valid_date (y m d : Z) : bool :=
  (1 <=? y) && (y <=? 9999) && (1 <=? m) && (m <=? 12)
  && (1 <=? d) && (d <=? days_in_month y m).

Definition valid_time (h mi s us : Z) : bool :=
  (0 <=? h) && (h <=? 23) && (0 <=? mi) && (mi <=? 59)
  && (0 <=? s) && (s <=? 59) && (0 <=? us) && (us <=? 999999).

(** The range checks every [datetime] object satisfies. *)
Definition valid_datetime (d : datetime) : bool :=
  valid_date (year d) (month d) (day d)
  && valid_time (hour d) (minute d) (second d) (microsecond d).

(** The constructor [datetime(y, m, d, h, mi, s, us)]. *)
Definition datetime_new (y m d h mi s us : Z) : result datetime :=
  if valid_date y m d && valid_time h mi s us
  then Ok (mk_datetime y m d h mi s us)
  else Raise ValueError.

(** [datetime.max] *)
Definition datetime_max : datetime := mk_datetime 9999 12 31 23 59 59 999999.

(** Naive datetimes compare field by field, most significant first. *)
Fixpoint lex_compare (a b : list Z) : comparison :=
  match a, b with
  | [], [] => Eq
  | [], _ :: _ => Lt
  | _ :: _, [] => Gt
  | x :: a', y :: b' =>
      match x ?= y with
      | Eq => lex_compare a' b'
      | c => c
      end
  end.

Definition fields (d : datetime) : list Z :=
  [year d; month d; day d; hour d; minute d; second d; microsecond d].

Definition datetime_compare (a b : datetime) : comparison :=
  lex_compare (fields a) (fields b).

Definition datetime_ltb (a b : datetime) : bool :=
  match datetime_compare a b with Lt => true | _ => false end.
Definition datetime_leb (a b : datetime) : bool :=
  match datetime_compare a b with Gt => false | _ => true end.
Definition datetime_eqb (a b : datetime) : bool :=
  match datetime_compare a b with Eq => true | _ => false end.

(** ** [datetime.strptime]

    [_strptime] turns the format into a regular expression, one named
    group per directive, matches it at the start of the text with the
    backtracking matcher of [re], requires the match to cover the whole
    text, and converts the groups.  [re_match] lists the matches of an
    expression in the order the backtracking matcher tries them, each
    with the text it leaves. *)

Inductive re : Type :=
| ReChar (c : ascii)
| ReDigit
| ReRange (lo hi : ascii)
| ReSeq (r1 r2 : re)
| ReAlt (r1 r2 : re).

Definition in_range (lo hi c : ascii) : bool := (code lo <=? code c) && (code c <=? code hi).

Definition re_first (p : ascii -> bool) (s : string) : list (string * string) :=
  match s with
  | String c s' => if p c then [(String c EmptyString, s')] else []
  | EmptyString => []
  end.

Fixpoint re_match (r : re) (s : string) : list (string * string) :=
  match r with
  | ReChar c => re_first (Ascii.eqb c) s
  | ReDigit => re_first is_digit s
  | ReRange lo hi => re_first (in_range lo hi) s
  | ReSeq r1 r2 =>
      flat_map (fun m1 => map (fun m2 => (fst m1 ++ fst m2, snd m2)%string)
                              (re_match r2 (snd m1)))
               (re_match r1 s)
  | ReAlt r1 r2 => re_match r1 s ++ re_match r2 s
  end.

(** The expressions of the numeric directives, from [_strptime.TimeRE]:
    [%d] is [3[0-1]|[1-2]\d|0[1-9]|[1-9]| [1-9]], [%m] is
    [1[0-2]|0[1-9]|[1-9]] and [%Y] is [\d\d\d\d]. *)
Definition re_d : re :=
  ReAlt (ReSeq (ReChar "3") (ReRange "0" "1"))
 (ReAlt (ReSeq (ReRange "1" "2") ReDigit)
 (ReAlt (ReSeq (ReChar "0") (ReRange "1" "9"))
 (ReAlt (ReRange "1" "9")
        (ReSeq (ReChar " ") (ReRange "1" "9"))))).

Definition re_m : re :=
  ReAlt (ReSeq (ReChar "1") (ReRange "0" "2"))
 (ReAlt (ReSeq (ReChar "0") (ReRange "1" "9"))
        (ReRange "1" "9")).

Definition re_Y : re := ReSeq ReDigit (ReSeq ReDigit (ReSeq ReDigit ReDigit)).

(** A format is a sequence of directives and literal characters. *)
Inductive fmt_item : Type :=
| Directive (name : ascii)
| Literal (c : ascii).

Definition directive_re (name : ascii) : re :=
  if Ascii.eqb name "Y" then re_Y
  else if Ascii.eqb name "m" then re_m
  else re_d.

(** The matches of a format: the groups found, and the text left. *)
Fixpoint fmt_match (f : list fmt_item) (s : string) : list (list (ascii * string) * string) :=
  match f with
  | [] => [([], s)]
  | Directive name :: f' =>
      flat_map (fun m => map (fun m' => ((name, fst m) :: fst m', snd m'))
                             (fmt_match f' (snd m)))
               (re_match (directive_re name) s)
  | Literal c :: f' =>
      flat_map (fun m => fmt_match f' (snd m)) (re_match (ReChar c) s)
  end.

Fixpoint group (name : ascii) (found : list (ascii * string)) : option string :=
  match found with
  | [] => None
  | (n, v) :: rest => if Ascii.eqb name n then Some v else group name rest
  end.

(** A group converted with [int], or the default of [_strptime] when the
    format has no such directive. *)
Definition group_int (name : ascii) (default : Z) (found : list (ascii * string)) : Z :=
  match group name found with
  | Some v => py_int v
  | None => default
  end.

Definition strptime (s : string) (f : list fmt_item) : result datetime :=
  match fmt_match f s with
  | [] => Raise ValueError
  | (found, rest) :: _ =>
      if negb (String.eqb rest "") then Raise ValueError
      else datetime_new (group_int "Y" 1900 found) (group_int "m" 1 found)
                        (group_int "d" 1 found) 0 0 0 0
  end.

(** ["%Y-%m-%d"] and ["%d/%m/%Y"] *)
Definition fmt_ymd : list fmt_item :=
  [Directive "Y"; Literal "-"; Directive "m"; Literal "-"; Directive "d"].
Definition fmt_dmy : list fmt_item :=
  [Directive "d"; Literal "/"; Directive "m"; Literal "/"; Directive "Y"].

(** ** [datetime.isoformat] and [datetime.fromisoformat] *)

Definition zpad2 (n : Z) : string :=
  String (digit_char (n / 10 mod 10)) (String (digit_char (n mod 10)) EmptyString).
Definition zpad4 (n : Z) : string :=
  (zpad2 (n / 100) ++ zpad2 n)%string.
Definition zpad6 (n : Z) : string :=
  (zpad2 (n / 10000) ++ zpad4 n)%string.

(** [d.isoformat()] of a naive datetime (a valid one: all fields within
    their printed widths): [YYYY-MM-DDTHH:MM:SS], with [.ffffff] appended
    when the microsecond is not zero. *)
Definition isoformat (d : datetime) : string :=
  (zpad4 (year d) ++ "-" ++ zpad2 (month d) ++ "-" ++ zpad2 (day d) ++ "T"
   ++ zpad2 (hour d) ++ ":" ++ zpad2 (minute d) ++ ":" ++ zpad2 (second d)
   ++ (if (microsecond d =? 0)%Z then "" else "." ++ zpad6 (microsecond d)))%string.

(** Exactly [n] decimal digits. *)
Fixpoint parse_digits (n : nat) (acc : Z) (s : string) : option (Z * string) :=
  match n with
  | O => Some (acc, s)
  | S n' =>
      match s with
      | String c s' =>
          if is_digit c then parse_digits n' (10 * acc + digit_val c) s' else None
      | EmptyString => None
      end
  end.

(** The fraction [.fff] or [.ffffff] that ends a time. *)
Definition parse_fraction (s : string) : option Z :=
  match parse_digits 3 0 s with
  | Some (ms, EmptyString) => Some (ms * 1000)
  | Some (ms, rest) =>
      match parse_digits 3 ms rest with
      | Some (us, EmptyString) => Some us
      | _ => None
      end
  | None => None
  end.

(** [HH[:MM[:SS[.fff[fff]]]]] *)
Definition parse_hh_mm_ss_ff (t : string) : option (Z * Z * Z * Z) :=
  match parse_digits 2 0 t with
  | Some (h, EmptyString) => Some (h, 0, 0, 0)
  | Some (h, String ":" t1) =>
      match parse_digits 2 0 t1 with
      | Some (mi, EmptyString) => Some (h, mi, 0, 0)
      | Some (mi, String ":" t2) =>
          match parse_digits 2 0 t2 with
          | Some (sec, EmptyString) => Some (h, mi, sec, 0)
          | Some (sec, String "." t3) =>
              match parse_fraction t3 with
              | Some us => Some (h, mi, sec, us)
              | None => None
              end
          | _ => None
          end
      | _ => None
      end
  | _ => None
  end.

(** [datetime.fromisoformat(s)] on the texts of naive datetimes: a date
    [YYYY-MM-DD], alone or followed by one separator character and a time
    [HH[:MM[:SS[.fff[fff]]]]].  This is the grammar every version of the
    function accepts; a text outside it is answered with [ValueError]
    here, which is what the function does for a text that is no
    timestamp at all, while a text with a UTC offset, or in one of the
    further ISO 8601 forms later versions read, is outside the model. *)
Definition fromisoformat (s : string) : result datetime :=
  match parse_digits 4 0 s with
  | Some (y, String "-" s1) =>
      match parse_digits 2 0 s1 with
      | Some (m, String "-" s2) =>
          match parse_digits 2 0 s2 with
          | Some (d, EmptyString) => datetime_new y m d 0 0 0 0
          | Some (d, String _ t) =>
              match parse_hh_mm_ss_ff t with
              | Some (h, mi, sec, us) => datetime_new y m d h mi sec us
              | None => Raise ValueError
              end
          | None => Raise ValueError
          end
      | _ => Raise ValueError
      end
  | _ => Raise ValueError
  end.

(** [fromisoformat] applied to a Python value: the argument must be a [str]. *)
Definition py_fromisoformat (v : pyval) : result datetime :=
  match v with
  | PStr s => fromisoformat s
  | _ => Raise TypeError
  end.

(** ** The enumerations *)

Inductive Priority : Type := LOW | MEDIUM | HIGH | URGENT.
Inductive Status : Type := PENDING | IN_PROGRESS | COMPLETED | CANCELLED.

(** [p.value] *)
Definition Priority_value (p : Priority) : string :=
  match p with
  | LOW => "Low"
  | MEDIUM => "Medium"
  | HIGH => "High"
  | URGENT => "Urgent"
  end.

Definition Status_value (s : Status) : string :=
  match s with
  | PENDING => "Pending"
  | IN_PROGRESS => "In Progress"
  | COMPLETED => "Completed"
  | CANCELLED => "Cancelled"
  end.

(** [Priority(v)]: the member whose value is [v], or [ValueError]. *)
Definition Priority_of (v : pyval) : result Priority :=
  match v with
  | PStr s =>
      if String.eqb s "Low" then Ok LOW
      else if String.eqb s "Medium" then Ok MEDIUM
      else if String.eqb s "High" then Ok HIGH
      else if String.eqb s "Urgent" then Ok URGENT
      else Raise ValueError
  | _ => Raise ValueError
  end.

Definition Status_of (v : pyval) : result Status :=
  match v with
  | PStr s =>
      if String.eqb s "Pending" then Ok PENDING
      else if String.eqb s "In Progress" then Ok IN_PROGRESS
      else if String.eqb s "Completed" then Ok COMPLETED
      else if String.eqb s "Cancelled" then Ok CANCELLED
      else Raise ValueError
  | _ => Raise ValueError
  end.

Definition Status_eqb (a b : Status) : bool :=
  match a, b with
  | PENDING, PENDING | IN_PROGRESS, IN_PROGRESS
  | COMPLETED, COMPLETED | CANCELLED, CANCELLED => true
  | _, _ => false
  end.

(** ** The world outside the objects

    What the program reads and writes besides its own objects: the file
    [self.filename] names, the clock behind [datetime.datetime.now()] and
    the lines it prints.  The file is kept as the value [json.load] would
    read from it; the clock answers its [n]-th reading with [clock n].
    The name is taken to be free or that of a regular text file the
    program may read and write: a directory of that name, a file without
    the permission, bytes that are no text and a document nested deeper
    than the parser's recursion limit end [open] and [json.load] in other
    exceptions, which are outside the model. *)

Inductive file_state : Type :=
| Absent                    (* no file of that name *)
| Unparsable                (* a file [json.load] rejects *)
| Parsed (doc : pyval).     (* a file holding the JSON document [doc] *)

Inductive output : Type :=
| ErrorLoadingTasks (e : exn)
| ErrorSavingTasks (e : exn).

Record World : Type := mk_World {
  disk : file_state;
  clock : nat -> datetime;
  ticks : nat;
  stdout : list output
}.

(** Computations that read and change the world and can raise. *)
Definition M (A : Type) : Type := World -> result A * World.

Definition ret {A} (a : A) : M A := fun w => (Ok a, w).

Definition bind {A B} (m : M A) (k : A -> M B) : M B :=
  fun w =>
    match m w with
    | (Ok a, w') => k a w'
    | (Raise e, w') => (Raise e, w')
    end.

Definition lift {A} (r : result A) : M A := fun w => (r, w).

Declare Scope M_scope.
Delimit Scope M_scope with M.
Notation "x <- m ;; k" := (bind m (fun x => k))
  (at level 61, m at next level, right associativity) : M_scope.
Notation "m ;; k" := (bind m (fun _ => k))
  (at level 61, right associativity) : M_scope.

(** [try: body except classes as e: handler] *)
Definition try_except {A} (body : M A) (classes : exn -> bool) (handler : exn -> M A) : M A :=
  fun w =>
    match body w with
    | (Ok a, w') => (Ok a, w')
    | (Raise e, w') => if classes e then handler e w' else (Raise e, w')
    end.

(** [datetime.datetime.now()] *)
Definition now : M datetime :=
  fun w => (Ok (clock w (ticks w)),
            mk_World (disk w) (clock w) (S (ticks w)) (stdout w)).

Definition print (o : output) : M unit :=
  fun w => (Ok tt, mk_World (disk w) (clock w) (ticks w) (stdout w ++ [o])).

(** [os.path.exists(filename)] and [json.load] of the opened file. *)
Definition path_exists : M bool :=
  fun w => (Ok (match disk w with Absent => false | _ => true end), w).

Definition json_load : M pyval :=
  fun w =>
    match disk w with
    | Parsed doc => (Ok doc, w)
    | Unparsable => (Raise JSONDecodeError, w)
    | Absent => (Raise FileNotFoundError, w)
    end.

(** [json.dump(data, file)] on the file opened for writing. *)
Definition json_dump (data : pyval) : M unit :=
  fun w => (Ok tt, mk_World (Parsed data) (clock w) (ticks w) (stdout w)).

(** A comprehension whose body runs in the world. *)
Fixpoint mapM {A B} (f : A -> M B) (l : list A) : M (list B) :=
  match l with
  | [] => ret []
  | x :: l' => (y <- f x ;; ys <- mapM f l' ;; ret (y :: ys))%M
  end.

Fixpoint filterM {A} (p : A -> M bool) (l : list A) : M (list A) :=
  match l with
  | [] => ret []
  | x :: l' =>
      (b <- p x ;; ys <- filterM p l' ;; ret (if b then x :: ys else ys))%M
  end.

(** ** class Task *)

Record Task : Type := mk_Task {
  id : pyval;
  title : pyval;
  description : pyval;
  category : pyval;
  priority : Priority;
  status : Status;
  created_at : datetime;
  updated_at : datetime;
  due_date : option datetime;
  completed_at : option datetime
}.

(** [Task._parse_date] *)
Definition _parse_date (date_str : string) : result (option datetime) :=
  match
    (if contains "-" date_str then
       (d <- strptime date_str fmt_ymd ;; Ok (Some d))%result
     else if contains "/" date_str then
       (d <- strptime date_str fmt_dmy ;; Ok (Some d))%result
     else Ok None)
  with
  | Ok r => Ok r
  | Raise ValueError => Ok None
  | Raise e => Raise e
  end.

(** [Task.__init__]; the arguments the source leaves to their defaults
    are passed as those defaults by the callers below. *)
Definition Task_init (title description category : pyval) (priority : Priority)
    (due_date : option string) : M Task :=
  (created <- now ;;
   updated <- now ;;
   due <- lift (match due_date with
                | Some s => if String.eqb s "" then Ok None else _parse_date s
                | None => Ok None
                end) ;;
   ret (mk_Task PNone title description category priority PENDING
                created updated due None))%M.

Definition set_id (t : Task) (v : pyval) : Task :=
  mk_Task v (title t) (description t) (category t) (priority t) (status t)
          (created_at t) (updated_at t) (due_date t) (completed_at t).

(** [Task.update_status] *)
Definition update_status (self : Task) (new_status : Status) : M Task :=
  (updated <- now ;;
   let self1 := mk_Task (id self) (title self) (description self) (category self)
                        (priority self) new_status (created_at self) updated
                        (due_date self) (completed_at self) in
   if Status_eqb new_status COMPLETED then
     (completed <- now ;;
      ret (mk_Task (id self1) (title self1) (description self1) (category self1)
                   (priority self1) (status self1) (created_at self1)
                   (updated_at self1) (due_date self1) (Some completed)))
   else ret self1)%M.

(** [Task.is_overdue] *)
Definition is_overdue (self : Task) : M bool :=
  match due_date self with
  | Some due =>
      if negb (Status_eqb (status self) COMPLETED)
      then (n <- now ;; ret (datetime_ltb due n))%M
      else ret false
  | None => ret false
  end.

Definition opt_isoformat (d : option datetime) : pyval :=
  match d with
  | Some d => PStr (isoformat d)
  | None => PNone
  end.

(** [Task.to_dict] *)
Definition to_dict (self : Task) : pyval :=
  PDict [("id", id self);
         ("title", title self);
         ("description", description self);
         ("category", category self);
         ("priority", PStr (Priority_value (priority self)));
         ("status", PStr (Status_value (status self)));
         ("created_at", PStr (isoformat (created_at self)));
         ("updated_at", PStr (isoformat (updated_at self)));
         ("due_date", opt_isoformat (due_date self));
         ("completed_at", opt_isoformat (completed_at self))].

(** [Task.from_dict] *)
Definition from_dict (data : pyval) : M Task :=
  (ttl <- lift (py_getitem data "title") ;;
   desc <- lift (py_get data "description" (PStr "")) ;;
   cat <- lift (py_get data "category" (PStr "General")) ;;
   pv <- lift (py_get data "priority" (PStr (Priority_value MEDIUM))) ;;
   prio <- lift (Priority_of pv) ;;
   task <- Task_init ttl desc cat prio None ;;
   i <- lift (py_get data "id" PNone) ;;
   sv <- lift (py_get data "status" (PStr (Status_value PENDING))) ;;
   st <- lift (Status_of sv) ;;
   cv <- lift (py_getitem data "created_at") ;;
   created <- lift (py_fromisoformat cv) ;;
   uv <- lift (py_getitem data "updated_at") ;;
   updated <- lift (py_fromisoformat uv) ;;
   dv <- lift (py_get data "due_date" PNone) ;;
   due <- (if py_truthy dv
           then (d <- lift (py_fromisoformat dv) ;; ret (Some d))
           else ret (due_date task)) ;;
   ov <- lift (py_get data "completed_at" PNone) ;;
   completed <- (if py_truthy ov
                 then (d <- lift (py_fromisoformat ov) ;; ret (Some d))
                 else ret (completed_at task)) ;;
   ret (mk_Task i (title task) (description task) (category task) (priority task)
                st created updated due completed))%M.

(** ** class TaskManager

    The list [self.tasks] holds one object per task, each created by a
    call of [Task] and stored once; a method that changes "the task
    [get_task] returned" therefore changes the first task of the list
    with that id, which is how the list of values below is updated. *)

Record TaskManager : Type := mk_TaskManager {
  filename : string;
  tasks : list Task;
  next_id : pyval
}.

Definition load_classes (e : exn) : bool :=
  match e with
  | JSONDecodeError | KeyError _ | FileNotFoundError => true
  | _ => false
  end.

(** [TaskManager.load_tasks] *)
Definition load_tasks (self : TaskManager) : M TaskManager :=
  try_except
    (present <- path_exists ;;
     if present : bool then
       (data <- json_load ;;
        tv <- lift (py_getitem data "tasks") ;;
        items <- lift (py_iter tv) ;;
        loaded <- mapM from_dict items ;;
        nid <- lift (py_get data "next_id" (PInt 1)) ;;
        ret (mk_TaskManager (filename self) loaded nid))
     else ret self)%M
    load_classes
    (fun e =>
       (print (ErrorLoadingTasks e) ;;
        ret (mk_TaskManager (filename self) [] (PInt 1)))%M).

(** [TaskManager.__init__] *)
Definition TaskManager_init (filename : string) : M TaskManager :=
  load_tasks (mk_TaskManager filename [] (PInt 1)).

(** The document [save_tasks] writes. *)
Definition document (self : TaskManager) : pyval :=
  PDict [("tasks", PList (map to_dict (tasks self)));
         ("next_id", next_id self)].

(** [TaskManager.save_tasks]; the values of a store are all values JSON
    can carry, and the file is taken to be writable, so the handler is
    there for the shape of the source only. *)
Definition save_tasks (self : TaskManager) : M unit :=
  try_except
    (json_dump (document self))
    (fun _ => true)
    (fun e => print (ErrorSavingTasks e)).

(** [TaskManager.add_task] *)
Definition add_task (self : TaskManager) (title description category : pyval)
    (priority : Priority) (due_date : option string) : M (Task * TaskManager) :=
  (task0 <- Task_init title description category priority due_date ;;
   let task := set_id task0 (next_id self) in
   nid <- lift (py_add_one (next_id self)) ;;
   let self' := mk_TaskManager (filename self) (tasks self ++ [task]) nid in
   save_tasks self' ;;
   ret (task, self'))%M.

(** [TaskManager.get_task] *)
Definition get_task (self : TaskManager) (task_id : Z) : option Task :=
  find (fun task => py_eq_int (id task) task_id) (tasks self).

(** The list with its first element satisfying [p] replaced by [t']. *)
Fixpoint replace_first (p : Task -> bool) (t' : Task) (l : list Task) : list Task :=
  match l with
  | [] => []
  | t :: l' => if p t then t' :: l' else t :: replace_first p t' l'
  end.

(** The list without its first element satisfying [p]. *)
Fixpoint remove_first (p : Task -> bool) (l : list Task) : list Task :=
  match l with
  | [] => []
  | t :: l' => if p t then l' else t :: remove_first p l'
  end.

(** [TaskManager.update_task_status] *)
Definition update_task_status (self : TaskManager) (task_id : Z) (new_status : Status)
    : M (bool * TaskManager) :=
  match get_task self task_id with
  | Some task =>
      (task' <- update_status task new_status ;;
       let self' := mk_TaskManager (filename self)
                      (replace_first (fun t => py_eq_int (id t) task_id) task' (tasks self))
                      (next_id self) in
       save_tasks self' ;;
       ret (true, self'))%M
  | None => ret (false, self)
  end.

(** [TaskManager.delete_task] *)
Definition delete_task (self : TaskManager) (task_id : Z) : M (bool * TaskManager) :=
  match get_task self task_id with
  | Some task =>
      (let self' := mk_TaskManager (filename self)
                      (remove_first (fun t => py_eq_int (id t) task_id) (tasks self))
                      (next_id self) in
       save_tasks self' ;;
       ret (true, self'))%M
  | None => ret (false, self)
  end.

(** [TaskManager.get_tasks_by_status] *)
Definition get_tasks_by_status (self : TaskManager) (s : Status) : list Task :=
  filter (fun task => Status_eqb (status task) s) (tasks self).

(** [v.lower()]: a method of [str] only. *)
Definition py_lower (v : pyval) : result string :=
  match v with
  | PStr s => Ok (lower s)
  | _ => Raise AttributeError
  end.

Fixpoint rfilter {A} (p : A -> result bool) (l : list A) : result (list A) :=
  match l with
  | [] => Ok []
  | x :: l' =>
      (b <- p x ;; ys <- rfilter p l' ;; Ok (if b then x :: ys else ys))%result
  end.

(** [TaskManager.get_tasks_by_category] *)
Definition get_tasks_by_category (self : TaskManager) (category_ : string)
    : result (list Task) :=
  rfilter (fun task => (c <- py_lower (category task) ;;
                        Ok (String.eqb c (lower category_)))%result)
          (tasks self).

(** [TaskManager.get_overdue_tasks] *)
Definition get_overdue_tasks (self : TaskManager) : M (list Task) :=
  filterM is_overdue (tasks self).

(** Whether [a] and [b] are one element of a [set]: equal numbers
    ([bool] counting as 0 and 1), equal strings, or both [None]; two
    not-a-number floats read from a document are the same object. *)
Definition set_same (a b : pyval) : bool :=
  match a, b with
  | PNone, PNone => true
  | PStr s, PStr t => String.eqb s t
  | PInt n, v | v, PInt n => py_eq_int v n
  | PBool x, v | v, PBool x => py_eq_int v (Z_of_bool x)
  | PFloat S754_nan, PFloat S754_nan => true
  | PFloat f, PFloat g => SFeqb f g
  | _, _ => false
  end.

Definition hashable (v : pyval) : bool :=
  match v with
  | PList _ | PDict _ => false
  | _ => true
  end.

(** [set(xs)], its elements listed in the order they were first added
    (Python fixes no order for them). *)
Fixpoint py_set (xs : list pyval) (acc : list pyval) : result (list pyval) :=
  match xs with
  | [] => Ok acc
  | x :: xs' =>
      if hashable x
      then py_set xs' (if existsb (set_same x) acc then acc else acc ++ [x])
      else Raise TypeError
  end.

(** [TaskManager.get_categories] *)
Definition get_categories (self : TaskManager) : result (list pyval) :=
  py_set (map category (tasks self)) [].

Record Statistics : Type := mk_Statistics {
  total : Z;
  completed : Z;
  pending : Z;
  in_progress : Z;
  overdue : Z;
  completion_rate : pyval
}.

Definition len {A} (l : list A) : Z := Z.of_nat (List.length l).

(** [a / b] for integers, [b] not 0: the quotient of the two floats,
    which is the correctly rounded quotient Python computes when both
    integers are below 2^53 in magnitude, as the lengths of lists are. *)
Definition truediv (a b : Z) : spec_float := fdiv (float_of_Z a) (float_of_Z b).

(** [TaskManager.get_statistics] *)
Definition get_statistics (self : TaskManager) : M Statistics :=
  (let total := len (tasks self) in
   let completed := len (filter (fun t => Status_eqb (status t) COMPLETED) (tasks self)) in
   let pending := len (filter (fun t => Status_eqb (status t) PENDING) (tasks self)) in
   let in_progress := len (filter (fun t => Status_eqb (status t) IN_PROGRESS) (tasks self)) in
   late <- get_overdue_tasks self ;;
   let overdue := len late in
   ret (mk_Statistics total completed pending in_progress overdue
          (if 0 <? total
           then PFloat (fmul (truediv completed total) (float_of_Z 100))
           else PInt 0)))%M.

(** ** The full listing of [TaskManagerApp.view_all_tasks] *)

(** [a < b] on the keys [(t.priority.value, t.due_date or datetime.max)]:
    tuples compare by their first differing component, strings by code
    points. *)
Definition sort_key (t : Task) : string * datetime :=
  (Priority_value (priority t),
   match due_date t with Some d => d | None => datetime_max end).

Definition key_ltb (a b : string * datetime) : bool :=
  match String.compare (fst a) (fst b) with
  | Lt => true
  | Gt => false
  | Eq => datetime_ltb (snd a) (snd b)
  end.

(** [sorted(xs, key=...)]: the stable sort, by insertion from the right:
    an element goes before the elements already placed that are not
    smaller than it. *)
Fixpoint insert_by_key (x : Task) (l : list Task) : list Task :=
  match l with
  | [] => [x]
  | y :: l' =>
      if key_ltb (sort_key y) (sort_key x) then y :: insert_by_key x l'
      else x :: y :: l'
  end.

Definition sorted_tasks (l : list Task) : list Task :=
  fold_right insert_by_key [] l.

(** ** Sequences of calls

    A store is driven by calls of [add_task] and [delete_task]; running a
    sequence of them collects the tasks the calls of [add_task] return. *)

Inductive call : Type :=
| Add (title description category : pyval) (priority : Priority)
      (due_date : option string)
| Delete (task_id : Z).

Fixpoint run_calls (cs : list call) (self : TaskManager) : M (list Task * TaskManager) :=
  match cs with
  | [] => ret ([], self)
  | Add t d c p due :: cs' =>
      (r <- add_task self t d c p due ;;
       rest <- run_calls cs' (snd r) ;;
       ret (fst r :: fst rest, snd rest))%M
  | Delete i :: cs' =>
      (r <- delete_task self i ;;
       run_calls cs' (snd r))%M
  end.

Definition is_Add (c : call) : bool :=
  match c with
  | Add _ _ _ _ _ => true
  | Delete _ => false
  end.

(** ** Notions the properties are stated with *)

(** The number of tasks of [l] that satisfy [p]. *)
Fixpoint count_if (p : Task -> bool) (l : list Task) : Z :=
  match l with
  | [] => 0
  | t :: l' => (if p t then 1 else 0) + count_if p l'
  end.

(** The task has the status [s]. *)
Definition has_status (s : Status) (t : Task) : bool := Status_eqb (status t) s.

(** A task is overdue at the time [n]: it has a due date, [n] is later
    than it, and the task is not completed. *)
Definition overdue_at (n : datetime) (t : Task) : bool :=
  match due_date t with
  | Some due => negb (has_status COMPLETED t) && datetime_ltb due n
  | None => false
  end.

(** Some task of the store has an id equal to [task_id]. *)
Definition has_id (self : TaskManager) (task_id : Z) : Prop :=
  exists t, In t (tasks self) /\ py_eq_int (id t) task_id = true.

(** The world after two readings of the clock. *)
Definition tick2 (w : World) : World :=
  mk_World (disk w) (clock w) (S (S (ticks w))) (stdout w).

(** The ids a store holds are integers from 1 up to, and not
    including, its [next_id], no two of them equal. *)
Definition ids_below (n : Z) (l : list Task) : Prop :=
  (forall t, In t l -> exists k, id t = PInt k /\ 1 <= k < n)
  /\ NoDup (map id l).

(** The value is a [str]. *)
Definition is_str (v : pyval) : Prop := exists s, v = PStr s.

(** The tasks whose category, folded to lower case, is that of [c]. *)
Definition same_category (c : string) (t : Task) : bool :=
  match category t with
  | PStr s => String.eqb (lower s) (lower c)
  | _ => false
  end.

(** [ParseDate] as the specification words it: the form [YYYY-MM-DD] is
    tried first, then [DD/MM/YYYY], and the answer is none when both
    fail. *)
Definition ParseDate_spec (text : string) : option datetime :=
  match strptime text fmt_ymd with
  | Ok d => Some d
  | Raise _ =>
      match strptime text fmt_dmy with
      | Ok d => Some d
      | Raise _ => None
      end
  end.

(** Every character of [s] satisfies [p]. *)
Fixpoint all_chars (p : ascii -> bool) (s : string) : bool :=
  match s with
  | EmptyString => true
  | String c s' => p c && all_chars p s'
  end.

(** The characters an expression can consume. *)
Fixpoint re_ok (r : re) (c : ascii) : bool :=
  match r with
  | ReChar c' => Ascii.eqb c' c
  | ReDigit => is_digit c
  | ReRange lo hi => in_range lo hi c
  | ReSeq r1 r2 | ReAlt r1 r2 => re_ok r1 c || re_ok r2 c
  end.

(** The item is the literal character [c]. *)
Definition is_literal (c : ascii) (i : fmt_item) : bool :=
  match i with
  | Literal c' => Ascii.eqb c' c
  | Directive _ => false
  end.

(** The characters a format can consume: digits and blanks for its
    directives, and its literal characters. *)
Definition fmt_ok (f : list fmt_item) (c : ascii) : bool :=
  is_digit c || Ascii.eqb " " c || existsb (is_literal c) f.

(** The timestamp, when there is one, is a datetime within the ranges
    of the [datetime] class. *)
Definition valid_opt (d : option datetime) : bool :=
  match d with
  | Some d => valid_datetime d
  | None => true
  end.

(** The same for all four timestamps of a task. *)
Definition valid_task (t : Task) : bool :=
  valid_datetime (created_at t) && valid_datetime (updated_at t)
  && valid_opt (due_date t) && valid_opt (completed_at t).

(** The label of a task's priority. *)
Definition label (t : Task) : string := Priority_value (priority t).

(** Strings in lexicographic order of their code points. *)
Definition str_lt (a b : string) : Prop := String.compare a b = Lt.

(** The date a task is listed by: its due date, or [datetime.max] when
    it has none. *)
Definition due_or_max (t : Task) : datetime :=
  match due_date t with
  | Some d => d
  | None => datetime_max
  end.

(** The order of the full listing: [a] may stand before [b] when its
    label is the smaller text, or the labels are equal and [a] is listed
    by a date no later than that of [b]. *)
Definition listed_before (a b : Task) : Prop :=
  str_lt (label a) (label b)
  \/ (label a = label b /\ datetime_leb (due_or_max a) (due_or_max b) = true).

(** The comparison of sort keys, of which [key_ltb] is the [Lt] case. *)
Definition key_compare (a b : string * datetime) : comparison :=
  match String.compare (fst a) (fst b) with
  | Eq => datetime_compare (snd a) (snd b)
  | c => c
  end.

(** [a] is not after [b] in the listing: the key of [b] is not smaller. *)
Definition task_le (a b : Task) : Prop := key_ltb (sort_key b) (sort_key a) = false.

(** The two tasks have the same sort key. *)
Definition same_key (t u : Task) : bool :=
  String.eqb (label t) (label u) && datetime_eqb (due_or_max t) (due_or_max u).

(** The reading of the specification: among tasks of one label, none
    without a due date stands before one with a due date. *)
Definition absent_last (l : list Task) : Prop :=
  forall (l1 l2 l3 : list Task) (a b : Task),
    l = l1 ++ a :: l2 ++ b :: l3 ->
    label a = label b -> due_date a = None -> due_date b = None.

(** The due date of the task, when it has one, is a datetime other than
    [datetime.max], the date the sort key puts in the place of a missing
    due date.  The due dates [Task.__init__] sets are midnights, which
    are of this kind. *)
Definition due_before_max (t : Task) : Prop :=
  forall d, due_date t = Some d -> valid_datetime d = true /\ d <> datetime_max.

(** Among tasks of one label: [a] is due no later than [b], a task
    without a due date coming after every task that has one. *)
Definition due_no_later (a b : Task) : Prop :=
  match due_date a, due_date b with
  | Some da, Some db => datetime_leb da db = true
  | None, Some _ => False
  | _, None => True
  end.

(** The order of the full listing in the words of the specification:
    [a] may stand before [b] when its label is the smaller text, or the
    labels are equal and [a] is due no later, a missing due date being
    last. *)
Definition listed_as_specified (a b : Task) : Prop :=
  str_lt (label a) (label b) \/ (label a = label b /\ due_no_later a b).

(** ** Documents, tasks and stores used in the examples *)

(** The dictionary of one task. *)
Definition entry (i : Z) (ttl cat prio st created updated : string)
    (due completed : pyval) : pyval :=
  PDict [("id", PInt i); ("title", PStr ttl); ("description", PStr "");
         ("category", PStr cat); ("priority", PStr prio); ("status", PStr st);
         ("created_at", PStr created); ("updated_at", PStr updated);
         ("due_date", due); ("completed_at", completed)].

(** One task, whose priority is no label of [Priority]. *)
Definition doc_bad_priority : pyval :=
  PDict [("tasks", PList [entry 1 "Buy milk" "General" "Critical" "Pending"
                                "2024-03-15T10:00:00" "2024-03-15T10:00:00"
                                PNone PNone]);
         ("next_id", PInt 2)].

(** One task, whose status is no label of [Status]. *)
Definition doc_bad_status : pyval :=
  PDict [("tasks", PList [entry 1 "Buy milk" "General" "Medium" "Done"
                                "2024-03-15T10:00:00" "2024-03-15T10:00:00"
                                PNone PNone]);
         ("next_id", PInt 2)].

(** One task, whose creation time is no timestamp. *)
Definition doc_bad_timestamp : pyval :=
  PDict [("tasks", PList [entry 1 "Buy milk" "General" "Medium" "Pending"
                                "yesterday" "2024-03-15T10:00:00"
                                PNone PNone]);
         ("next_id", PInt 2)].

(** One task with the id 1, and no [next_id]. *)
Definition doc_no_next_id : pyval :=
  PDict [("tasks", PList [entry 1 "Buy milk" "General" "Medium" "Pending"
                                "2024-03-15T10:00:00" "2024-03-15T10:00:00"
                                PNone PNone])].

(** A clock that advances by one microsecond per reading. *)
Definition clock_example (n : nat) : datetime :=
  mk_datetime 2024 3 15 10 0 0 (Z.of_nat n).

(** A world with that clock, before any reading and any output. *)
Definition world_of (d : file_state) : World := mk_World d clock_example 0 [].

(** A completed task with a due date. *)
Definition task_example : Task :=
  mk_Task (PInt 7) (PStr "Buy milk") (PStr "two litres") (PStr "Home") HIGH COMPLETED
          (mk_datetime 2024 3 15 10 0 0 123456) (mk_datetime 2024 3 16 9 30 0 0)
          (Some (mk_datetime 2024 3 20 0 0 0 0))
          (Some (mk_datetime 2024 3 16 9 30 0 1)).

(** The task [doc_no_next_id] holds. *)
Definition task_loaded : Task :=
  mk_Task (PInt 1) (PStr "Buy milk") (PStr "") (PStr "General") MEDIUM PENDING
          (mk_datetime 2024 3 15 10 0 0 0) (mk_datetime 2024 3 15 10 0 0 0)
          None None.

(** A store with the categories [Work] and [work]. *)
Definition task_in (i : Z) (cat : string) : Task :=
  mk_Task (PInt i) (PStr "Send the report") (PStr "") (PStr cat) MEDIUM PENDING
          (mk_datetime 2024 3 15 10 0 0 0) (mk_datetime 2024 3 15 10 0 0 0)
          None None.

Definition store_mixed_case : TaskManager :=
  mk_TaskManager "tasks.json" [task_in 1 "Work"; task_in 2 "work"; task_in 3 "Home"]
                 (PInt 4).

(** Two tasks of priority [LOW]: the first without a due date, the
    second due at [datetime.max]. *)
Definition task_undated : Task :=
  mk_Task (PInt 1) (PStr "Water the plants") (PStr "") (PStr "General") LOW PENDING
          (mk_datetime 2024 3 15 10 0 0 0) (mk_datetime 2024 3 15 10 0 0 0)
          None None.

Definition task_dated_max : Task :=
  mk_Task (PInt 2) (PStr "Renew the lease") (PStr "") (PStr "General") LOW PENDING
          (mk_datetime 2024 3 15 10 0 0 0) (mk_datetime 2024 3 15 10 0 0 0)
          (Some datetime_max) None.

(** The document of a store that holds these two tasks, in this order. *)
Definition doc_undated_first : pyval :=
  PDict [("tasks",
          PList [entry 1 "Water the plants" "General" "Low" "Pending"
                       "2024-03-15T10:00:00" "2024-03-15T10:00:00" PNone PNone;
                 entry 2 "Renew the lease" "General" "Low" "Pending"
                       "2024-03-15T10:00:00" "2024-03-15T10:00:00"
                       (PStr "9999-12-31T23:59:59.999999") PNone]);
         ("next_id", PInt 3)].

(** A store to list: two tasks of priority [LOW], the first without a
    due date and the second due on 1 April 2024, a task of priority
    [URGENT] without a due date and two of priority [HIGH], due on
    15 March and 1 March 2024. *)
Definition task_listed (i : Z) (p : Priority) (due : option datetime) : Task :=
  mk_Task (PInt i) (PStr "Pay the rent") (PStr "") (PStr "Home") p PENDING
          (mk_datetime 2024 3 1 9 0 0 0) (mk_datetime 2024 3 1 9 0 0 0) due None.

Definition tasks_to_list : list Task :=
  [task_listed 1 LOW None;
   task_listed 2 LOW (Some (mk_datetime 2024 4 1 0 0 0 0));
   task_listed 3 URGENT None;
   task_listed 4 HIGH (Some (mk_datetime 2024 3 15 0 0 0 0));
   task_listed 5 HIGH (Some (mk_datetime 2024 3 1 0 0 0 0))].

(** Reading the end of a run of digits, in the proofs about timestamps. *)
Ltac read_digits :=
  change (parse_digits 0) with (fun (a : Z) (s : string) => Some (a, s));
  cbn [append].

(** ** Further notions: runs of operations, worlds, stores *)

(** The world after [k] more readings of the clock. *)
Definition advance (k : nat) (w : World) : World :=
  mk_World (disk w) (clock w) (k + ticks w) (stdout w).

(** The clock answers every reading with a datetime within the ranges of
    the [datetime] class, as [datetime.datetime.now()] does. *)
Definition valid_clock (w : World) : Prop :=
  forall k, valid_datetime (clock w k) = true.

(** The calls that change a store. *)
Inductive op : Type :=
| OpAdd (title description category : pyval) (priority : Priority)
        (due_date : option string)
| OpUpdate (task_id : Z) (new_status : Status)
| OpDelete (task_id : Z).

Fixpoint run_ops (ops : list op) (self : TaskManager) : M TaskManager :=
  match ops with
  | [] => ret self
  | OpAdd t d c p due :: ops' =>
      (r <- add_task self t d c p due ;; run_ops ops' (snd r))%M
  | OpUpdate i s :: ops' =>
      (r <- update_task_status self i s ;; run_ops ops' (snd r))%M
  | OpDelete i :: ops' =>
      (r <- delete_task self i ;; run_ops ops' (snd r))%M
  end.

(** The value is no number: [v += 1] is a [TypeError]. *)
Definition non_numeric (v : pyval) : bool :=
  match v with
  | PInt _ | PBool _ | PFloat _ => false
  | PNone | PStr _ | PList _ | PDict _ => true
  end.

(** The text of a date in the two notations [_parse_date] reads. *)
Definition text_ymd (y m d : Z) : string :=
  (zpad4 y ++ "-" ++ zpad2 m ++ "-" ++ zpad2 d)%string.
Definition text_dmy (y m d : Z) : string :=
  (zpad2 d ++ "/" ++ zpad2 m ++ "/" ++ zpad4 y)%string.

(** ** The settings of [TaskManagerApp]

    [clear_completed_tasks] and [reset_all_tasks] ask for a confirmation
    with [get_user_input]; the text it returns is the argument [answer]
    here, and the lines the methods print are returned with the store. *)

Inductive notice : Type :=
| NoCompletedTasks
| FoundCompleted (n : Z)
| CompletedCleared
| NoTasksToReset
| WillDeleteAll (n : Z)
| AllTasksReset
| OperationCancelled.

(** [TaskManagerApp.clear_completed_tasks] *)
Definition clear_completed_tasks (self : TaskManager) (answer : string)
    : M (list notice * TaskManager) :=
  let completed_tasks := get_tasks_by_status self COMPLETED in
  match completed_tasks with
  | [] => ret ([NoCompletedTasks], self)
  | _ :: _ =>
      let confirm := lower answer in
      if String.eqb confirm "yes" || String.eqb confirm "y" then
        (let self' :=
           mk_TaskManager (filename self)
             (filter (fun t => negb (Status_eqb (status t) COMPLETED)) (tasks self))
             (next_id self) in
         save_tasks self' ;;
         ret ([FoundCompleted (len completed_tasks); CompletedCleared], self'))%M
      else ret ([FoundCompleted (len completed_tasks); OperationCancelled], self)
  end.

(** [TaskManagerApp.reset_all_tasks] *)
Definition reset_all_tasks (self : TaskManager) (answer : string)
    : M (list notice * TaskManager) :=
  match tasks self with
  | [] => ret ([NoTasksToReset], self)
  | _ :: _ =>
      if String.eqb answer "DELETE ALL" then
        (let self' := mk_TaskManager (filename self) [] (PInt 1) in
         save_tasks self' ;;
         ret ([WillDeleteAll (len (tasks self)); AllTasksReset], self'))%M
      else ret ([WillDeleteAll (len (tasks self)); OperationCancelled], self)
  end.

(** A store as the operations keep it: [next_id] is a positive integer,
    the ids are positive integers below it, pairwise different, and the
    timestamps are datetimes within the ranges of the [datetime] class. *)
Definition store_ok (self : TaskManager) : Prop :=
  exists n,
    next_id self = PInt n /\ 1 <= n /\ ids_below n (tasks self)
    /\ forallb valid_task (tasks self) = true.

(** The exceptions reading a document can end in. *)
Definition reading_exn (e : exn) : bool :=
  match e with
  | TypeError | ValueError | KeyError _ => true
  | JSONDecodeError | FileNotFoundError | AttributeError => false
  end.

(** The world [w'] differs from [w] in the readings of the clock at most. *)
Definition quiet (w w' : World) : Prop :=
  disk w' = disk w /\ clock w' = clock w /\ stdout w' = stdout w.

(** A computation that neither writes the file nor prints, and ends in a
    value or in one of the exceptions of [reading_exn]. *)
Definition reads {A} (m : M A) : Prop :=
  forall w, exists r w',
    m w = (r, w') /\ quiet w w'
    /\ match r with
       | Ok _ => True
       | Raise e => reading_exn e = true
       end.

(** A store of two tasks, and a world whose clock stands still. *)
Definition store_example : TaskManager :=
  mk_TaskManager "tasks.json" [task_example; task_loaded] (PInt 8).

Definition world_still (d : file_state) : World :=
  mk_World d (fun _ => mk_datetime 2024 3 15 12 0 0 0) 0 [].

(** A run: two tasks are added, the first is completed and then deleted. *)
Definition ops_example : list op :=
  [OpAdd (PStr "Buy milk") (PStr "") (PStr "General") MEDIUM (Some "15/03/2024");
   OpAdd (PStr "Send the report") PNone (PStr "Work") HIGH None;
   OpUpdate 1 COMPLETED;
   OpDelete 1].

(** A task that is due on 15 March 2024 and not completed. *)
Definition task_due : Task :=
  mk_Task (PInt 3) (PStr "Pay the rent") (PStr "") (PStr "Home") HIGH IN_PROGRESS
          (mk_datetime 2024 3 1 9 0 0 0) (mk_datetime 2024 3 2 9 0 0 0)
          (Some (mk_datetime 2024 3 15 0 0 0 0)) None.

(** The items of a dictionary with a title and the two timestamps only. *)
Definition items_minimal : list (string * pyval) :=
  [("title", PStr "Buy milk");
   ("created_at", PStr "2024-03-15T10:00:00");
   ("updated_at", PStr "2024-03-15T10:00:00")].

(** A document whose second entry has no title. *)
Definition doc_untitled : pyval :=
  PDict [("tasks",
          PList [entry 1 "Buy milk" "General" "Medium" "Pending"
                       "2024-03-15T10:00:00" "2024-03-15T10:00:00" PNone PNone;
                 PDict [("id", PInt 2); ("created_at", PStr "2024-03-15T10:00:00")]]);
         ("next_id", PInt 3)].

(** A store whose [next_id] is a string, and one whose second task has
    a list of labels for its category. *)
Definition store_text_next_id : TaskManager :=
  mk_TaskManager "tasks.json" [] (PStr "7").

Definition task_uncategorised : Task :=
  mk_Task (PInt 2) (PStr "Call the bank") (PStr "")
          (PList [PStr "Work"; PStr "Home"]) MEDIUM PENDING
          (mk_datetime 2024 3 15 10 0 0 0) (mk_datetime 2024 3 15 10 0 0 0)
          None None.

Definition store_uncategorised : TaskManager :=
  mk_TaskManager "tasks.json" [task_in 1 "Work"; task_uncategorised] (PInt 3).

(* ================================================================== *)
(** * Properties *)

(** ** Status transitions *)

Lemma Status_eqb_eq (a b : Status) : Status_eqb a b = true <-> a = b.
Proof. destruct a, b; simpl; split; intro H; try reflexivity; discriminate H. Qed.

Lemma Status_eqb_neq (a b : Status) : Status_eqb a b = false <-> a <> b.
Proof.
  rewrite <- (Status_eqb_eq a b).
  destruct (Status_eqb a b); split; intro H; try reflexivity;
    try discriminate H; try (intro H'; discriminate H').
  exfalso; apply H; reflexivity.
Qed.

Lemma update_status_run (t : Task) (s : Status) (w : World) :
  exists t' w',
    update_status t s w = (Ok t', w') /\ status t' = s /\ id t' = id t.
Proof.
  unfold update_status, bind, now, ret.
  destruct (Status_eqb s COMPLETED); do 2 eexists; split; reflexivity || (split; reflexivity).
Qed.

(** C4: [update_status] accepts every new status from every task: it
    never raises, stores the new status, sets [updated_at] to the
    reading of the clock it takes, sets [completed_at] (to the next
    reading) when the new status is [COMPLETED] and leaves it as it was
    for every other new status, also when the old status was
    [COMPLETED]; so [completed_at] is written if and only if the new
    status is [COMPLETED].  Nothing else of the task changes. *)
Theorem update_status_spec (t : Task) (s : Status) (w : World) :
  exists t' w',
    update_status t s w = (Ok t', w')
    /\ status t' = s
    /\ updated_at t' = clock w (ticks w)
    /\ (s = COMPLETED -> completed_at t' = Some (clock w (S (ticks w))))
    /\ (s <> COMPLETED -> completed_at t' = completed_at t)
    /\ (ticks w' = S (S (ticks w)) <-> s = COMPLETED)
    /\ (ticks w' = S (ticks w) <-> s <> COMPLETED)
    /\ id t' = id t /\ title t' = title t /\ description t' = description t
    /\ category t' = category t /\ priority t' = priority t
    /\ created_at t' = created_at t /\ due_date t' = due_date t
    /\ disk w' = disk w /\ stdout w' = stdout w.
Proof.
  unfold update_status, bind, now, ret.
  destruct s; simpl; eexists; eexists; (split; [reflexivity|]); simpl;
    repeat split; try reflexivity; try congruence; try lia;
    intros; try discriminate; try congruence; try lia.
Qed.

(** ** Operations addressed by id *)

Lemma get_task_Some (self : TaskManager) (task_id : Z) (t : Task) :
  get_task self task_id = Some t ->
  exists l1 l2,
    tasks self = l1 ++ t :: l2
    /\ py_eq_int (id t) task_id = true
    /\ Forall (fun u => py_eq_int (id u) task_id = false) l1.
Proof.
  unfold get_task. generalize (tasks self) as l.
  induction l as [|u l IH]; simpl; intro H; [discriminate|].
  destruct (py_eq_int (id u) task_id) eqn:E.
  - injection H as ->. exists [], l. repeat split; auto.
  - destruct (IH H) as (l1 & l2 & -> & Ht & Hl1).
    exists (u :: l1), l2. repeat split; auto.
Qed.

Lemma get_task_None (self : TaskManager) (task_id : Z) :
  get_task self task_id = None <-> ~ has_id self task_id.
Proof.
  unfold get_task, has_id. split.
  - intros H (t & Hin & Ht).
    apply (find_none _ _ H) in Hin. simpl in Hin. congruence.
  - intro H. destruct (find _ _) as [t|] eqn:E; [|reflexivity].
    exfalso. apply H. apply find_some in E. exists t. exact E.
Qed.

Lemma replace_first_split (p : Task -> bool) (t' t : Task) (l1 l2 : list Task) :
  Forall (fun u => p u = false) l1 -> p t = true ->
  replace_first p t' (l1 ++ t :: l2) = l1 ++ t' :: l2.
Proof.
  intros H Ht. induction H as [|u l1 Hu _ IH]; simpl.
  - rewrite Ht. reflexivity.
  - rewrite Hu, IH. reflexivity.
Qed.

Lemma remove_first_split (p : Task -> bool) (t : Task) (l1 l2 : list Task) :
  Forall (fun u => p u = false) l1 -> p t = true ->
  remove_first p (l1 ++ t :: l2) = l1 ++ l2.
Proof.
  intros H Ht. induction H as [|u l1 Hu _ IH]; simpl.
  - rewrite Ht. reflexivity.
  - rewrite Hu, IH. reflexivity.
Qed.

Lemma save_tasks_run (self : TaskManager) (w : World) :
  save_tasks self w
  = (Ok tt, mk_World (Parsed (document self)) (clock w) (ticks w) (stdout w)).
Proof. reflexivity. Qed.

(** C5: [update_task_status] and [delete_task] never raise.  Each
    answers [True] exactly when some task of the store has the given id;
    it then changes the store (the first task with that id gets the new
    status, respectively leaves the list, the rest of the list and
    [next_id] staying as they were) and the file then holds the document
    of the changed store.  When no task has the id, each answers [False]
    and the store, the file, the clock and the output are what they
    were. *)
Theorem update_delete_by_id (self : TaskManager) (task_id : Z) (s : Status) (w : World) :
  (exists b self' w',
      update_task_status self task_id s w = (Ok (b, self'), w')
      /\ (b = true <-> has_id self task_id)
      /\ (b = true ->
          disk w' = Parsed (document self')
          /\ next_id self' = next_id self /\ filename self' = filename self
          /\ exists l1 t l2 t',
              tasks self = l1 ++ t :: l2
              /\ tasks self' = l1 ++ t' :: l2
              /\ py_eq_int (id t) task_id = true
              /\ Forall (fun u => py_eq_int (id u) task_id = false) l1
              /\ status t' = s /\ id t' = id t)
      /\ (b = false -> self' = self /\ w' = w))
  /\
  (exists b self' w',
      delete_task self task_id w = (Ok (b, self'), w')
      /\ (b = true <-> has_id self task_id)
      /\ (b = true ->
          disk w' = Parsed (document self')
          /\ next_id self' = next_id self /\ filename self' = filename self
          /\ exists l1 t l2,
              tasks self = l1 ++ t :: l2
              /\ tasks self' = l1 ++ l2
              /\ py_eq_int (id t) task_id = true
              /\ Forall (fun u => py_eq_int (id u) task_id = false) l1)
      /\ (b = false -> self' = self /\ w' = w)).
Proof.
  split.
  - unfold update_task_status.
    destruct (get_task self task_id) as [t|] eqn:G.
    + destruct (get_task_Some _ _ _ G) as (l1 & l2 & Hl & Ht & Hl1).
      destruct (update_status_run t s w) as (t' & w1 & Hu & Hs & Hid).
      unfold bind at 1. rewrite Hu.
      unfold bind. rewrite save_tasks_run. unfold ret.
      do 3 eexists. split; [reflexivity|]. split; [|split].
      * split; [intros _|reflexivity]. exists t. split; [|exact Ht].
        rewrite Hl. apply in_or_app. right. left. reflexivity.
      * intros _. simpl. repeat split.
        exists l1, t, l2, t'. rewrite Hl at 2.
        rewrite (replace_first_split _ t' t l1 l2 Hl1 Ht). auto 10.
      * discriminate.
    + exists false, self, w. split; [reflexivity|]. split; [|split].
      * split; [discriminate|]. intro H. exfalso.
        apply (proj1 (get_task_None _ _) G H).
      * discriminate.
      * auto.
  - unfold delete_task.
    destruct (get_task self task_id) as [t|] eqn:G.
    + destruct (get_task_Some _ _ _ G) as (l1 & l2 & Hl & Ht & Hl1).
      unfold bind. rewrite save_tasks_run. unfold ret.
      do 3 eexists. split; [reflexivity|]. split; [|split].
      * split; [intros _|reflexivity]. exists t. split; [|exact Ht].
        rewrite Hl. apply in_or_app. right. left. reflexivity.
      * intros _. simpl. repeat split.
        exists l1, t, l2. rewrite Hl at 2.
        rewrite (remove_first_split _ t l1 l2 Hl1 Ht). auto 10.
      * discriminate.
    + exists false, self, w. split; [reflexivity|]. split; [|split].
      * split; [discriminate|]. intro H. exfalso.
        apply (proj1 (get_task_None _ _) G H).
      * discriminate.
      * auto.
Qed.

(** ** Construction of tasks *)

Lemma datetime_new_raises (y m d h mi s us : Z) (e : exn) :
  datetime_new y m d h mi s us = Raise e -> e = ValueError.
Proof.
  unfold datetime_new. destruct (_ && _); intro H; [discriminate|].
  injection H as <-. reflexivity.
Qed.

Lemma strptime_raises (s : string) (f : list fmt_item) (e : exn) :
  strptime s f = Raise e -> e = ValueError.
Proof.
  unfold strptime. destruct (fmt_match f s) as [|[found rest] ?].
  - intro H. injection H as <-. reflexivity.
  - destruct (negb _).
    + intro H. injection H as <-. reflexivity.
    + apply datetime_new_raises.
Qed.

(** [_parse_date] answers [None] or a date; no exception leaves it. *)
Lemma _parse_date_total (s : string) : exists r, _parse_date s = Ok r.
Proof.
  unfold _parse_date.
  destruct (contains "-" s).
  - destruct (strptime s fmt_ymd) as [d|e] eqn:E; simpl; eauto.
    rewrite (strptime_raises _ _ _ E). eauto.
  - destruct (contains "/" s); [|eauto].
    destruct (strptime s fmt_dmy) as [d|e] eqn:E; simpl; eauto.
    rewrite (strptime_raises _ _ _ E). eauto.
Qed.

Lemma Task_init_run (t d c : pyval) (p : Priority) (due : option string) (w : World) :
  exists dd,
    Task_init t d c p due w
    = (Ok (mk_Task PNone t d c p PENDING (clock w (ticks w)) (clock w (S (ticks w))) dd None),
       tick2 w)
    /\ (due = None \/ due = Some "" -> dd = None)
    /\ (forall s, due = Some s -> s <> "" -> _parse_date s = Ok dd).
Proof.
  unfold Task_init, bind, now, lift, ret, tick2. simpl.
  destruct due as [s|].
  - destruct (String.eqb s "") eqn:E.
    + apply String.eqb_eq in E. subst s. exists None. repeat split; auto.
      intros s [= <-] H. congruence.
    + destruct (_parse_date_total s) as [r Hr]. rewrite Hr. exists r.
      repeat split.
      * intros [H|H]; [discriminate|]. injection H as ->. discriminate.
      * intros s' [= <-] _. exact Hr.
  - exists None. repeat split; auto. discriminate.
Qed.

(** ** Identifiers *)

Lemma add_task_run (f : string) (l : list Task) (n : Z) (t d c : pyval)
    (p : Priority) (due : option string) (w : World) :
  exists task w',
    add_task (mk_TaskManager f l (PInt n)) t d c p due w
    = (Ok (task, mk_TaskManager f (l ++ [task]) (PInt (n + 1))), w')
    /\ id task = PInt n
    /\ title task = t /\ description task = d /\ category task = c
    /\ priority task = p /\ status task = PENDING
    /\ disk w' = Parsed (document (mk_TaskManager f (l ++ [task]) (PInt (n + 1)))).
Proof.
  destruct (Task_init_run t d c p due w) as (dd & H & _).
  unfold add_task, bind at 1. rewrite H. simpl.
  unfold bind, lift, ret. simpl.
  do 2 eexists. split; [reflexivity|]. simpl. repeat split.
Qed.

Lemma ids_below_add (n : Z) (l : list Task) (task : Task) :
  ids_below n l -> id task = PInt n -> 1 <= n -> ids_below (n + 1) (l ++ [task]).
Proof.
  intros [Hr Hn] Hid Hpos. split.
  - intros t Hin. apply in_app_or in Hin. destruct Hin as [Hin|[<-|[]]].
    + destruct (Hr t Hin) as (k & Hk & Hlt). exists k. split; [exact Hk|lia].
    + exists n. split; [exact Hid|lia].
  - rewrite map_app. simpl.
    apply (proj2 (NoDup_Add (Add_app (id task) (map id l) []))).
    rewrite app_nil_r. split; [exact Hn|].
    intro Hin. apply in_map_iff in Hin. destruct Hin as (u & Hu & Hin).
    destruct (Hr u Hin) as (k & Hk & Hlt). rewrite Hk, Hid in Hu.
    injection Hu as ->. lia.
Qed.

Lemma ids_below_remove (n : Z) (l1 l2 : list Task) (t : Task) :
  ids_below n (l1 ++ t :: l2) -> ids_below n (l1 ++ l2).
Proof.
  intros [Hr Hn]. split.
  - intros u Hin. apply Hr. apply in_or_app.
    apply in_app_or in Hin. destruct Hin; [left|right; right]; assumption.
  - rewrite map_app in *. simpl in Hn. apply NoDup_remove_1 in Hn. exact Hn.
Qed.

Lemma delete_task_run (self : TaskManager) (task_id : Z) (w : World) :
  exists b l w',
    delete_task self task_id w
    = (Ok (b, mk_TaskManager (filename self) l (next_id self)), w')
    /\ (l = tasks self \/ exists l1 t l2, tasks self = l1 ++ t :: l2 /\ l = l1 ++ l2).
Proof.
  unfold delete_task. destruct (get_task self task_id) as [t|] eqn:G.
  - destruct (get_task_Some _ _ _ G) as (l1 & l2 & Hl & Ht & Hl1).
    unfold bind. rewrite save_tasks_run. unfold ret.
    do 3 eexists. split; [reflexivity|]. right. exists l1, t, l2.
    split; [exact Hl|]. rewrite Hl. apply remove_first_split; assumption.
  - exists false, (tasks self), w. split; [|left; reflexivity].
    destruct self; reflexivity.
Qed.

Lemma seq_from (n : Z) (m : nat) :
  map (fun k => PInt (n + Z.of_nat k)) (seq 0 (S m))
  = PInt n :: map (fun k => PInt (n + 1 + Z.of_nat k)) (seq 0 m).
Proof.
  simpl. rewrite Z.add_0_r. f_equal.
  rewrite <- seq_shift, map_map. apply map_ext. intro k. f_equal. lia.
Qed.

Lemma run_calls_ids (cs : list call) :
  forall (f : string) (l : list Task) (n : Z) (w : World),
    1 <= n -> ids_below n l ->
    exists added self' w',
      run_calls cs (mk_TaskManager f l (PInt n)) w = (Ok (added, self'), w')
      /\ map id added = map (fun k => PInt (n + Z.of_nat k)) (seq 0 (List.length added))
      /\ List.length added = List.length (filter is_Add cs)
      /\ next_id self' = PInt (n + len added)
      /\ ids_below (n + len added) (tasks self').
Proof.
  induction cs as [|c cs IH]; intros f l n w Hn Hl.
  - exists [], (mk_TaskManager f l (PInt n)), w. simpl. unfold len. simpl.
    rewrite Z.add_0_r. auto.
  - destruct c as [t d c p due|i].
    + destruct (add_task_run f l n t d c p due w) as (task & w1 & Hrun & Hid & _).
      assert (Hl' : ids_below (n + 1) (l ++ [task]))
        by (apply ids_below_add; assumption).
      destruct (IH f (l ++ [task]) (n + 1) w1 ltac:(lia) Hl')
        as (added & self' & w2 & Hrest & Hids & Hlen & Hnext & Hinv).
      exists (task :: added), self', w2.
      simpl run_calls. unfold bind at 1. rewrite Hrun. simpl snd.
      unfold bind at 1. rewrite Hrest. unfold ret. simpl fst. simpl snd.
      split; [reflexivity|].
      assert (E : n + len (task :: added) = n + 1 + len added)
        by (unfold len; simpl List.length; lia).
      rewrite E. repeat split; try assumption.
      * simpl List.length. rewrite seq_from. simpl map at 1.
        rewrite Hid, Hids. reflexivity.
      * simpl. rewrite Hlen. reflexivity.
      * apply Hinv.
      * apply Hinv.
    + destruct (delete_task_run (mk_TaskManager f l (PInt n)) i w)
        as (b & l' & w1 & Hrun & Hl').
      simpl in Hrun, Hl'.
      assert (Hinv' : ids_below n l').
      { destruct Hl' as [->|(l1 & t & l2 & -> & ->)]; [exact Hl|].
        apply ids_below_remove with (t := t). exact Hl. }
      destruct (IH f l' n w1 Hn Hinv')
        as (added & self' & w2 & Hrest & Hids & Hlen & Hnext & Hinv).
      exists added, self', w2.
      simpl run_calls. unfold bind at 1. rewrite Hrun. simpl snd.
      auto.
Qed.

(** C3: Started on an empty store with [next_id] 1, every sequence of
    calls of [add_task] and [delete_task] runs without an exception; the
    tasks its calls of [add_task] return carry the ids 1, 2, 3, ... in
    the order of the calls, whatever was deleted in between, so that no
    id is given twice; [next_id] ends one above the number of calls of
    [add_task]; and the ids in the resulting store are positive
    integers, pairwise different.  A single [add_task] on a store whose
    [next_id] is the integer [n] gives the new task the id [n], appends
    it and leaves [next_id] at [n + 1]; [delete_task] leaves [next_id] as
    it is. *)
Theorem ids_increase_and_are_unique (cs : list call) (f : string) (w : World) :
  (exists added self' w',
      run_calls cs (mk_TaskManager f [] (PInt 1)) w = (Ok (added, self'), w')
      /\ map id added = map (fun k => PInt (Z.of_nat k)) (seq 1 (List.length added))
      /\ List.length added = List.length (filter is_Add cs)
      /\ next_id self' = PInt (1 + len added)
      /\ (forall t, In t (tasks self') ->
          exists k, id t = PInt k /\ 1 <= k <= len added)
      /\ NoDup (map id (tasks self')))
  /\ (forall (l : list Task) (n : Z) (t d c : pyval) (p : Priority)
        (due : option string),
      exists task w',
        add_task (mk_TaskManager f l (PInt n)) t d c p due w
        = (Ok (task, mk_TaskManager f (l ++ [task]) (PInt (n + 1))), w')
        /\ id task = PInt n)
  /\ (forall (self : TaskManager) (i : Z),
      exists b self' w',
        delete_task self i w = (Ok (b, self'), w')
        /\ next_id self' = next_id self).
Proof.
  split; [|split].
  - assert (H0 : ids_below 1 []).
    { split; [intros t []|constructor]. }
    destruct (run_calls_ids cs f [] 1 w ltac:(lia) H0)
      as (added & self' & w' & Hrun & Hids & Hlen & Hnext & Hr & Hn).
    exists added, self', w'. repeat split; try assumption.
    + rewrite Hids, <- seq_shift, map_map. apply map_ext.
      intro k. f_equal. lia.
    + intros t Hin. destruct (Hr t Hin) as (k & Hk & Hlt).
      exists k. split; [exact Hk|lia].
  - intros l n t d c p due.
    destruct (add_task_run f l n t d c p due w) as (task & w' & Hrun & Hid & _).
    exists task, w'. auto.
  - intros self i.
    destruct (delete_task_run self i w) as (b & l & w' & Hrun & _).
    do 3 eexists. split; [exact Hrun|reflexivity].
Qed.

(** ** Statistics *)

Lemma len_filter (p : Task -> bool) (l : list Task) :
  len (filter p l) = count_if p l.
Proof.
  unfold len. induction l as [|t l IH]; simpl; [reflexivity|].
  destruct (p t); simpl List.length; rewrite <- IH; lia.
Qed.

Lemma is_overdue_run (t : Task) (w : World) :
  exists b w',
    is_overdue t w = (Ok b, w')
    /\ disk w' = disk w /\ clock w' = clock w /\ stdout w' = stdout w
    /\ (forall n, (forall k, clock w k = n) -> b = overdue_at n t).
Proof.
  unfold is_overdue, overdue_at, has_status.
  destruct (due_date t) as [due|].
  - destruct (Status_eqb (status t) COMPLETED); simpl.
    + exists false, w. repeat split.
    + unfold bind, now, ret. do 2 eexists. split; [reflexivity|].
      simpl. repeat split. intros n H. rewrite H. reflexivity.
  - exists false, w. repeat split.
Qed.

Lemma get_overdue_tasks_run (l : list Task) :
  forall w : World,
  exists late w',
    filterM is_overdue l w = (Ok late, w')
    /\ disk w' = disk w /\ clock w' = clock w /\ stdout w' = stdout w
    /\ (forall n, (forall k, clock w k = n) -> late = filter (overdue_at n) l).
Proof.
  induction l as [|t l IH]; intro w.
  - exists [], w. repeat split.
  - destruct (is_overdue_run t w) as (b & w1 & Hb & Hd1 & Hc1 & Ho1 & Hspec1).
    destruct (IH w1) as (late & w2 & Hl & Hd2 & Hc2 & Ho2 & Hspec2).
    simpl filterM. unfold bind at 1. rewrite Hb.
    unfold bind at 1. rewrite Hl. unfold ret.
    do 2 eexists. split; [reflexivity|].
    repeat split; try congruence.
    intros n Hn. simpl filter.
    rewrite <- (Hspec1 n Hn), <- (Hspec2 n); [reflexivity|].
    intro k. rewrite Hc1. apply Hn.
Qed.

(** C8: [get_statistics] never raises.  Its [total] is the number of
    tasks; [completed], [pending] and [in_progress] are the numbers of
    tasks with that status; [overdue] is the number of tasks
    [get_overdue_tasks] yields in the same world, which, when the clock
    stands at the time [n] during the call, are the tasks overdue at [n];
    [completion_rate] is the integer 0 for an empty store and otherwise
    the float [completed / total * 100]. *)
Theorem get_statistics_spec (self : TaskManager) (w : World) :
  exists st late w',
    get_statistics self w = (Ok st, w')
    /\ get_overdue_tasks self w = (Ok late, w')
    /\ total st = len (tasks self)
    /\ completed st = count_if (has_status COMPLETED) (tasks self)
    /\ pending st = count_if (has_status PENDING) (tasks self)
    /\ in_progress st = count_if (has_status IN_PROGRESS) (tasks self)
    /\ overdue st = len late
    /\ (forall n, (forall k, clock w k = n) ->
        overdue st = count_if (overdue_at n) (tasks self))
    /\ (tasks self = [] -> completion_rate st = PInt 0)
    /\ (tasks self <> [] ->
        completion_rate st
        = PFloat (fmul (fdiv (float_of_Z (completed st)) (float_of_Z (total st)))
                       (float_of_Z 100))).
Proof.
  unfold get_statistics, get_overdue_tasks.
  destruct (get_overdue_tasks_run (tasks self) w) as (late & w' & Hl & _ & _ & _ & Hspec).
  unfold bind. rewrite Hl. unfold ret.
  do 3 eexists. split; [reflexivity|]. split; [reflexivity|]. simpl.
  rewrite !len_filter. repeat split.
  - intros n Hn. rewrite (Hspec n Hn). apply len_filter.
  - intros ->. reflexivity.
  - intro Hne. destruct (tasks self) as [|t l]; [congruence|].
    replace (0 <? len (t :: l)) with true; [reflexivity|].
    symmetry. apply Z.ltb_lt. unfold len. simpl List.length. lia.
Qed.

(** ** Loading *)

(** C9: A document that is an object with a [tasks] array whose entries
    all load, and without a [next_id] key, is loaded without an
    exception and without a report, and leaves [next_id] at 1 whatever
    ids the loaded tasks carry.  The next [add_task] then gives its task
    the id 1, so that a store that loaded a task with the id 1 holds two
    tasks with that id. *)
Theorem load_without_next_id (f : string) (items : list (string * pyval))
    (entries : list pyval) (loaded : list Task) (w w1 : World) :
  disk w = Parsed (PDict items) ->
  assoc "tasks" items = Some (PList entries) ->
  assoc "next_id" items = None ->
  mapM from_dict entries w = (Ok loaded, w1) ->
  TaskManager_init f w = (Ok (mk_TaskManager f loaded (PInt 1)), w1)
  /\ forall (t d c : pyval) (p : Priority) (due : option string),
     exists task w2,
       add_task (mk_TaskManager f loaded (PInt 1)) t d c p due w1
       = (Ok (task, mk_TaskManager f (loaded ++ [task]) (PInt 2)), w2)
       /\ id task = PInt 1
       /\ ((exists u, In u loaded /\ id u = PInt 1) ->
           ~ NoDup (map id (loaded ++ [task]))).
Proof.
  intros Hdisk Htasks Hnext Hload. split.
  - unfold TaskManager_init, load_tasks, try_except, bind, path_exists, json_load, lift.
    cbv beta. rewrite Hdisk. cbv beta iota. rewrite Hdisk.
    cbn [py_getitem py_get py_iter]. rewrite Htasks. cbn [py_iter]. rewrite Hload, Hnext. reflexivity.
  - intros t d c p due.
    destruct (add_task_run f loaded 1 t d c p due w1) as (task & w2 & Hrun & Hid & _).
    exists task, w2. split; [exact Hrun|]. split; [exact Hid|].
    intros (u & Hin & Hu) Hnd.
    rewrite map_app in Hnd. simpl in Hnd.
    apply NoDup_remove_2 in Hnd. apply Hnd. rewrite app_nil_r.
    rewrite Hid, <- Hu. apply in_map. exact Hin.
Qed.

(** What [load_tasks] does recover from: a file [json.load] rejects and
    a document without the [tasks] key are reported, and the store is
    empty with [next_id] 1; a missing file is no error at all. *)
Lemma load_recovers (f : string) (w : World) :
  (disk w = Absent ->
   TaskManager_init f w = (Ok (mk_TaskManager f [] (PInt 1)), w))
  /\ (disk w = Unparsable ->
      TaskManager_init f w
      = (Ok (mk_TaskManager f [] (PInt 1)),
         mk_World (disk w) (clock w) (ticks w)
                  (stdout w ++ [ErrorLoadingTasks JSONDecodeError])))
  /\ (forall items, disk w = Parsed (PDict items) -> assoc "tasks" items = None ->
      TaskManager_init f w
      = (Ok (mk_TaskManager f [] (PInt 1)),
         mk_World (disk w) (clock w) (ticks w)
                  (stdout w ++ [ErrorLoadingTasks (KeyError "tasks")]))).
Proof.
  unfold TaskManager_init, load_tasks, try_except, bind, path_exists, json_load, lift.
  repeat split.
  - intro H. cbv beta. rewrite H. reflexivity.
  - intro H. cbv beta. rewrite H. cbv beta iota. rewrite H.
    unfold print, ret. cbn. rewrite H. reflexivity.
  - intros items H Ht. cbv beta. rewrite H. cbv beta iota. rewrite H.
    cbn [py_getitem]. rewrite Ht.
    unfold print, ret. cbn. rewrite H. reflexivity.
Qed.

(** C1 (where the code departs from it): a document whose only fault is
    a priority or status that is no label of its enumeration, or a
    timestamp that is no timestamp, makes [load_tasks], and with it the
    construction of the [TaskManager], end in a [ValueError]: nothing is
    reported and no store is built.  The handler of [load_tasks] names
    [JSONDecodeError], [KeyError] and [FileNotFoundError] only. *)
Theorem load_malformed_value_raises (f : string) (clk : nat -> datetime)
    (n : nat) (out : list output) :
  TaskManager_init f (mk_World (Parsed doc_bad_priority) clk n out)
  = (Raise ValueError, mk_World (Parsed doc_bad_priority) clk n out)
  /\ TaskManager_init f (mk_World (Parsed doc_bad_status) clk n out)
     = (Raise ValueError, mk_World (Parsed doc_bad_status) clk (S (S n)) out)
  /\ TaskManager_init f (mk_World (Parsed doc_bad_timestamp) clk n out)
     = (Raise ValueError, mk_World (Parsed doc_bad_timestamp) clk (S (S n)) out)
  /\ load_classes ValueError = false.
Proof. repeat split. Qed.

(** ** Categories *)

Lemma existsb_set_same (s : string) (acc : list pyval) :
  Forall is_str acc ->
  existsb (set_same (PStr s)) acc = true <-> In (PStr s) acc.
Proof.
  intro H. rewrite existsb_exists. split.
  - intros (v & Hin & Hv).
    rewrite Forall_forall in H. destruct (H v Hin) as [t ->].
    simpl in Hv. apply String.eqb_eq in Hv. subst t. exact Hin.
  - intro Hin. exists (PStr s). split; [exact Hin|]. simpl. apply String.eqb_refl.
Qed.

Lemma py_set_strs (xs : list pyval) :
  forall acc : list pyval,
    Forall is_str xs -> Forall is_str acc -> NoDup acc ->
    exists r,
      py_set xs acc = Ok r
      /\ NoDup r
      /\ forall v, In v r <-> In v acc \/ In v xs.
Proof.
  induction xs as [|x xs IH]; intros acc Hxs Hacc Hnd.
  - exists acc. simpl. repeat split; auto. intros [H|[]]; exact H.
  - inversion Hxs as [|? ? [s ->] Hxs']; subst. simpl.
    destruct (existsb (set_same (PStr s)) acc) eqn:E.
    + apply (existsb_set_same s acc Hacc) in E.
      destruct (IH acc Hxs' Hacc Hnd) as (r & Hr & Hndr & Hin).
      exists r. repeat split; auto.
      * intro H. apply Hin in H. tauto.
      * intros [H|[<-|H]]; apply Hin; auto.
    + assert (Hnin : ~ In (PStr s) acc).
      { intro H. apply (existsb_set_same s acc Hacc) in H. congruence. }
      assert (Hacc' : Forall is_str (acc ++ [PStr s])).
      { apply Forall_app. split; [exact Hacc|]. constructor; [exists s; reflexivity|constructor]. }
      assert (Hnd' : NoDup (acc ++ [PStr s])).
      { apply (proj2 (NoDup_Add (Add_app (PStr s) acc []))).
        rewrite app_nil_r. auto. }
      destruct (IH (acc ++ [PStr s]) Hxs' Hacc' Hnd') as (r & Hr & Hndr & Hin).
      exists r. repeat split; auto.
      * intro H. apply Hin in H. rewrite in_app_iff in H. simpl in H. tauto.
      * intro H. apply Hin. rewrite in_app_iff. simpl. tauto.
Qed.

Lemma get_tasks_by_category_strs (l : list Task) (c : string) :
  Forall (fun t => is_str (category t)) l ->
  rfilter (fun task => (x <- py_lower (category task) ;;
                        Ok (String.eqb x (lower c)))%result) l
  = Ok (filter (same_category c) l).
Proof.
  induction 1 as [|t l [s Hs] _ IH]; [reflexivity|].
  simpl. rewrite IH. unfold same_category. rewrite Hs. simpl. reflexivity.
Qed.

(** C10: In a store whose categories are all strings, and that has a
    task of category [c1] and a task of category [c2], two labels that
    differ but are the same once folded to lower case,
    [get_categories] lists both labels, each entry once, while
    [get_tasks_by_category] answers the same list for [c1] and for [c2]:
    the tasks of the store whose category folds to the same lower-case
    text, the two tasks among them. *)
Theorem categories_differ_in_case_only (self : TaskManager) (c1 c2 : string)
    (t1 t2 : Task) :
  Forall (fun t => is_str (category t)) (tasks self) ->
  In t1 (tasks self) -> category t1 = PStr c1 ->
  In t2 (tasks self) -> category t2 = PStr c2 ->
  c1 <> c2 -> lower c1 = lower c2 ->
  exists cats r,
    get_categories self = Ok cats
    /\ In (PStr c1) cats /\ In (PStr c2) cats /\ PStr c1 <> PStr c2 /\ NoDup cats
    /\ (forall v, In v cats <-> exists t, In t (tasks self) /\ category t = v)
    /\ get_tasks_by_category self c1 = Ok r
    /\ get_tasks_by_category self c2 = Ok r
    /\ In t1 r /\ In t2 r
    /\ (forall t, In t r <->
                  In t (tasks self)
                  /\ exists s, category t = PStr s /\ lower s = lower c1).
Proof.
  intros Hstr Hin1 Hc1 Hin2 Hc2 Hne Hlow.
  assert (Hcats : Forall is_str (map category (tasks self))).
  { apply Forall_map. exact Hstr. }
  destruct (py_set_strs (map category (tasks self)) [] Hcats (Forall_nil _) (NoDup_nil _))
    as (cats & Hrun & Hnd & Hmem).
  assert (Hmem' : forall v, In v cats <-> exists t, In t (tasks self) /\ category t = v).
  { intro v. rewrite Hmem, in_map_iff. simpl. split.
    - intros [[]|(t & Ht & Hin)]. exists t. auto.
    - intros (t & Hin & Ht). right. exists t. auto. }
  assert (Hfilter : forall t, In t (filter (same_category c1) (tasks self)) <->
                              In t (tasks self)
                              /\ exists s, category t = PStr s /\ lower s = lower c1).
  { intro t. rewrite filter_In. unfold same_category. split.
    - intros [Hin H]. split; [exact Hin|].
      destruct (category t) as [| | | |s| |]; try discriminate.
      exists s. split; [reflexivity|]. apply String.eqb_eq. exact H.
    - intros [Hin (s & Hs & Hl)]. split; [exact Hin|].
      rewrite Hs. apply String.eqb_eq. exact Hl. }
  exists cats, (filter (same_category c1) (tasks self)).
  split; [exact Hrun|].
  split; [apply Hmem'; exists t1; auto|].
  split; [apply Hmem'; exists t2; auto|].
  split; [congruence|].
  split; [exact Hnd|].
  split; [exact Hmem'|].
  split; [apply get_tasks_by_category_strs; exact Hstr|].
  split.
  { unfold get_tasks_by_category. rewrite get_tasks_by_category_strs by exact Hstr.
    f_equal. apply filter_ext. intro t. unfold same_category. rewrite Hlow. reflexivity. }
  split; [apply Hfilter; split; [exact Hin1|exists c1; auto]|].
  split; [apply Hfilter; split; [exact Hin2|exists c2; auto]|].
  exact Hfilter.
Qed.

(** ** Parsing of due dates *)

Lemma all_chars_app (p : ascii -> bool) (a b : string) :
  all_chars p (a ++ b)%string = all_chars p a && all_chars p b.
Proof.
  induction a as [|c a IH]; simpl; [reflexivity|].
  rewrite IH. apply andb_assoc.
Qed.

Lemma all_chars_weaken (p q : ascii -> bool) (s : string) :
  (forall c, p c = true -> q c = true) ->
  all_chars p s = true -> all_chars q s = true.
Proof.
  intro H. induction s as [|c s IH]; simpl; [reflexivity|].
  intro Hs. apply andb_true_iff in Hs. destruct Hs as [Hc Hs].
  rewrite (H c Hc), (IH Hs). reflexivity.
Qed.

Lemma contains_all_chars (p : ascii -> bool) (c : ascii) (s : string) :
  all_chars p s = true -> contains c s = true -> p c = true.
Proof.
  induction s as [|c' s IH]; simpl; [discriminate|].
  intros Hs Hc. apply andb_true_iff in Hs. destruct Hs as [Hc' Hs].
  apply orb_true_iff in Hc. destruct Hc as [Hc|Hc].
  - apply Ascii.eqb_eq in Hc. subst c'. exact Hc'.
  - apply IH; assumption.
Qed.

Lemma contains_app (c : ascii) (a b : string) :
  contains c (a ++ b)%string = contains c a || contains c b.
Proof.
  induction a as [|c' a IH]; simpl; [reflexivity|].
  rewrite IH. apply orb_assoc.
Qed.

Lemma re_first_In (p : ascii -> bool) (s a b : string) :
  In (a, b) (re_first p s) ->
  exists c, a = String c EmptyString /\ s = String c b /\ p c = true.
Proof.
  destruct s as [|c s]; simpl; [intros []|].
  destruct (p c) eqn:E; [|intros []].
  intros [[= <- <-]|[]]. exists c. auto.
Qed.

(** A match of an expression is a prefix of the text, made of characters
    the expression can consume. *)
Lemma re_match_In (r : re) :
  forall s a b : string,
    In (a, b) (re_match r s) ->
    s = (a ++ b)%string /\ all_chars (re_ok r) a = true.
Proof.
  induction r as [c| |lo hi|r1 IH1 r2 IH2|r1 IH1 r2 IH2]; intros s a b H; simpl in H.
  - apply re_first_In in H. destruct H as (c' & -> & -> & Hc). simpl.
    rewrite Hc. auto.
  - apply re_first_In in H. destruct H as (c' & -> & -> & Hc). simpl.
    rewrite Hc. auto.
  - apply re_first_In in H. destruct H as (c' & -> & -> & Hc). simpl.
    rewrite Hc. auto.
  - apply in_flat_map in H. destruct H as ([a1 b1] & H1 & H).
    apply in_map_iff in H. destruct H as ([a2 b2] & [= <- <-] & H2).
    simpl in *.
    destruct (IH1 _ _ _ H1) as [-> Ha1]. destruct (IH2 _ _ _ H2) as [-> Ha2].
    split.
    + clear. induction a1 as [|c a1 IH]; simpl; [reflexivity|]. rewrite IH. reflexivity.
    + rewrite all_chars_app. apply andb_true_iff. split.
      * apply all_chars_weaken with (p := re_ok r1); [|exact Ha1].
        intros c Hc. rewrite Hc. reflexivity.
      * apply all_chars_weaken with (p := re_ok r2); [|exact Ha2].
        intros c Hc. rewrite Hc. apply orb_true_r.
  - apply in_app_or in H. destruct H as [H|H].
    + destruct (IH1 _ _ _ H) as [-> Ha]. split; [reflexivity|].
      apply all_chars_weaken with (p := re_ok r1); [|exact Ha].
      intros c Hc. simpl. rewrite Hc. reflexivity.
    + destruct (IH2 _ _ _ H) as [-> Ha]. split; [reflexivity|].
      apply all_chars_weaken with (p := re_ok r2); [|exact Ha].
      intros c Hc. simpl. rewrite Hc. apply orb_true_r.
Qed.

Lemma append_assoc_s (a b c : string) : ((a ++ b) ++ c = a ++ (b ++ c))%string.
Proof. induction a as [|x a IH]; simpl; [reflexivity|]. rewrite IH. reflexivity. Qed.

Lemma append_empty_r (a : string) : (a ++ "")%string = a.
Proof. induction a as [|x a IH]; simpl; [reflexivity|]. rewrite IH. reflexivity. Qed.

(** The numeric directives consume digits and blanks only. *)
Lemma directive_chars (name c : ascii) :
  re_ok (directive_re name) c = true -> is_digit c || Ascii.eqb " " c = true.
Proof.
  unfold directive_re.
  destruct (Ascii.eqb name "Y"); [|destruct (Ascii.eqb name "m")];
    destruct c as [[] [] [] [] [] [] [] []]; vm_compute; intro H;
    reflexivity || discriminate H.
Qed.

(** A match of a format is a prefix of the text, made of characters the
    format can consume, with every literal character of the format in it. *)
Lemma fmt_match_In (f : list fmt_item) :
  forall (s : string) (found : list (ascii * string)) (rest : string),
    In (found, rest) (fmt_match f s) ->
    exists text,
      s = (text ++ rest)%string
      /\ all_chars (fmt_ok f) text = true
      /\ forall c, existsb (is_literal c) f = true -> contains c text = true.
Proof.
  induction f as [|i f IH]; intros s found rest H.
  - simpl in H. destruct H as [[= <- <-]|[]]. exists EmptyString.
    repeat split. intros c Hc. discriminate Hc.
  - destruct i as [name|c0]; simpl in H; apply in_flat_map in H;
      destruct H as ([a b] & Ha & H); simpl in H.
    + apply in_map_iff in H. destruct H as ([found' rest'] & [= <- <-] & H).
      apply re_match_In in Ha. destruct Ha as [-> Ha].
      destruct (IH _ _ _ H) as (text & -> & Hok & Hlit).
      exists (a ++ text)%string. split; [symmetry; apply append_assoc_s|]. split.
      * rewrite all_chars_app. apply andb_true_iff. split.
        -- apply all_chars_weaken with (p := re_ok (directive_re name)); [|exact Ha].
           intros c Hc. unfold fmt_ok. rewrite (directive_chars _ _ Hc). reflexivity.
        -- apply all_chars_weaken with (p := fmt_ok f); [|exact Hok].
           unfold fmt_ok. intros c Hc. simpl. exact Hc.
      * intros c Hc. simpl in Hc. rewrite contains_app, (Hlit c Hc).
        apply orb_true_r.
    + apply re_first_In in Ha. destruct Ha as (c & -> & -> & Hc0).
      apply Ascii.eqb_eq in Hc0. subst c.
      destruct (IH _ _ _ H) as (text & -> & Hok & Hlit).
      exists (String c0 text). split; [reflexivity|]. split.
      * simpl. apply andb_true_iff. split.
        -- unfold fmt_ok. cbn [existsb is_literal]. rewrite Ascii.eqb_refl.
           cbn [orb]. apply orb_true_r.
        -- apply all_chars_weaken with (p := fmt_ok f); [|exact Hok].
           unfold fmt_ok. intros c Hc. cbn [existsb is_literal].
           apply orb_true_iff in Hc. destruct Hc as [Hc|Hc].
           ++ rewrite Hc. reflexivity.
           ++ rewrite Hc. rewrite !orb_true_r. reflexivity.
      * intros c Hc. cbn [existsb is_literal] in Hc. cbn [contains].
        apply orb_true_iff in Hc. destruct Hc as [Hc|Hc].
        -- apply Ascii.eqb_eq in Hc. subst c. rewrite Ascii.eqb_refl. reflexivity.
        -- rewrite (Hlit c Hc). apply orb_true_r.
Qed.

Lemma strptime_Ok (s : string) (f : list fmt_item) (d : datetime) :
  strptime s f = Ok d ->
  all_chars (fmt_ok f) s = true
  /\ forall c, existsb (is_literal c) f = true -> contains c s = true.
Proof.
  unfold strptime. destruct (fmt_match f s) as [|[found rest] ms] eqn:E; [discriminate|].
  destruct (String.eqb rest "") eqn:Er; simpl; [|discriminate].
  intros _. apply String.eqb_eq in Er. subst rest.
  assert (H : In (found, EmptyString) (fmt_match f s)) by (rewrite E; left; reflexivity).
  apply fmt_match_In in H. destruct H as (text & -> & Hok & Hlit).
  rewrite append_empty_r. auto.
Qed.

Lemma strptime_ymd_dash (s : string) (d : datetime) :
  strptime s fmt_ymd = Ok d -> contains "-" s = true.
Proof. intro H. apply (proj2 (strptime_Ok _ _ _ H)). reflexivity. Qed.

Lemma strptime_dmy_slash (s : string) (d : datetime) :
  strptime s fmt_dmy = Ok d -> contains "/" s = true /\ contains "-" s = false.
Proof.
  intro H. destruct (strptime_Ok _ _ _ H) as [Hok Hlit]. split.
  - apply Hlit. reflexivity.
  - destruct (contains "-" s) eqn:E; [|reflexivity].
    pose proof (contains_all_chars _ _ _ Hok E) as Hc. discriminate Hc.
Qed.

(** C6: [_parse_date] never raises, and answers what trying the form
    [YYYY-MM-DD] first and the form [DD/MM/YYYY] next answers: the date
    of the first form that reads the text, and none when neither does.
    The texts 2024-03-15 and 15/03/2024 give the same date, the text
    not-a-date gives none, and a task built without a due-date text, or
    with the empty text, has no due date. *)
Theorem _parse_date_tries_both_forms :
  (forall s : string, _parse_date s = Ok (ParseDate_spec s))
  /\ _parse_date "2024-03-15" = Ok (Some (mk_datetime 2024 3 15 0 0 0 0))
  /\ _parse_date "15/03/2024" = Ok (Some (mk_datetime 2024 3 15 0 0 0 0))
  /\ _parse_date "not-a-date" = Ok None
  /\ (forall (t d c : pyval) (p : Priority) (w : World),
      exists task1 task2 w',
        Task_init t d c p None w = (Ok task1, w')
        /\ Task_init t d c p (Some "") w = (Ok task2, w')
        /\ due_date task1 = None /\ due_date task2 = None)
  /\ (forall (t d c : pyval) (p : Priority) (s : string) (w : World),
      s <> "" ->
      exists task w',
        Task_init t d c p (Some s) w = (Ok task, w')
        /\ due_date task = ParseDate_spec s).
Proof.
  assert (Hmain : forall s : string, _parse_date s = Ok (ParseDate_spec s)).
  { intro s. unfold _parse_date, ParseDate_spec.
    destruct (contains "-" s) eqn:Edash.
    - destruct (strptime s fmt_ymd) as [d|e] eqn:Eymd; simpl; [reflexivity|].
      rewrite (strptime_raises _ _ _ Eymd).
      destruct (strptime s fmt_dmy) as [d|e'] eqn:Edmy; [|reflexivity].
      apply strptime_dmy_slash in Edmy. destruct Edmy as [_ Edmy]. congruence.
    - destruct (strptime s fmt_ymd) as [d|e] eqn:Eymd.
      { apply strptime_ymd_dash in Eymd. congruence. }
      destruct (contains "/" s) eqn:Eslash.
      + destruct (strptime s fmt_dmy) as [d|e'] eqn:Edmy; simpl; [reflexivity|].
        rewrite (strptime_raises _ _ _ Edmy). reflexivity.
      + destruct (strptime s fmt_dmy) as [d|e'] eqn:Edmy; [|reflexivity].
        apply strptime_dmy_slash in Edmy. destruct Edmy as [Edmy _]. congruence. }
  split; [exact Hmain|].
  split; [reflexivity|]. split; [reflexivity|]. split; [reflexivity|]. split.
  - intros t d c p w.
    destruct (Task_init_run t d c p None w) as (dd1 & H1 & Hn1 & _).
    destruct (Task_init_run t d c p (Some "") w) as (dd2 & H2 & Hn2 & _).
    do 3 eexists. split; [exact H1|]. split; [exact H2|]. simpl.
    split; [apply Hn1|apply Hn2]; auto.
  - intros t d c p s w Hs.
    destruct (Task_init_run t d c p (Some s) w) as (dd & H & _ & Hp).
    do 2 eexists. split; [exact H|]. simpl.
    specialize (Hp s eq_refl Hs). rewrite Hmain in Hp. congruence.
Qed.

(** ** Timestamps written and read back *)

Lemma digit_char_digit (k : Z) :
  0 <= k < 10 -> is_digit (digit_char k) = true /\ digit_val (digit_char k) = k.
Proof.
  intro H.
  assert (E : k = 0 \/ k = 1 \/ k = 2 \/ k = 3 \/ k = 4 \/ k = 5 \/ k = 6
              \/ k = 7 \/ k = 8 \/ k = 9) by lia.
  repeat (destruct E as [->|E]; [split; reflexivity|]). subst k. split; reflexivity.
Qed.

Lemma parse_digits_digit (m : nat) (acc k : Z) (s : string) :
  0 <= k < 10 ->
  parse_digits (S m) acc (String (digit_char k) s) = parse_digits m (10 * acc + k) s.
Proof.
  intro H. destruct (digit_char_digit k H) as [H1 H2].
  cbn [parse_digits]. rewrite H1, H2. reflexivity.
Qed.

Lemma digit_bound (n : Z) : 0 <= n mod 10 < 10.
Proof. apply Z.mod_pos_bound. lia. Qed.

Lemma parse_zpad2 (m : nat) (acc n : Z) (rest : string) :
  0 <= n ->
  parse_digits (S (S m)) acc (zpad2 n ++ rest)%string
  = parse_digits m (100 * acc + n mod 100) rest.
Proof.
  intro H. unfold zpad2. cbn [append].
  rewrite !parse_digits_digit by apply digit_bound.
  f_equal. Z.div_mod_to_equations. lia.
Qed.

Lemma parse_zpad4 (m : nat) (acc n : Z) (rest : string) :
  0 <= n ->
  parse_digits (S (S (S (S m)))) acc (zpad4 n ++ rest)%string
  = parse_digits m (10000 * acc + n mod 10000) rest.
Proof.
  intro H. unfold zpad4. rewrite append_assoc_s.
  rewrite !parse_zpad2 by (try apply Z.div_pos; lia).
  f_equal. Z.div_mod_to_equations. lia.
Qed.

Lemma parse_fraction_zpad6 (n : Z) :
  0 <= n < 1000000 -> parse_fraction (zpad6 n) = Some n.
Proof.
  intro H. unfold parse_fraction, zpad6, zpad4, zpad2. cbn [append].
  rewrite !parse_digits_digit by apply digit_bound.
  cbn [parse_digits].
  repeat rewrite (proj1 (digit_char_digit _ (digit_bound _))).
  repeat rewrite (proj2 (digit_char_digit _ (digit_bound _))).
  f_equal. Z.div_mod_to_equations. lia.
Qed.

Lemma valid_datetime_bounds (d : datetime) :
  valid_datetime d = true ->
  1 <= year d <= 9999 /\ 1 <= month d <= 12 /\ 1 <= day d <= 31
  /\ 0 <= hour d <= 23 /\ 0 <= minute d <= 59 /\ 0 <= second d <= 59
  /\ 0 <= microsecond d <= 999999.
Proof.
  unfold valid_datetime, valid_date, valid_time. intro H.
  repeat (apply andb_true_iff in H; destruct H as [H ?]).
  repeat match goal with
         | X : (_ <=? _) = true |- _ => apply Z.leb_le in X
         end.
  assert (days_in_month (year d) (month d) <= 31).
  { unfold days_in_month.
    destruct (month d) as [|[[[[]|[]|]|[[]|[]|]|]|[[[]|[]|]|[[]|[]|]|]|]|];
      try destruct (is_leap _); lia. }
  lia.
Qed.

(** A valid datetime is read back from its [isoformat] text. *)
Lemma fromisoformat_isoformat (d : datetime) :
  valid_datetime d = true -> fromisoformat (isoformat d) = Ok d.
Proof.
  intro Hv. pose proof (valid_datetime_bounds d Hv) as Hb.
  unfold fromisoformat, isoformat.
  rewrite parse_zpad4 by lia. read_digits.
  do 2 (rewrite parse_zpad2 by lia; read_digits).
  unfold parse_hh_mm_ss_ff.
  do 3 (rewrite parse_zpad2 by lia; read_digits).
  rewrite !Z.mul_0_r, !Z.add_0_l.
  rewrite (Z.mod_small (year d)), (Z.mod_small (month d)), (Z.mod_small (day d)),
    (Z.mod_small (hour d)), (Z.mod_small (minute d)), (Z.mod_small (second d)) by lia.
  assert (Hnew : datetime_new (year d) (month d) (day d) (hour d) (minute d)
                              (second d) (microsecond d) = Ok d).
  { unfold datetime_new. unfold valid_datetime in Hv. rewrite Hv.
    destruct d; reflexivity. }
  destruct (microsecond d =? 0) eqn:Eus.
  - apply Z.eqb_eq in Eus. rewrite Eus in Hnew. exact Hnew.
  - cbn [append]. rewrite parse_fraction_zpad6 by lia. exact Hnew.
Qed.

(** ** Serialisation *)

Lemma Priority_of_value (p : Priority) : Priority_of (PStr (Priority_value p)) = Ok p.
Proof. destruct p; reflexivity. Qed.

Lemma Status_of_value (s : Status) : Status_of (PStr (Status_value s)) = Ok s.
Proof. destruct s; reflexivity. Qed.

Lemma isoformat_truthy (d : datetime) : py_truthy (PStr (isoformat d)) = true.
Proof. reflexivity. Qed.

Lemma read_opt_isoformat (d cur : option datetime) (w : World) :
  valid_opt d = true -> cur = None ->
  (if py_truthy (opt_isoformat d)
   then (x <- lift (py_fromisoformat (opt_isoformat d)) ;; ret (Some x))%M
   else ret cur) w
  = (Ok d, w).
Proof.
  intros Hv ->. destruct d as [d|]; cbn [opt_isoformat].
  - rewrite isoformat_truthy. unfold bind, lift, ret. simpl py_fromisoformat.
    rewrite (fromisoformat_isoformat d Hv). reflexivity.
  - reflexivity.
Qed.

(** C2: [from_dict] applied to the dictionary [to_dict] makes of a task
    never raises and yields that very task, field for field, whatever
    its priority and status and whether or not it has a due date and a
    completion time (the timestamps being datetimes within the ranges of
    the [datetime] class); it reads the clock twice and touches nothing
    else. *)
Theorem from_dict_to_dict (t : Task) (w : World) :
  valid_task t = true ->
  from_dict (to_dict t) w = (Ok t, tick2 w).
Proof.
  unfold valid_task. intro Hv.
  apply andb_true_iff in Hv. destruct Hv as [Hv Hc].
  apply andb_true_iff in Hv. destruct Hv as [Hv Hd].
  apply andb_true_iff in Hv. destruct Hv as [Hcr Hup].
  unfold from_dict.
  change (py_getitem (to_dict t) "title") with (Ok (title t)).
  change (py_get (to_dict t) "description" (PStr "")) with (Ok (description t)).
  change (py_get (to_dict t) "category" (PStr "General")) with (Ok (category t)).
  change (py_get (to_dict t) "priority" (PStr (Priority_value MEDIUM)))
    with (Ok (PStr (Priority_value (priority t)))).
  change (py_get (to_dict t) "id" PNone) with (Ok (id t)).
  change (py_get (to_dict t) "status" (PStr (Status_value PENDING)))
    with (Ok (PStr (Status_value (status t)))).
  change (py_getitem (to_dict t) "created_at") with (Ok (PStr (isoformat (created_at t)))).
  change (py_getitem (to_dict t) "updated_at") with (Ok (PStr (isoformat (updated_at t)))).
  change (py_get (to_dict t) "due_date" PNone) with (Ok (opt_isoformat (due_date t))).
  change (py_get (to_dict t) "completed_at" PNone) with (Ok (opt_isoformat (completed_at t))).
  unfold bind at 1 2 3 4 5. unfold lift at 1 2 3 4.
  rewrite Priority_of_value. unfold lift at 1.
  destruct (Task_init_run (title t) (description t) (category t) (priority t) None w)
    as (dd & Hinit & Hdd & _).
  rewrite (Hdd (or_introl eq_refl)) in Hinit. clear Hdd dd.
  unfold bind at 1. rewrite Hinit.
  unfold bind at 1 2 3. unfold lift at 1 2.
  rewrite Status_of_value. unfold lift at 1.
  unfold bind at 1 2. unfold lift at 1 2. simpl py_fromisoformat at 1.
  rewrite (fromisoformat_isoformat _ Hcr).
  unfold bind at 1 2. unfold lift at 1 2. simpl py_fromisoformat at 1.
  rewrite (fromisoformat_isoformat _ Hup).
  unfold bind at 1 2. unfold lift at 1.
  rewrite (read_opt_isoformat (due_date t) _ _ Hd eq_refl).
  unfold bind at 1 2. unfold lift at 1.
  rewrite (read_opt_isoformat (completed_at t) _ _ Hc eq_refl).
  unfold ret. destruct t; reflexivity.
Qed.

(** ** The order of the full listing *)

Lemma lex_compare_refl (a : list Z) : lex_compare a a = Eq.
Proof. induction a as [|x a IH]; simpl; [reflexivity|]. rewrite Z.compare_refl. exact IH. Qed.

Lemma lex_compare_eq (a : list Z) : forall b, lex_compare a b = Eq -> a = b.
Proof.
  induction a as [|x a IH]; intros [|y b]; simpl; try discriminate; [reflexivity|].
  destruct (x ?= y) eqn:E; try discriminate.
  intro H. apply Z.compare_eq in E. rewrite E, (IH b H). reflexivity.
Qed.

Lemma lex_compare_antisym (a : list Z) :
  forall b, lex_compare b a = CompOpp (lex_compare a b).
Proof.
  induction a as [|x a IH]; intros [|y b]; simpl; try reflexivity.
  rewrite (Z.compare_antisym x y). destruct (x ?= y); simpl; auto.
Qed.

Lemma lex_compare_trans (a : list Z) :
  forall b c, lex_compare a b = Lt -> lex_compare b c = Lt -> lex_compare a c = Lt.
Proof.
  induction a as [|x a IH]; intros [|y b] [|z c]; simpl; try discriminate; auto.
  destruct (x ?= y) eqn:Exy; try discriminate;
    destruct (y ?= z) eqn:Eyz; try discriminate; intros H1 H2.
  - apply Z.compare_eq in Exy, Eyz. subst. rewrite Z.compare_refl. eapply IH; eauto.
  - apply Z.compare_eq in Exy. subst. rewrite Eyz. reflexivity.
  - apply Z.compare_eq in Eyz. subst. rewrite Exy. reflexivity.
  - rewrite Z.compare_lt_iff in *. replace (x ?= z) with Lt; [reflexivity|].
    symmetry. apply Z.compare_lt_iff. lia.
Qed.

Lemma datetime_compare_eq (a b : datetime) : datetime_compare a b = Eq -> a = b.
Proof.
  unfold datetime_compare. intro H. apply lex_compare_eq in H.
  destruct a, b. unfold fields in H. simpl in H. congruence.
Qed.

Lemma datetime_compare_refl (a : datetime) : datetime_compare a a = Eq.
Proof. apply lex_compare_refl. Qed.

Lemma datetime_compare_antisym (a b : datetime) :
  datetime_compare b a = CompOpp (datetime_compare a b).
Proof. apply lex_compare_antisym. Qed.

Lemma datetime_compare_trans (a b c : datetime) :
  datetime_compare a b = Lt -> datetime_compare b c = Lt -> datetime_compare a c = Lt.
Proof. apply lex_compare_trans. Qed.

Lemma key_ltb_compare (a b : string * datetime) :
  key_ltb a b = true <-> key_compare a b = Lt.
Proof.
  unfold key_ltb, key_compare, datetime_ltb.
  destruct (String.compare (fst a) (fst b)); [|tauto|split; discriminate].
  destruct (datetime_compare (snd a) (snd b)); split; auto; discriminate.
Qed.

Lemma key_compare_eq (a b : string * datetime) : key_compare a b = Eq -> a = b.
Proof.
  unfold key_compare. destruct a as [s d], b as [s' d']. simpl.
  destruct (String.compare s s') eqn:E; try discriminate.
  intro H. apply String.compare_eq_iff in E. apply datetime_compare_eq in H.
  congruence.
Qed.

Lemma str_compare_refl (s : string) : String.compare s s = Eq.
Proof. apply (proj2 (String_as_OT.cmp_eq s s)). reflexivity. Qed.

Lemma key_compare_refl (a : string * datetime) : key_compare a a = Eq.
Proof.
  unfold key_compare.
  rewrite str_compare_refl. apply datetime_compare_refl.
Qed.

Lemma key_compare_antisym (a b : string * datetime) :
  key_compare b a = CompOpp (key_compare a b).
Proof.
  unfold key_compare.
  rewrite (String.compare_antisym (fst a) (fst b)).
  destruct (String.compare (fst b) (fst a)); cbn [CompOpp]; auto.
  apply datetime_compare_antisym.
Qed.

Lemma str_lt_trans (a b c : string) : str_lt a b -> str_lt b c -> str_lt a c.
Proof.
  unfold str_lt. intros H1 H2.
  apply String_as_OT.cmp_lt. apply String_as_OT.lt_trans with (y := b);
    apply String_as_OT.cmp_lt; assumption.
Qed.

Lemma key_compare_trans (a b c : string * datetime) :
  key_compare a b = Lt -> key_compare b c = Lt -> key_compare a c = Lt.
Proof.
  unfold key_compare.
  destruct (String.compare (fst a) (fst b)) eqn:Eab; try discriminate;
    destruct (String.compare (fst b) (fst c)) eqn:Ebc; try discriminate; intros H1 H2.
  - apply String.compare_eq_iff in Eab, Ebc. rewrite Eab, Ebc.
    rewrite str_compare_refl.
    eapply datetime_compare_trans; eauto.
  - apply String.compare_eq_iff in Eab. rewrite Eab, Ebc. reflexivity.
  - apply String.compare_eq_iff in Ebc. rewrite <- Ebc, Eab. reflexivity.
  - rewrite (str_lt_trans _ _ _ Eab Ebc). reflexivity.
Qed.

Lemma task_le_compare (a b : Task) :
  task_le a b <-> key_compare (sort_key a) (sort_key b) <> Gt.
Proof.
  unfold task_le. rewrite (key_compare_antisym (sort_key b) (sort_key a)).
  destruct (key_ltb (sort_key b) (sort_key a)) eqn:E.
  - apply key_ltb_compare in E. rewrite E. simpl. split; [discriminate|congruence].
  - split; [|reflexivity]. intros _ H.
    assert (key_compare (sort_key b) (sort_key a) = Lt)
      by (destruct (key_compare (sort_key b) (sort_key a)); simpl in H; congruence).
    apply key_ltb_compare in H0. congruence.
Qed.

Lemma task_le_listed (a b : Task) : task_le a b <-> listed_before a b.
Proof.
  rewrite task_le_compare. unfold listed_before, str_lt, key_compare, datetime_leb.
  change (fst (sort_key a)) with (label a). change (fst (sort_key b)) with (label b).
  change (snd (sort_key a)) with (due_or_max a).
  change (snd (sort_key b)) with (due_or_max b).
  destruct (String.compare (label a) (label b)) eqn:E.
  - apply String.compare_eq_iff in E. split.
    + intro H. right. split; [exact E|].
      destruct (datetime_compare (due_or_max a) (due_or_max b)); congruence.
    + intros [H|[_ H]]; [discriminate|].
      destruct (datetime_compare (due_or_max a) (due_or_max b)); congruence.
  - split; [auto|discriminate].
  - split; [congruence|]. intros [H|[H _]]; [discriminate|].
    rewrite H, str_compare_refl in E. discriminate.
Qed.

Lemma task_le_trans (a b c : Task) : task_le a b -> task_le b c -> task_le a c.
Proof.
  rewrite !task_le_compare. intros Hab Hbc.
  destruct (key_compare (sort_key a) (sort_key b)) eqn:E1; [| |congruence].
  - apply key_compare_eq in E1. rewrite E1. exact Hbc.
  - destruct (key_compare (sort_key b) (sort_key c)) eqn:E2; [| |congruence].
    + apply key_compare_eq in E2. rewrite <- E2, E1. discriminate.
    + rewrite (key_compare_trans _ _ _ E1 E2). discriminate.
Qed.

Lemma key_ltb_task_le (a b : Task) :
  key_ltb (sort_key a) (sort_key b) = true -> task_le a b.
Proof.
  intro H. apply task_le_compare. apply key_ltb_compare in H. rewrite H. discriminate.
Qed.

Lemma insert_by_key_perm (x : Task) (l : list Task) :
  Permutation (insert_by_key x l) (x :: l).
Proof.
  induction l as [|y l IH]; simpl; [apply Permutation_refl|].
  destruct (key_ltb (sort_key y) (sort_key x)); [|apply Permutation_refl].
  apply perm_trans with (y :: x :: l); [apply perm_skip; exact IH|apply perm_swap].
Qed.

Lemma insert_by_key_sorted (x : Task) (l : list Task) :
  StronglySorted task_le l -> StronglySorted task_le (insert_by_key x l).
Proof.
  induction 1 as [|y l Hs IH Hy]; simpl.
  - constructor; constructor.
  - destruct (key_ltb (sort_key y) (sort_key x)) eqn:E.
    + constructor; [exact IH|].
      apply Forall_forall. intros z Hz.
      apply (Permutation_in _ (insert_by_key_perm x l)) in Hz.
      destruct Hz as [<-|Hz].
      * apply key_ltb_task_le. exact E.
      * rewrite Forall_forall in Hy. apply Hy. exact Hz.
    + constructor; [constructor; assumption|].
      constructor; [exact E|].
      apply Forall_forall. intros z Hz. rewrite Forall_forall in Hy.
      apply task_le_trans with (b := y); [exact E|apply Hy; exact Hz].
Qed.

Lemma same_key_eq (t u : Task) : same_key t u = true <-> sort_key t = sort_key u.
Proof.
  unfold same_key, datetime_eqb. rewrite andb_true_iff, String.eqb_eq.
  change (sort_key t) with (label t, due_or_max t).
  change (sort_key u) with (label u, due_or_max u). split.
  - intros [Hl Hd].
    destruct (datetime_compare (due_or_max t) (due_or_max u)) eqn:E; try discriminate.
    apply datetime_compare_eq in E. congruence.
  - intros [= Hl Hd]. split; [exact Hl|]. rewrite Hd, datetime_compare_refl. reflexivity.
Qed.

(** Insertion keeps the tasks of one key in the order they had. *)
Lemma insert_by_key_stable (t x : Task) (l : list Task) :
  filter (same_key t) (insert_by_key x l) = filter (same_key t) (x :: l).
Proof.
  induction l as [|y l IH]; [reflexivity|].
  cbn [insert_by_key].
  destruct (key_ltb (sort_key y) (sort_key x)) eqn:E; [|reflexivity].
  cbn [filter] in *. rewrite IH.
  destruct (same_key t x) eqn:Ex; [|reflexivity].
  destruct (same_key t y) eqn:Ey; [|reflexivity].
  apply same_key_eq in Ex, Ey. rewrite <- Ex, <- Ey in E.
  apply key_ltb_compare in E. rewrite key_compare_refl in E. discriminate.
Qed.

Lemma datetime_max_greatest (d : datetime) :
  valid_datetime d = true -> datetime_leb d datetime_max = true.
Proof.
  intro Hv. apply valid_datetime_bounds in Hv.
  unfold datetime_leb, datetime_compare, fields, datetime_max. cbn [lex_compare
    year month day hour minute second microsecond].
  repeat match goal with
         | |- context [?x ?= ?y] =>
             destruct (Z.compare_spec x y); try reflexivity; try lia
         end.
Qed.

Lemma datetime_leb_antisym (a b : datetime) :
  datetime_leb a b = true -> datetime_leb b a = true -> a = b.
Proof.
  unfold datetime_leb. rewrite (datetime_compare_antisym a b).
  destruct (datetime_compare a b) eqn:E; simpl; try discriminate.
  intros _ _. apply datetime_compare_eq. exact E.
Qed.

Lemma StronglySorted_pair {A} (R : A -> A -> Prop) (l1 l2 l3 : list A) (a b : A) :
  StronglySorted R (l1 ++ a :: l2 ++ b :: l3) -> R a b.
Proof.
  induction l1 as [|x l1 IH]; simpl; intro H.
  - apply StronglySorted_inv in H. destruct H as [_ H].
    rewrite Forall_forall in H. apply H. apply in_or_app. right. left. reflexivity.
  - apply StronglySorted_inv in H. apply IH. apply H.
Qed.

Lemma sorted_tasks_perm (l : list Task) : Permutation (sorted_tasks l) l.
Proof.
  induction l as [|x l IH]; simpl; [constructor|].
  apply perm_trans with (x :: sorted_tasks l);
    [apply insert_by_key_perm|apply perm_skip; exact IH].
Qed.

Lemma sorted_tasks_sorted (l : list Task) : StronglySorted task_le (sorted_tasks l).
Proof.
  induction l as [|x l IH]; simpl; [constructor|].
  apply insert_by_key_sorted. exact IH.
Qed.

Lemma sorted_tasks_stable (t : Task) (l : list Task) :
  filter (same_key t) (sorted_tasks l) = filter (same_key t) l.
Proof.
  induction l as [|x l IH]; [reflexivity|].
  simpl sorted_tasks. rewrite insert_by_key_stable. cbn [filter]. rewrite IH. reflexivity.
Qed.

Lemma StronglySorted_impl {A} (R S : A -> A -> Prop) (l : list A) :
  (forall a b, R a b -> S a b) -> StronglySorted R l -> StronglySorted S l.
Proof.
  intros H. induction 1 as [|x l Hs IH Hx]; constructor; [exact IH|].
  apply Forall_impl with (P := R x); [apply H|exact Hx].
Qed.

(** The listing as the sort key orders it: the full listing holds the
    tasks of the store, each as often as the store does; every task in
    it stands before the tasks that follow it in the order
    [listed_before]: its
    label is the smaller text in the lexicographic order of code points,
    or the labels are equal and it is due no later, a task without a due
    date counting as due at [datetime.max]; tasks of one label and one
    such date keep the order of the store.  The order of the labels is
    the lexicographic order [String_as_OT.lt] of the library, in which
    they run High, Low, Medium, Urgent, which is not the order of
    severity.  A task without a due date may stand anywhere after the
    dated tasks of its label,
    and stands before a dated task of its label only when that task is
    due at [datetime.max] itself. *)
Lemma listing_order_by_key (l : list Task) :
  Permutation (sorted_tasks l) l
  /\ StronglySorted listed_before (sorted_tasks l)
  /\ (forall t, filter (same_key t) (sorted_tasks l) = filter (same_key t) l)
  /\ (forall s s' : string, str_lt s s' <-> String_as_OT.lt s s')
  /\ (str_lt "High" "Low" /\ str_lt "Low" "Medium" /\ str_lt "Medium" "Urgent")
  /\ (forall a b, label a = label b -> due_date b = None ->
                  valid_opt (due_date a) = true -> listed_before a b)
  /\ (forall l1 l2 l3 a b d,
         sorted_tasks l = l1 ++ a :: l2 ++ b :: l3 ->
         label a = label b -> due_date a = None -> due_date b = Some d ->
         valid_datetime d = true -> d = datetime_max).
Proof.
  assert (Hs : StronglySorted listed_before (sorted_tasks l)).
  { apply StronglySorted_impl with (R := task_le); [|apply sorted_tasks_sorted].
    intros a b. apply task_le_listed. }
  split; [apply sorted_tasks_perm|].
  split; [exact Hs|].
  split; [intro t; apply sorted_tasks_stable|].
  split; [intros s s'; apply String_as_OT.cmp_lt|].
  split; [repeat split|].
  split.
  - intros a b Hl Hb Ha. right. split; [exact Hl|].
    unfold due_or_max. rewrite Hb.
    destruct (due_date a) as [d|]; [apply datetime_max_greatest; exact Ha|reflexivity].
  - intros l1 l2 l3 a b d Heq Hl Ha Hb Hv.
    rewrite Heq in Hs. apply StronglySorted_pair in Hs.
    destruct Hs as [Hlt|[_ Hle]].
    + unfold str_lt in Hlt. rewrite Hl, str_compare_refl in Hlt. discriminate.
    + unfold due_or_max in Hle. rewrite Ha, Hb in Hle.
      apply datetime_leb_antisym; [apply datetime_max_greatest; exact Hv|exact Hle].
Qed.

Lemma due_before_max_listed (a b : Task) :
  due_before_max b -> listed_before a b -> listed_as_specified a b.
Proof.
  intros Hb [Hlt|[Hl Hle]]; [left; exact Hlt|].
  right. split; [exact Hl|].
  unfold due_no_later, due_or_max in *.
  destruct (due_date b) as [db|] eqn:Eb.
  - destruct (due_date a) as [da|]; [exact Hle|].
    destruct (Hb db Eb) as [Hv Hne]. apply Hne.
    apply datetime_leb_antisym; [apply datetime_max_greatest; exact Hv|exact Hle].
  - destruct (due_date a); exact I.
Qed.

Lemma StronglySorted_impl_in {A} (R S : A -> A -> Prop) (P : A -> Prop) (l : list A) :
  (forall a b, P b -> R a b -> S a b) ->
  Forall P l -> StronglySorted R l -> StronglySorted S l.
Proof.
  intros H HP Hs. induction Hs as [|x l Hs IH Hx]; constructor.
  - apply IH. inversion HP; assumption.
  - apply Forall_inv_tail in HP. rewrite Forall_forall in *.
    intros y Hy. apply H; [apply HP; exact Hy|apply Hx; exact Hy].
Qed.

Lemma midnight_before_max (d : datetime) :
  valid_datetime d = true -> hour d = 0 -> d <> datetime_max.
Proof.
  intros _ Hh ->. discriminate Hh.
Qed.

(** C7: for every store whose due dates are datetimes other than
    [datetime.max] (as are the midnights [Task.__init__] sets), the full
    listing holds the tasks of the store, each as often as the store
    does, and every task in it stands before the tasks that follow it in
    the order [listed_as_specified]: its label is the smaller text in the
    lexicographic order of code points, or the labels are equal and it
    is due no later, a task without a due date coming after every dated
    task of its label.  Tasks of one label and one due date keep the
    order of the store.  The order of the labels is the lexicographic
    order [String_as_OT.lt] of the library, in which they run High, Low,
    Medium, Urgent, which is not the order of severity.  In
    particular, among tasks of one label none without a due date stands
    before one with a due date ([absent_last]). *)
Theorem full_listing_order (l : list Task) :
  (forall t, In t l -> due_before_max t) ->
  Permutation (sorted_tasks l) l
  /\ StronglySorted listed_as_specified (sorted_tasks l)
  /\ (forall t, filter (same_key t) (sorted_tasks l) = filter (same_key t) l)
  /\ (forall s s' : string, str_lt s s' <-> String_as_OT.lt s s')
  /\ (str_lt "High" "Low" /\ str_lt "Low" "Medium" /\ str_lt "Medium" "Urgent")
  /\ absent_last (sorted_tasks l).
Proof.
  intro Hd.
  assert (Hs : StronglySorted listed_as_specified (sorted_tasks l)).
  { apply StronglySorted_impl_in with (R := listed_before) (P := due_before_max).
    - intros a b. apply due_before_max_listed.
    - rewrite Forall_forall. intros t Ht. apply Hd.
      apply Permutation_in with (l := sorted_tasks l); [apply sorted_tasks_perm|exact Ht].
    - apply (listing_order_by_key l). }
  split; [apply sorted_tasks_perm|].
  split; [exact Hs|].
  split; [intro t; apply sorted_tasks_stable|].
  split; [intros s s'; apply String_as_OT.cmp_lt|].
  split; [repeat split|].
  intros l1 l2 l3 a b Heq Hl Ha.
  rewrite Heq in Hs. apply StronglySorted_pair in Hs.
  destruct Hs as [Hlt|[_ Hn]].
  - unfold str_lt in Hlt. rewrite Hl, str_compare_refl in Hlt. discriminate.
  - unfold due_no_later in Hn. rewrite Ha in Hn.
    destruct (due_date b); [destruct Hn|reflexivity].
Qed.

(** The bound on the due dates is needed.  A file written by hand may
    hold a due date of [datetime.max] itself; [load_tasks] builds from
    the document [doc_undated_first] a store with a task without a due
    date followed by a task of the same label due at [datetime.max]: the
    keys of the two tasks are equal, the sort keeps them in store order,
    and the task without a due date is listed first. *)
Lemma undated_not_last :
  fst (TaskManager_init "tasks.json" (world_of (Parsed doc_undated_first)))
  = Ok (mk_TaskManager "tasks.json" [task_undated; task_dated_max] (PInt 3))
  /\ sorted_tasks [task_undated; task_dated_max] = [task_undated; task_dated_max]
  /\ ~ absent_last (sorted_tasks [task_undated; task_dated_max]).
Proof.
  split; [reflexivity|]. split; [reflexivity|].
  intro H. specialize (H [] [] [] task_undated task_dated_max eq_refl eq_refl eq_refl).
  discriminate H.
Qed.

(** ** The theorems at concrete inputs *)

(** The round trip of [task_example]. *)
Lemma from_dict_to_dict_witness :
  valid_task task_example = true
  /\ from_dict (to_dict task_example) (world_of Absent)
     = (Ok task_example, tick2 (world_of Absent)).
Proof.
  split; [reflexivity|]. apply from_dict_to_dict. reflexivity.
Defined.

(** Loading [doc_no_next_id], whose task has the id 1. *)
Lemma load_without_next_id_witness :
  TaskManager_init "tasks.json" (world_of (Parsed doc_no_next_id))
  = (Ok (mk_TaskManager "tasks.json" [task_loaded] (PInt 1)),
     tick2 (world_of (Parsed doc_no_next_id)))
  /\ forall (t d c : pyval) (p : Priority) (due : option string),
     exists task w2,
       add_task (mk_TaskManager "tasks.json" [task_loaded] (PInt 1)) t d c p due
                (tick2 (world_of (Parsed doc_no_next_id)))
       = (Ok (task, mk_TaskManager "tasks.json" ([task_loaded] ++ [task]) (PInt 2)), w2)
       /\ id task = PInt 1
       /\ ((exists u, In u [task_loaded] /\ id u = PInt 1) ->
           ~ NoDup (map id ([task_loaded] ++ [task]))).
Proof.
  apply (load_without_next_id "tasks.json"
           [("tasks", PList [entry 1 "Buy milk" "General" "Medium" "Pending"
                                   "2024-03-15T10:00:00" "2024-03-15T10:00:00"
                                   PNone PNone])]
           [entry 1 "Buy milk" "General" "Medium" "Pending"
                  "2024-03-15T10:00:00" "2024-03-15T10:00:00" PNone PNone]);
    reflexivity.
Defined.

(** The store [store_mixed_case], with the labels [Work] and [work]. *)
Lemma categories_differ_in_case_only_witness :
  exists cats r,
    get_categories store_mixed_case = Ok cats
    /\ In (PStr "Work") cats /\ In (PStr "work") cats
    /\ PStr "Work" <> PStr "work" /\ NoDup cats
    /\ (forall v, In v cats <->
                  exists t, In t (tasks store_mixed_case) /\ category t = v)
    /\ get_tasks_by_category store_mixed_case "Work" = Ok r
    /\ get_tasks_by_category store_mixed_case "work" = Ok r
    /\ In (task_in 1 "Work") r /\ In (task_in 2 "work") r
    /\ (forall t, In t r <->
                  In t (tasks store_mixed_case)
                  /\ exists s, category t = PStr s /\ lower s = lower "Work").
Proof.
  apply (categories_differ_in_case_only store_mixed_case "Work" "work"
           (task_in 1 "Work") (task_in 2 "work")).
  - repeat constructor; eexists; reflexivity.
  - simpl. auto.
  - reflexivity.
  - simpl. auto.
  - reflexivity.
  - discriminate.
  - reflexivity.
Defined.

(** The listing of [tasks_to_list]: the tasks of priority [HIGH] by
    their due dates, then those of priority [LOW], the one without a due
    date last, then the one of priority [URGENT]. *)
Lemma full_listing_order_witness :
  (forall t, In t tasks_to_list -> due_before_max t)
  /\ sorted_tasks tasks_to_list
     = [task_listed 5 HIGH (Some (mk_datetime 2024 3 1 0 0 0 0));
        task_listed 4 HIGH (Some (mk_datetime 2024 3 15 0 0 0 0));
        task_listed 2 LOW (Some (mk_datetime 2024 4 1 0 0 0 0));
        task_listed 1 LOW None;
        task_listed 3 URGENT None]
  /\ Permutation (sorted_tasks tasks_to_list) tasks_to_list
  /\ StronglySorted listed_as_specified (sorted_tasks tasks_to_list)
  /\ (forall t, filter (same_key t) (sorted_tasks tasks_to_list)
                = filter (same_key t) tasks_to_list)
  /\ (forall s s' : string, str_lt s s' <-> String_as_OT.lt s s')
  /\ (str_lt "High" "Low" /\ str_lt "Low" "Medium" /\ str_lt "Medium" "Urgent")
  /\ absent_last (sorted_tasks tasks_to_list).
Proof.
  assert (H : forall t, In t tasks_to_list -> due_before_max t).
  { intros t [<-|[<-|[<-|[<-|[<-|[]]]]]] d E; try discriminate E;
      injection E as <-; (split; [reflexivity|]);
      apply midnight_before_max; reflexivity. }
  split; [exact H|]. split; [reflexivity|].
  apply (full_listing_order tasks_to_list). exact H.
Defined.

(** * Further properties *)

(** ** What is saved is what is loaded *)

Lemma from_dict_of_to_dict (t : Task) (w : World) :
  valid_task t = true ->
  from_dict (to_dict t) w = (Ok t, tick2 w).
Proof.
  unfold valid_task. intro Hv.
  apply andb_true_iff in Hv. destruct Hv as [Hv Hc].
  apply andb_true_iff in Hv. destruct Hv as [Hv Hd].
  apply andb_true_iff in Hv. destruct Hv as [Hcr Hup].
  unfold from_dict.
  change (py_getitem (to_dict t) "title") with (Ok (title t)).
  change (py_get (to_dict t) "description" (PStr "")) with (Ok (description t)).
  change (py_get (to_dict t) "category" (PStr "General")) with (Ok (category t)).
  change (py_get (to_dict t) "priority" (PStr (Priority_value MEDIUM)))
    with (Ok (PStr (Priority_value (priority t)))).
  change (py_get (to_dict t) "id" PNone) with (Ok (id t)).
  change (py_get (to_dict t) "status" (PStr (Status_value PENDING)))
    with (Ok (PStr (Status_value (status t)))).
  change (py_getitem (to_dict t) "created_at") with (Ok (PStr (isoformat (created_at t)))).
  change (py_getitem (to_dict t) "updated_at") with (Ok (PStr (isoformat (updated_at t)))).
  change (py_get (to_dict t) "due_date" PNone) with (Ok (opt_isoformat (due_date t))).
  change (py_get (to_dict t) "completed_at" PNone) with (Ok (opt_isoformat (completed_at t))).
  unfold bind at 1 2 3 4 5. unfold lift at 1 2 3 4.
  rewrite Priority_of_value. unfold lift at 1.
  destruct (Task_init_run (title t) (description t) (category t) (priority t) None w)
    as (dd & Hinit & Hdd & _).
  rewrite (Hdd (or_introl eq_refl)) in Hinit. clear Hdd dd.
  unfold bind at 1. rewrite Hinit.
  unfold bind at 1 2 3. unfold lift at 1 2.
  rewrite Status_of_value. unfold lift at 1.
  unfold bind at 1 2. unfold lift at 1 2. simpl py_fromisoformat at 1.
  rewrite (fromisoformat_isoformat _ Hcr).
  unfold bind at 1 2. unfold lift at 1 2. simpl py_fromisoformat at 1.
  rewrite (fromisoformat_isoformat _ Hup).
  unfold bind at 1 2. unfold lift at 1.
  rewrite (read_opt_isoformat (due_date t) _ _ Hd eq_refl).
  unfold bind at 1 2. unfold lift at 1.
  rewrite (read_opt_isoformat (completed_at t) _ _ Hc eq_refl).
  unfold ret. destruct t; reflexivity.
Qed.

Lemma advance_advance (j k : nat) (w : World) :
  advance j (advance k w) = advance (j + k) w.
Proof. unfold advance. simpl. f_equal. lia. Qed.

Lemma mapM_reads_back (l : list Task) :
  forall w : World,
    forallb valid_task l = true ->
    mapM from_dict (map to_dict l) w = (Ok l, advance (2 * List.length l) w).
Proof.
  induction l as [|t l IH]; intros w Hv.
  - destruct w; reflexivity.
  - simpl in Hv. apply andb_true_iff in Hv. destruct Hv as [Ht Hl].
    cbn [map mapM]. unfold bind at 1. rewrite (from_dict_of_to_dict t w Ht).
    unfold bind at 1. rewrite (IH _ Hl). unfold ret.
    change (tick2 w) with (advance 2 w). rewrite advance_advance.
    do 2 f_equal. simpl List.length. lia.
Qed.

Lemma load_document (self : TaskManager) (w : World) :
  disk w = Parsed (document self) ->
  forallb valid_task (tasks self) = true ->
  TaskManager_init (filename self) w
  = (Ok self, advance (2 * List.length (tasks self)) w).
Proof.
  intros Hd Hv.
  unfold TaskManager_init, load_tasks, try_except, bind, path_exists, json_load, lift.
  cbv beta. rewrite Hd. cbv beta iota. rewrite Hd.
  change (py_getitem (document self) "tasks") with (Ok (PList (map to_dict (tasks self)))).
  cbn [py_iter]. rewrite (mapM_reads_back _ _ Hv).
  change (py_get (document self) "next_id" (PInt 1)) with (Ok (next_id self)).
  unfold ret. destruct self; reflexivity.
Qed.

(** X1: A store whose timestamps are datetimes within the ranges of the
    [datetime] class is read back as it is: after [save_tasks], a
    [TaskManager] built on the same file holds the same tasks in the
    same order and the same [next_id], and nothing is reported. *)
Theorem save_then_load (self : TaskManager) (w : World) :
  forallb valid_task (tasks self) = true ->
  exists w1 w2,
    save_tasks self w = (Ok tt, w1)
    /\ TaskManager_init (filename self) w1 = (Ok self, w2)
    /\ stdout w2 = stdout w
    /\ disk w2 = Parsed (document self).
Proof.
  intro Hv. rewrite save_tasks_run.
  do 2 eexists. split; [reflexivity|]. split.
  - apply load_document; [reflexivity|exact Hv].
  - split; reflexivity.
Qed.

(** ** Due dates read from text *)

Lemma datetime_new_Ok (y m d h mi s us : Z) (dt : datetime) :
  datetime_new y m d h mi s us = Ok dt ->
  dt = mk_datetime y m d h mi s us /\ valid_datetime dt = true.
Proof.
  unfold datetime_new. destruct (valid_date y m d && valid_time h mi s us) eqn:E;
    [|discriminate].
  intros [= <-]. split; [reflexivity|exact E].
Qed.

Lemma strptime_midnight (s : string) (f : list fmt_item) (d : datetime) :
  strptime s f = Ok d ->
  valid_datetime d = true
  /\ hour d = 0 /\ minute d = 0 /\ second d = 0 /\ microsecond d = 0.
Proof.
  unfold strptime. destruct (fmt_match f s) as [|[found rest] ms]; [discriminate|].
  destruct (negb (String.eqb rest "")); [discriminate|].
  intro H. apply datetime_new_Ok in H. destruct H as [-> Hv].
  split; [exact Hv|]. repeat split.
Qed.

Lemma _parse_date_Some (s : string) (d : datetime) :
  _parse_date s = Ok (Some d) ->
  strptime s fmt_ymd = Ok d \/ strptime s fmt_dmy = Ok d.
Proof.
  unfold _parse_date.
  destruct (contains "-" s).
  - destruct (strptime s fmt_ymd) as [d'|e] eqn:E; simpl.
    + intros [= ->]. left. reflexivity.
    + destruct e; discriminate.
  - destruct (contains "/" s); [|discriminate].
    destruct (strptime s fmt_dmy) as [d'|e] eqn:E; simpl.
    + intros [= ->]. right. reflexivity.
    + destruct e; discriminate.
Qed.

(** X2: Whatever the text, a date [_parse_date] answers is a date of the
    calendar (the month has that day, also in February of that year)
    within the years 1 to 9999, at midnight. *)
Theorem _parse_date_valid_midnight (s : string) (d : datetime) :
  _parse_date s = Ok (Some d) ->
  valid_datetime d = true
  /\ 1 <= year d <= 9999 /\ 1 <= month d <= 12
  /\ 1 <= day d <= days_in_month (year d) (month d)
  /\ hour d = 0 /\ minute d = 0 /\ second d = 0 /\ microsecond d = 0.
Proof.
  intro H. apply _parse_date_Some in H.
  assert (Hm : valid_datetime d = true
               /\ hour d = 0 /\ minute d = 0 /\ second d = 0 /\ microsecond d = 0)
    by (destruct H as [H|H]; apply strptime_midnight in H; exact H).
  destruct Hm as (Hv & Hh & Hmi & Hs & Hus).
  split; [exact Hv|].
  unfold valid_datetime, valid_date in Hv.
  repeat (apply andb_true_iff in Hv; destruct Hv as [Hv ?]).
  repeat match goal with
         | X : (_ <=? _) = true |- _ => apply Z.leb_le in X
         end.
  repeat split; assumption.
Qed.

(** ** The two notations of a date *)

Lemma re_first_digit (k : Z) (s : string) :
  0 <= k < 10 ->
  re_first is_digit (String (digit_char k) s) = [(String (digit_char k) EmptyString, s)].
Proof.
  intro H. unfold re_first. rewrite (proj1 (digit_char_digit k H)). reflexivity.
Qed.

Lemma re_Y_zpad4 (y : Z) (rest : string) :
  re_match re_Y (zpad4 y ++ rest)%string = [(zpad4 y, rest)].
Proof.
  unfold re_Y, zpad4, zpad2. cbn [append re_match].
  rewrite re_first_digit by apply digit_bound. cbn [flat_map map fst snd app].
  rewrite re_first_digit by apply digit_bound. cbn [flat_map map fst snd app].
  rewrite re_first_digit by apply digit_bound. cbn [flat_map map fst snd app].
  rewrite re_first_digit by apply digit_bound. cbn [flat_map map fst snd app append].
  reflexivity.
Qed.

Lemma re_m_zpad2 (m : Z) (rest : string) :
  1 <= m <= 12 ->
  exists tl, re_match re_m (zpad2 m ++ rest)%string = (zpad2 m, rest) :: tl.
Proof.
  intro H.
  assert (E : m = 1 \/ m = 2 \/ m = 3 \/ m = 4 \/ m = 5 \/ m = 6 \/ m = 7 \/ m = 8
              \/ m = 9 \/ m = 10 \/ m = 11 \/ m = 12) by lia.
  repeat (destruct E as [->|E]; [eexists; reflexivity|]).
  subst m. eexists; reflexivity.
Qed.

Lemma re_d_zpad2 (d : Z) (rest : string) :
  1 <= d <= 31 ->
  exists tl, re_match re_d (zpad2 d ++ rest)%string = (zpad2 d, rest) :: tl.
Proof.
  intro H.
  assert (E : d = 1 \/ d = 2 \/ d = 3 \/ d = 4 \/ d = 5 \/ d = 6 \/ d = 7 \/ d = 8
              \/ d = 9 \/ d = 10 \/ d = 11 \/ d = 12 \/ d = 13 \/ d = 14 \/ d = 15
              \/ d = 16 \/ d = 17 \/ d = 18 \/ d = 19 \/ d = 20 \/ d = 21 \/ d = 22
              \/ d = 23 \/ d = 24 \/ d = 25 \/ d = 26 \/ d = 27 \/ d = 28 \/ d = 29
              \/ d = 30 \/ d = 31) by lia.
  repeat (destruct E as [->|E]; [eexists; reflexivity|]).
  subst d. eexists; reflexivity.
Qed.

Lemma fmt_match_directive (n : ascii) (f : list fmt_item) (s a b : string)
    (tl : list (string * string)) (g : list (ascii * string)) (r : string)
    (tl' : list (list (ascii * string) * string)) :
  re_match (directive_re n) s = (a, b) :: tl ->
  fmt_match f b = (g, r) :: tl' ->
  exists tl'', fmt_match (Directive n :: f) s = ((n, a) :: g, r) :: tl''.
Proof.
  intros H1 H2. cbn [fmt_match]. rewrite H1. cbn [flat_map fst snd]. rewrite H2.
  cbn [map app fst snd]. eexists. reflexivity.
Qed.

Lemma fmt_match_literal (c : ascii) (f : list fmt_item) (s : string)
    (g : list (ascii * string)) (r : string)
    (tl' : list (list (ascii * string) * string)) :
  fmt_match f s = (g, r) :: tl' ->
  exists tl'', fmt_match (Literal c :: f) (String c s) = (g, r) :: tl''.
Proof.
  intro H. cbn [fmt_match re_match re_first]. rewrite Ascii.eqb_refl.
  cbn [flat_map fst snd]. rewrite H. eexists. reflexivity.
Qed.

Lemma digit_char_not_blank (k : Z) :
  0 <= k < 10 -> Ascii.eqb (digit_char k) " " = false.
Proof.
  intro H.
  assert (E : k = 0 \/ k = 1 \/ k = 2 \/ k = 3 \/ k = 4 \/ k = 5 \/ k = 6
              \/ k = 7 \/ k = 8 \/ k = 9) by lia.
  repeat (destruct E as [->|E]; [reflexivity|]). subst k. reflexivity.
Qed.

Lemma py_int_zpad2 (n : Z) : 0 <= n < 100 -> py_int (zpad2 n) = n.
Proof.
  intro H. unfold py_int, zpad2. cbn [lstrip].
  rewrite digit_char_not_blank by apply digit_bound. cbn [int_digits].
  rewrite !(proj2 (digit_char_digit _ (digit_bound _))).
  Z.div_mod_to_equations. lia.
Qed.

Lemma py_int_zpad4 (n : Z) : 0 <= n < 10000 -> py_int (zpad4 n) = n.
Proof.
  intro H. unfold py_int, zpad4, zpad2. cbn [append lstrip].
  rewrite digit_char_not_blank by apply digit_bound. cbn [int_digits].
  rewrite !(proj2 (digit_char_digit _ (digit_bound _))).
  Z.div_mod_to_equations. lia.
Qed.

Lemma valid_date_bounds (y m d : Z) :
  valid_date y m d = true -> 1 <= y <= 9999 /\ 1 <= m <= 12 /\ 1 <= d <= 31.
Proof.
  intro H.
  assert (Hv : valid_datetime (mk_datetime y m d 0 0 0 0) = true)
    by (unfold valid_datetime; cbn [year month day hour minute second microsecond];
        rewrite H; reflexivity).
  apply valid_datetime_bounds in Hv. cbn in Hv. lia.
Qed.

Lemma strptime_text_ymd (y m d : Z) :
  valid_date y m d = true ->
  strptime (text_ymd y m d) fmt_ymd = Ok (mk_datetime y m d 0 0 0 0).
Proof.
  intro Hv. pose proof (valid_date_bounds y m d Hv) as (Hy & Hm & Hd).
  destruct (re_d_zpad2 d EmptyString Hd) as [tl3 H3]. rewrite append_empty_r in H3.
  destruct (fmt_match_directive "d" [] _ _ _ _ [] EmptyString [] H3 eq_refl) as [tl3' F3].
  destruct (fmt_match_literal "-" _ _ _ _ _ F3) as [tl2' F2'].
  destruct (re_m_zpad2 m (String "-" (zpad2 d)) Hm) as [tl2 H2].
  destruct (fmt_match_directive "m" _ _ _ _ _ _ _ _ H2 F2') as [tl2'' F2].
  destruct (fmt_match_literal "-" _ _ _ _ _ F2) as [tl1' F1'].
  pose proof (re_Y_zpad4 y (String "-" (zpad2 m ++ String "-" (zpad2 d)))) as H1.
  destruct (fmt_match_directive "Y" _ _ _ _ _ _ _ _ H1 F1') as [tl1 F1].
  unfold strptime, text_ymd. cbn [append]. unfold fmt_ymd. rewrite F1.
  cbn [String.eqb negb]. unfold group_int. cbn [group Ascii.eqb Bool.eqb].
  rewrite py_int_zpad4, !py_int_zpad2 by lia.
  unfold datetime_new. rewrite Hv. reflexivity.
Qed.

Lemma strptime_text_dmy (y m d : Z) :
  valid_date y m d = true ->
  strptime (text_dmy y m d) fmt_dmy = Ok (mk_datetime y m d 0 0 0 0).
Proof.
  intro Hv. pose proof (valid_date_bounds y m d Hv) as (Hy & Hm & Hd).
  pose proof (re_Y_zpad4 y EmptyString) as H3. rewrite append_empty_r in H3.
  destruct (fmt_match_directive "Y" [] _ _ _ _ [] EmptyString [] H3 eq_refl) as [tl3' F3].
  destruct (fmt_match_literal "/" _ _ _ _ _ F3) as [tl2' F2'].
  destruct (re_m_zpad2 m (String "/" (zpad4 y)) Hm) as [tl2 H2].
  destruct (fmt_match_directive "m" _ _ _ _ _ _ _ _ H2 F2') as [tl2'' F2].
  destruct (fmt_match_literal "/" _ _ _ _ _ F2) as [tl1' F1'].
  destruct (re_d_zpad2 d (String "/" (zpad2 m ++ String "/" (zpad4 y))) Hd) as [tl1'' H1].
  destruct (fmt_match_directive "d" _ _ _ _ _ _ _ _ H1 F1') as [tl1 F1].
  unfold strptime, text_dmy. cbn [append]. unfold fmt_dmy. rewrite F1.
  cbn [String.eqb negb]. unfold group_int. cbn [group Ascii.eqb Bool.eqb].
  rewrite py_int_zpad4, !py_int_zpad2 by lia.
  unfold datetime_new. rewrite Hv. reflexivity.
Qed.

(** X3: For every date of the calendar, its text in the notation
    [YYYY-MM-DD] and its text in the notation [DD/MM/YYYY] are both read
    by [_parse_date], as that date at midnight: the two notations are
    interchangeable. *)
Theorem both_notations_give_the_date (y m d : Z) :
  valid_date y m d = true ->
  _parse_date (text_ymd y m d) = Ok (Some (mk_datetime y m d 0 0 0 0))
  /\ _parse_date (text_dmy y m d) = Ok (Some (mk_datetime y m d 0 0 0 0)).
Proof.
  intro Hv. split.
  - pose proof (strptime_text_ymd y m d Hv) as H.
    unfold _parse_date. rewrite (strptime_ymd_dash _ _ H), H. reflexivity.
  - pose proof (strptime_text_dmy y m d Hv) as H.
    destruct (strptime_dmy_slash _ _ H) as [Hs Hd].
    unfold _parse_date. rewrite Hd, Hs, H. reflexivity.
Qed.

(** ** Operations, one after the other *)

Lemma Task_init_valid_due (t d c : pyval) (p : Priority) (due : option string) (w : World) :
  exists dd,
    Task_init t d c p due w
    = (Ok (mk_Task PNone t d c p PENDING (clock w (ticks w)) (clock w (S (ticks w))) dd None),
       tick2 w)
    /\ valid_opt dd = true.
Proof.
  destruct (Task_init_run t d c p due w) as (dd & H & Hn & Hp).
  exists dd. split; [exact H|].
  destruct due as [s|]; [|rewrite Hn by auto; reflexivity].
  destruct (String.eqb s "") eqn:E.
  - apply String.eqb_eq in E. subst s. rewrite Hn by auto. reflexivity.
  - apply String.eqb_neq in E. specialize (Hp s eq_refl E).
    destruct dd as [d0|]; [|reflexivity].
    apply _parse_date_Some in Hp. destruct Hp as [Hp|Hp];
      apply strptime_midnight in Hp; apply Hp.
Qed.

Lemma add_task_exec (f : string) (l : list Task) (n : Z) (t d c : pyval)
    (p : Priority) (due : option string) (w : World) :
  exists dd,
    let task := mk_Task (PInt n) t d c p PENDING (clock w (ticks w))
                        (clock w (S (ticks w))) dd None in
    let self' := mk_TaskManager f (l ++ [task]) (PInt (n + 1)) in
    add_task (mk_TaskManager f l (PInt n)) t d c p due w
    = (Ok (task, self'),
       mk_World (Parsed (document self')) (clock w) (S (S (ticks w))) (stdout w))
    /\ valid_opt dd = true.
Proof.
  destruct (Task_init_valid_due t d c p due w) as (dd & H & Hv).
  exists dd. split; [|exact Hv].
  unfold add_task, bind at 1. rewrite H. reflexivity.
Qed.

Lemma update_status_exec (t : Task) (s : Status) (w : World) :
  exists t' k,
    update_status t s w = (Ok t', advance k w)
    /\ status t' = s /\ id t' = id t
    /\ (valid_clock w -> valid_task t = true -> valid_task t' = true).
Proof.
  unfold update_status, bind, now, ret.
  destruct (Status_eqb s COMPLETED).
  - eexists. exists 2%nat. split; [reflexivity|]. split; [reflexivity|].
    split; [reflexivity|]. intros Hc Hv. unfold valid_task in *.
    cbn [created_at updated_at due_date completed_at valid_opt clock ticks] in *.
    apply andb_true_iff in Hv. destruct Hv as [Hv H4].
    apply andb_true_iff in Hv. destruct Hv as [Hv H3].
    apply andb_true_iff in Hv. destruct Hv as [H1 H2].
    rewrite H1, H3, !Hc. reflexivity.
  - eexists. exists 1%nat. split; [reflexivity|]. split; [reflexivity|].
    split; [reflexivity|]. intros Hc Hv. unfold valid_task in *.
    cbn [created_at updated_at due_date completed_at valid_opt clock ticks] in *.
    apply andb_true_iff in Hv. destruct Hv as [Hv H4].
    apply andb_true_iff in Hv. destruct Hv as [Hv H3].
    apply andb_true_iff in Hv. destruct Hv as [H1 H2].
    rewrite H1, H3, H4, Hc. reflexivity.
Qed.

(** What a call of [update_task_status] or [delete_task] does, by cases. *)
Lemma update_task_status_exec (self : TaskManager) (i : Z) (s : Status) (w : World) :
  (get_task self i = None /\ update_task_status self i s w = (Ok (false, self), w))
  \/ exists l1 t l2 t' k,
       tasks self = l1 ++ t :: l2
       /\ py_eq_int (id t) i = true
       /\ Forall (fun u => py_eq_int (id u) i = false) l1
       /\ status t' = s /\ id t' = id t
       /\ (valid_clock w -> valid_task t = true -> valid_task t' = true)
       /\ let self' := mk_TaskManager (filename self) (l1 ++ t' :: l2) (next_id self) in
          update_task_status self i s w
          = (Ok (true, self'),
             mk_World (Parsed (document self')) (clock w) (k + ticks w) (stdout w)).
Proof.
  unfold update_task_status. destruct (get_task self i) as [t|] eqn:G.
  - right. destruct (get_task_Some _ _ _ G) as (l1 & l2 & Hl & Ht & Hl1).
    destruct (update_status_exec t s w) as (t' & k & Hu & Hs & Hid & Hv).
    exists l1, t, l2, t', k. repeat (split; [assumption|]).
    cbv zeta. unfold bind at 1. rewrite Hu. rewrite Hl.
    rewrite (replace_first_split _ t' t l1 l2 Hl1 Ht). reflexivity.
  - left. split; reflexivity.
Qed.

Lemma delete_task_exec (self : TaskManager) (i : Z) (w : World) :
  (get_task self i = None /\ delete_task self i w = (Ok (false, self), w))
  \/ exists l1 t l2,
       tasks self = l1 ++ t :: l2
       /\ py_eq_int (id t) i = true
       /\ Forall (fun u => py_eq_int (id u) i = false) l1
       /\ let self' := mk_TaskManager (filename self) (l1 ++ l2) (next_id self) in
          delete_task self i w
          = (Ok (true, self'),
             mk_World (Parsed (document self')) (clock w) (ticks w) (stdout w)).
Proof.
  unfold delete_task. destruct (get_task self i) as [t|] eqn:G.
  - right. destruct (get_task_Some _ _ _ G) as (l1 & l2 & Hl & Ht & Hl1).
    exists l1, t, l2. repeat (split; [assumption|]).
    cbv zeta. rewrite Hl. rewrite (remove_first_split _ t l1 l2 Hl1 Ht). reflexivity.
  - left. split; reflexivity.
Qed.

Lemma ids_below_replace (n : Z) (l1 l2 : list Task) (t t' : Task) :
  id t' = id t -> ids_below n (l1 ++ t :: l2) -> ids_below n (l1 ++ t' :: l2).
Proof.
  intros Hid [Hr Hn]. split.
  - intros u Hin. apply in_app_or in Hin. destruct Hin as [Hin|[<-|Hin]].
    + apply Hr. apply in_or_app. left. exact Hin.
    + rewrite Hid. apply (Hr t). apply in_or_app. right. left. reflexivity.
    + apply Hr. apply in_or_app. right. right. exact Hin.
  - rewrite map_app in *. simpl in *. rewrite Hid. exact Hn.
Qed.

Lemma forallb_middle (p : Task -> bool) (l1 l2 : list Task) (t : Task) :
  forallb p (l1 ++ t :: l2) = forallb p l1 && p t && forallb p l2.
Proof. rewrite forallb_app. simpl. apply andb_assoc. Qed.

(** Every operation keeps a store as [store_ok] describes it, and leaves
    the file holding the document of the store unless it changed
    neither. *)
Lemma run_ops_inv (ops : list op) :
  forall (self : TaskManager) (w : World),
    store_ok self -> valid_clock w ->
    exists self' w',
      run_ops ops self w = (Ok self', w')
      /\ store_ok self' /\ clock w' = clock w /\ stdout w' = stdout w
      /\ filename self' = filename self
      /\ ((self' = self /\ disk w' = disk w) \/ disk w' = Parsed (document self')).
Proof.
  induction ops as [|o ops IH]; intros self w Hok Hc.
  - exists self, w. simpl. unfold ret. auto 10.
  - assert (Hstep : exists self1 w1,
               (match o with
                | OpAdd t d c p due => (r <- add_task self t d c p due ;; ret (snd r))%M
                | OpUpdate i s => (r <- update_task_status self i s ;; ret (snd r))%M
                | OpDelete i => (r <- delete_task self i ;; ret (snd r))%M
                end) w = (Ok self1, w1)
               /\ store_ok self1 /\ clock w1 = clock w /\ stdout w1 = stdout w
               /\ filename self1 = filename self
               /\ ((self1 = self /\ disk w1 = disk w)
                   \/ disk w1 = Parsed (document self1))).
    { destruct Hok as (n & Hn & Hpos & Hids & Hval).
      destruct o as [t d c p due|i s|i].
      - destruct self as [f l nid]. simpl in Hn, Hids, Hval. subst nid.
        destruct (add_task_exec f l n t d c p due w) as (dd & Hrun & Hdd).
        cbv zeta in Hrun. unfold bind. rewrite Hrun. unfold ret. cbn [snd].
        do 2 eexists. split; [reflexivity|]. cbn [clock stdout disk filename].
        split; [|auto].
        exists (n + 1). cbn [next_id tasks]. split; [reflexivity|]. split; [lia|].
        split; [apply ids_below_add; auto|].
        rewrite forallb_app, Hval. cbn [forallb]. unfold valid_task.
        cbn [created_at updated_at due_date completed_at valid_opt].
        rewrite !Hc, Hdd. reflexivity.
      - destruct (update_task_status_exec self i s w)
          as [[_ Hrun]|(l1 & t & l2 & t' & k & Hl & Ht & Hl1 & Hs & Hid & Hv & Hrun)].
        + unfold bind. rewrite Hrun. unfold ret. cbn [snd].
          exists self, w. split; [reflexivity|]. split; [exists n; auto|]. auto 10.
        + cbv zeta in Hrun. unfold bind. rewrite Hrun. unfold ret. cbn [snd].
          do 2 eexists. split; [reflexivity|]. cbn [clock stdout disk filename].
          split; [|auto].
          exists n. cbn [next_id tasks]. rewrite Hl in Hids, Hval.
          split; [exact Hn|]. split; [exact Hpos|].
          split; [apply ids_below_replace with (t := t); assumption|].
          rewrite forallb_middle in *.
          apply andb_true_iff in Hval. destruct Hval as [Hval H2].
          apply andb_true_iff in Hval. destruct Hval as [H1 Htv].
          rewrite H1, H2, (Hv Hc Htv). reflexivity.
      - destruct (delete_task_exec self i w)
          as [[_ Hrun]|(l1 & t & l2 & Hl & Ht & Hl1 & Hrun)].
        + unfold bind. rewrite Hrun. unfold ret. cbn [snd].
          exists self, w. split; [reflexivity|]. split; [exists n; auto|]. auto 10.
        + cbv zeta in Hrun. unfold bind. rewrite Hrun. unfold ret. cbn [snd].
          do 2 eexists. split; [reflexivity|]. cbn [clock stdout disk filename].
          split; [|auto].
          exists n. cbn [next_id tasks]. rewrite Hl in Hids, Hval.
          split; [exact Hn|]. split; [exact Hpos|].
          split; [apply ids_below_remove with (t := t); assumption|].
          rewrite forallb_middle in Hval. rewrite forallb_app.
          apply andb_true_iff in Hval. destruct Hval as [Hval H2].
          apply andb_true_iff in Hval. destruct Hval as [H1 _].
          rewrite H1, H2. reflexivity. }
    destruct Hstep as (self1 & w1 & Hrun1 & Hok1 & Hc1 & Ho1 & Hf1 & Hd1).
    assert (Hc' : valid_clock w1) by (intro k; rewrite Hc1; apply Hc).
    destruct (IH self1 w1 Hok1 Hc') as (self' & w' & Hrun & Hok' & Hc2 & Ho2 & Hf2 & Hd2).
    exists self', w'. split.
    + destruct o as [t d c p due|i s|i]; cbn [run_ops]; unfold bind in *;
        [destruct (add_task self t d c p due w) as [[[tk sf]|e] w0]
        |destruct (update_task_status self i s w) as [[[b sf]|e] w0]
        |destruct (delete_task self i w) as [[[b sf]|e] w0]];
        unfold ret in Hrun1; cbn [snd] in *; try discriminate Hrun1;
        injection Hrun1 as -> ->; exact Hrun.
    + split; [exact Hok'|]. split; [congruence|]. split; [congruence|].
      split; [congruence|].
      destruct Hd2 as [[-> Hd2]|Hd2]; [|right; exact Hd2].
      destruct Hd1 as [[-> Hd1]|Hd1]; [left; split; congruence|right; congruence].
Qed.

(** X4: Started on a missing file, a [TaskManager] that has run any
    sequence of [add_task], [update_task_status] and [delete_task] calls
    is rebuilt as it is by a restart: building a [TaskManager] on the
    same file afterwards yields the same tasks, in the same order, and
    the same [next_id], without any report.  (The clock is taken to
    answer with datetimes within the ranges of the [datetime] class.) *)
Theorem restart_restores_store (ops : list op) (f : string) (w : World) :
  disk w = Absent -> valid_clock w ->
  exists self1 w1 w2,
    (tm <- TaskManager_init f ;; run_ops ops tm)%M w = (Ok self1, w1)
    /\ TaskManager_init f w1 = (Ok self1, w2)
    /\ stdout w2 = stdout w
    /\ store_ok self1.
Proof.
  intros Hd Hc.
  pose proof (proj1 (load_recovers f w) Hd) as Hinit.
  assert (H0 : store_ok (mk_TaskManager f [] (PInt 1))).
  { exists 1. cbn. repeat split; try lia. intros t []. constructor. }
  destruct (run_ops_inv ops _ w H0 Hc) as (self1 & w1 & Hrun & Hok & Hc1 & Ho1 & Hf1 & Hd1).
  cbn [filename] in Hf1.
  destruct Hd1 as [[-> Hd1]|Hd1].
  - rewrite Hd in Hd1.
    pose proof (proj1 (load_recovers f w1) Hd1) as Hinit1.
    exists (mk_TaskManager f [] (PInt 1)), w1, w1.
    unfold bind. rewrite Hinit, Hrun. auto.
  - destruct Hok as (n & Hn & Hpos & Hids & Hval).
    pose proof (load_document self1 w1 Hd1 Hval) as Hload. rewrite Hf1 in Hload.
    do 3 eexists. unfold bind. rewrite Hinit, Hrun.
    split; [reflexivity|]. split; [exact Hload|].
    split; [exact Ho1|]. exists n. auto.
Qed.

(** ** Looking a task up after a change *)

Lemma find_app_first {A} (p : A -> bool) (l1 l2 : list A) :
  find p (l1 ++ l2) = match find p l1 with
                      | Some x => Some x
                      | None => find p l2
                      end.
Proof.
  induction l1 as [|x l1 IH]; simpl; [reflexivity|].
  destruct (p x); [reflexivity|exact IH].
Qed.

Lemma find_none_Forall {A} (p : A -> bool) (l : list A) :
  Forall (fun x => p x = false) l -> find p l = None.
Proof.
  induction 1 as [|x l Hx _ IH]; simpl; [reflexivity|]. rewrite Hx. exact IH.
Qed.

Lemma ids_below_match (n : Z) (l : list Task) (u : Task) (j : Z) :
  ids_below n l -> In u l ->
  py_eq_int (id u) j = true <-> id u = PInt j.
Proof.
  intros [Hr _] Hin. destruct (Hr u Hin) as (k & Hk & _). rewrite Hk. simpl.
  rewrite Z.eqb_eq. split; congruence.
Qed.

Lemma ids_below_fresh (n : Z) (l : list Task) (j : Z) :
  ids_below n l -> n <= j -> find (fun t => py_eq_int (id t) j) l = None.
Proof.
  intros [Hr _] Hj. apply find_none_Forall. apply Forall_forall. intros u Hin.
  destruct (Hr u Hin) as (k & Hk & Hlt). rewrite Hk. simpl. apply Z.eqb_neq. lia.
Qed.

(** In a store with pairwise different ids, no task after the first one
    with the id [i] has that id. *)
Lemma ids_below_rest (n : Z) (l1 l2 : list Task) (t : Task) (i : Z) :
  ids_below n (l1 ++ t :: l2) -> py_eq_int (id t) i = true ->
  Forall (fun u => py_eq_int (id u) i = false) l2.
Proof.
  intros Hids Ht. apply Forall_forall. intros u Hin.
  destruct (py_eq_int (id u) i) eqn:E; [|reflexivity]. exfalso.
  assert (Hu : In u (l1 ++ t :: l2)) by (apply in_or_app; right; right; exact Hin).
  assert (Htin : In t (l1 ++ t :: l2)) by (apply in_or_app; right; left; reflexivity).
  apply (ids_below_match n _ u i Hids Hu) in E.
  apply (ids_below_match n _ t i Hids Htin) in Ht.
  destruct Hids as [_ Hnd]. rewrite map_app in Hnd. simpl in Hnd.
  apply NoDup_remove_2 in Hnd. apply Hnd. apply in_or_app. right.
  rewrite Ht, <- E. apply in_map. exact Hin.
Qed.

(** X5: In a store whose ids are positive integers below its [next_id]
    [n], pairwise different, the task [add_task] returns is the one
    [get_task] finds under the id [n] afterwards, and a lookup under any
    other id finds what it found before. *)
Theorem add_then_get (f : string) (l : list Task) (n : Z) (t d c : pyval)
    (p : Priority) (due : option string) (w : World) :
  ids_below n l ->
  exists task self' w',
    add_task (mk_TaskManager f l (PInt n)) t d c p due w = (Ok (task, self'), w')
    /\ get_task self' n = Some task
    /\ (forall j, j <> n -> get_task self' j = get_task (mk_TaskManager f l (PInt n)) j)
    /\ List.length (tasks self') = S (List.length l).
Proof.
  intro Hids.
  destruct (add_task_exec f l n t d c p due w) as (dd & Hrun & _). cbv zeta in Hrun.
  do 3 eexists. split; [exact Hrun|].
  unfold get_task. cbn [tasks]. split; [|split].
  - rewrite find_app_first, (ids_below_fresh n l n Hids) by lia.
    simpl. rewrite Z.eqb_refl. reflexivity.
  - intros j Hj. rewrite find_app_first.
    destruct (find _ l); [reflexivity|].
    simpl. replace (n =? j) with false; [reflexivity|].
    symmetry. apply Z.eqb_neq. congruence.
  - rewrite length_app. simpl. lia.
Qed.

(** X6: In such a store, after [delete_task] no task is found under the
    deleted id, and a lookup under any other id finds what it found
    before; the store shrinks by one task exactly when the answer is
    [True]. *)
Theorem delete_then_get (self : TaskManager) (n i : Z) (w : World) :
  ids_below n (tasks self) ->
  exists b self' w',
    delete_task self i w = (Ok (b, self'), w')
    /\ get_task self' i = None
    /\ (forall j, j <> i -> get_task self' j = get_task self j)
    /\ List.length (tasks self) = ((if b then 1 else 0) + List.length (tasks self'))%nat.
Proof.
  intro Hids.
  destruct (delete_task_exec self i w)
    as [[G Hrun]|(l1 & t & l2 & Hl & Ht & Hl1 & Hrun)].
  - exists false, self, w. split; [exact Hrun|]. split; [exact G|]. split; reflexivity.
  - cbv zeta in Hrun. do 3 eexists. split; [exact Hrun|].
    rewrite Hl in Hids.
    pose proof (ids_below_rest n l1 l2 t i Hids Ht) as Hl2.
    unfold get_task. cbn [tasks]. rewrite Hl. split; [|split].
    + rewrite find_app_first, (find_none_Forall _ l1 Hl1). apply find_none_Forall. exact Hl2.
    + intros j Hj. rewrite !find_app_first. destruct (find _ l1); [reflexivity|].
      simpl.
      assert (Htin : In t (l1 ++ t :: l2)) by (apply in_or_app; right; left; reflexivity).
      apply (ids_below_match n _ t i Hids Htin) in Ht. rewrite Ht. simpl.
      replace (i =? j) with false; [reflexivity|].
      symmetry. apply Z.eqb_neq. congruence.
    + rewrite !length_app. simpl. lia.
Qed.

(** X7: In such a store, after [update_task_status] answered [True] the
    task found under the id has the new status, a lookup under any other
    id finds what it found before, and the ids of the store, in their
    order, are what they were. *)
Theorem update_then_get (self : TaskManager) (n i : Z) (s : Status) (w : World) :
  ids_below n (tasks self) ->
  exists b self' w',
    update_task_status self i s w = (Ok (b, self'), w')
    /\ (b = true -> exists t', get_task self' i = Some t' /\ status t' = s)
    /\ (b = false -> get_task self' i = None)
    /\ (forall j, j <> i -> get_task self' j = get_task self j)
    /\ map id (tasks self') = map id (tasks self).
Proof.
  intro Hids.
  destruct (update_task_status_exec self i s w)
    as [[G Hrun]|(l1 & t & l2 & t' & k & Hl & Ht & Hl1 & Hs & Hid & _ & Hrun)].
  - exists false, self, w. split; [exact Hrun|]. split; [discriminate|].
    split; [intros _; exact G|]. split; reflexivity.
  - cbv zeta in Hrun. do 3 eexists. split; [exact Hrun|].
    rewrite Hl in Hids. unfold get_task. cbn [tasks]. rewrite Hl.
    split; [|split; [discriminate|split]].
    + intros _. exists t'. split; [|exact Hs].
      rewrite find_app_first, (find_none_Forall _ l1 Hl1). simpl.
      rewrite Hid, Ht. reflexivity.
    + intros j Hj. rewrite !find_app_first. destruct (find _ l1); [reflexivity|].
      simpl. rewrite Hid.
      assert (Htin : In t (l1 ++ t :: l2)) by (apply in_or_app; right; left; reflexivity).
      apply (ids_below_match n _ t i Hids Htin) in Ht. rewrite Ht. simpl.
      replace (i =? j) with false; [reflexivity|].
      symmetry. apply Z.eqb_neq. congruence.
    + rewrite !map_app. simpl. rewrite Hid. reflexivity.
Qed.

(** ** Counts and overdue tasks *)

Lemma status_partition (l : list Task) :
  count_if (has_status PENDING) l + count_if (has_status IN_PROGRESS) l
  + count_if (has_status COMPLETED) l + count_if (has_status CANCELLED) l
  = len l.
Proof.
  unfold len. induction l as [|t l IH]; [reflexivity|].
  cbn [count_if List.length]. unfold has_status at 1 3 5 7.
  destruct (status t); cbn [Status_eqb]; lia.
Qed.

Lemma count_if_nonneg (p : Task -> bool) (l : list Task) : 0 <= count_if p l <= len l.
Proof.
  unfold len. induction l as [|t l IH]; cbn [count_if List.length]; [lia|].
  destruct (p t); lia.
Qed.

(** The tasks [get_overdue_tasks] yields are tasks of the store with a
    due date that are not completed; there are at most as many as there
    are tasks that are not completed. *)
Lemma get_overdue_tasks_members (l : list Task) :
  forall w : World,
  exists late w',
    filterM is_overdue l w = (Ok late, w')
    /\ Forall (fun t => In t l /\ due_date t <> None /\ status t <> COMPLETED) late
    /\ len late + count_if (has_status COMPLETED) l <= len l
    /\ ((forall t, In t l -> due_date t = None \/ status t = COMPLETED) -> late = []).
Proof.
  induction l as [|t l IH]; intro w.
  - exists [], w. repeat split; auto. unfold len. simpl. lia.
  - assert (Hstep : exists b w1,
               is_overdue t w = (Ok b, w1)
               /\ (b = true -> due_date t <> None /\ status t <> COMPLETED)
               /\ (due_date t = None \/ status t = COMPLETED -> b = false)).
    { unfold is_overdue. destruct (due_date t) as [due|] eqn:Ed.
      - destruct (Status_eqb (status t) COMPLETED) eqn:Es; simpl.
        + exists false, w. split; [reflexivity|]. split; [discriminate|auto].
        + apply Status_eqb_neq in Es. unfold bind, now, ret.
          do 2 eexists. split; [reflexivity|]. split.
          * intros _. split; [discriminate|exact Es].
          * intros [H|H]; [discriminate|contradiction].
      - exists false, w. split; [reflexivity|]. split; [discriminate|auto]. }
    destruct Hstep as (b & w1 & Hb & Htrue & Hfalse).
    destruct (IH w1) as (late & w2 & Hl & Hall & Hcount & Hnone).
    cbn [filterM]. unfold bind at 1. rewrite Hb. unfold bind at 1. rewrite Hl.
    unfold ret. do 2 eexists. split; [reflexivity|].
    assert (Hall' : Forall (fun u => In u (t :: l) /\ due_date u <> None
                                     /\ status u <> COMPLETED) late).
    { apply Forall_impl with (2 := Hall). intros u (Hin & H). split; [right; exact Hin|exact H]. }
    unfold len in *. cbn [count_if List.length]. unfold has_status at 1.
    split; [|split].
    + destruct b; [|exact Hall'].
      constructor; [|exact Hall']. split; [left; reflexivity|]. apply Htrue. reflexivity.
    + destruct b.
      * destruct (Htrue eq_refl) as [_ Hs]. apply Status_eqb_neq in Hs. rewrite Hs.
        cbn [List.length]. lia.
      * destruct (Status_eqb (status t) COMPLETED); lia.
    + intro H. rewrite (Hfalse (H t (or_introl eq_refl))).
      apply Hnone. intros u Hu. apply H. right. exact Hu.
Qed.

(** X8: The counts of [get_statistics] add up: [completed], [pending]
    and [in_progress], together with the number of cancelled tasks (which
    is not reported), make [total]; none is negative; and [overdue] is at
    most the number of tasks that are not completed. *)
Theorem statistics_add_up (self : TaskManager) (w : World) :
  exists st w',
    get_statistics self w = (Ok st, w')
    /\ completed st + pending st + in_progress st
       + len (get_tasks_by_status self CANCELLED) = total st
    /\ 0 <= completed st /\ 0 <= pending st /\ 0 <= in_progress st
    /\ 0 <= overdue st <= total st - completed st.
Proof.
  unfold get_statistics, get_overdue_tasks, get_tasks_by_status.
  destruct (get_overdue_tasks_members (tasks self) w) as (late & w' & Hl & _ & Hcount & _).
  unfold bind. rewrite Hl. unfold ret.
  do 2 eexists. split; [reflexivity|]. cbn [total completed pending in_progress overdue].
  rewrite !len_filter.
  pose proof (status_partition (tasks self)) as Hp.
  pose proof (count_if_nonneg (has_status COMPLETED) (tasks self)).
  pose proof (count_if_nonneg (has_status PENDING) (tasks self)).
  pose proof (count_if_nonneg (has_status IN_PROGRESS) (tasks self)).
  assert (0 <= len late) by (unfold len; lia).
  change (fun t : Task => Status_eqb (status t) COMPLETED) with (has_status COMPLETED) in *.
  change (fun t : Task => Status_eqb (status t) PENDING) with (has_status PENDING) in *.
  change (fun t : Task => Status_eqb (status t) IN_PROGRESS) with (has_status IN_PROGRESS) in *.
  change (fun task : Task => Status_eqb (status task) CANCELLED) with (has_status CANCELLED) in *.
  lia.
Qed.

(** X9: Every task [get_overdue_tasks] yields is a task of the store
    that has a due date and is not completed, whatever the clock says;
    a store in which every task is completed or has no due date has no
    overdue task.  The file and the output are left as they are. *)
Theorem overdue_tasks_are_open_and_dated (self : TaskManager) (w : World) :
  exists late w',
    get_overdue_tasks self w = (Ok late, w')
    /\ (forall t, In t late ->
                  In t (tasks self)
                  /\ (exists d, due_date t = Some d)
                  /\ status t <> COMPLETED)
    /\ ((forall t, In t (tasks self) -> due_date t = None \/ status t = COMPLETED) ->
        late = [])
    /\ disk w' = disk w /\ stdout w' = stdout w.
Proof.
  unfold get_overdue_tasks.
  destruct (get_overdue_tasks_members (tasks self) w) as (late & w' & Hl & Hall & _ & Hnone).
  destruct (get_overdue_tasks_run (tasks self) w) as (late' & w'' & Hl' & Hd & _ & Ho & _).
  rewrite Hl in Hl'. injection Hl' as <- <-.
  exists late, w'. split; [exact Hl|]. split; [|auto].
  intros t Hin. rewrite Forall_forall in Hall. destruct (Hall t Hin) as (H1 & H2 & H3).
  split; [exact H1|]. split; [|exact H3].
  destruct (due_date t) as [d|]; [exists d; reflexivity|congruence].
Qed.

Lemma datetime_ltb_leb_trans (a b c : datetime) :
  datetime_ltb a b = true -> datetime_leb b c = true -> datetime_ltb a c = true.
Proof.
  unfold datetime_ltb, datetime_leb.
  destruct (datetime_compare a b) eqn:E1; try discriminate. intros _.
  destruct (datetime_compare b c) eqn:E2; try discriminate; intros _.
  - apply datetime_compare_eq in E2. subst c. rewrite E1. reflexivity.
  - rewrite (datetime_compare_trans _ _ _ E1 E2). reflexivity.
Qed.

(** X10: A task that [is_overdue] reports overdue is reported overdue at
    every reading of the clock that is not earlier, as long as the task
    is as it was. *)
Theorem overdue_stays_overdue (t : Task) (w1 w2 : World) :
  fst (is_overdue t w1) = Ok true ->
  datetime_leb (clock w1 (ticks w1)) (clock w2 (ticks w2)) = true ->
  fst (is_overdue t w2) = Ok true.
Proof.
  unfold is_overdue. destruct (due_date t) as [due|]; [|discriminate].
  destruct (negb (Status_eqb (status t) COMPLETED)); [|discriminate].
  unfold bind, now, ret. cbn [fst]. intros [= H1] H2.
  rewrite (datetime_ltb_leb_trans _ _ _ H1 H2). reflexivity.
Qed.

(** ** Documents with missing or unexpected entries *)

(** X11: A dictionary that has a title and the two timestamps, and whose
    other keys are missing (or, for the due date and the completion
    time, hold an empty or otherwise false value), is read by
    [from_dict] as a pending task of medium priority in the category
    General, with an empty description, without id, due date and
    completion time.  A dictionary without a title is refused with a
    [KeyError] before the clock is read. *)
Theorem from_dict_defaults (items : list (string * pyval)) (ttl : pyval)
    (c u : string) (cd ud : datetime) (w : World) :
  assoc "title" items = Some ttl ->
  assoc "created_at" items = Some (PStr c) -> fromisoformat c = Ok cd ->
  assoc "updated_at" items = Some (PStr u) -> fromisoformat u = Ok ud ->
  assoc "description" items = None -> assoc "category" items = None ->
  assoc "priority" items = None -> assoc "status" items = None ->
  assoc "id" items = None ->
  (forall v, assoc "due_date" items = Some v -> py_truthy v = false) ->
  (forall v, assoc "completed_at" items = Some v -> py_truthy v = false) ->
  from_dict (PDict items) w
  = (Ok (mk_Task PNone ttl (PStr "") (PStr "General") MEDIUM PENDING cd ud None None),
     tick2 w)
  /\ forall items' : list (string * pyval),
       assoc "title" items' = None ->
       from_dict (PDict items') w = (Raise (KeyError "title"), w).
Proof.
  intros Ht Hc Hcd Hu Hud Hde Hca Hpr Hst Hid Hdue Hco. split.
  - unfold from_dict, py_getitem, py_get.
    rewrite Ht, Hc, Hu, Hde, Hca, Hpr, Hst, Hid.
    assert (Ed : py_truthy (match assoc "due_date" items with
                            | Some v => v | None => PNone end) = false)
      by (destruct (assoc "due_date" items) as [v|]; [apply Hdue|]; reflexivity).
    assert (Eo : py_truthy (match assoc "completed_at" items with
                            | Some v => v | None => PNone end) = false)
      by (destruct (assoc "completed_at" items) as [v|]; [apply Hco|]; reflexivity).
    unfold bind, lift, ret, Task_init, now.
    cbn -[fromisoformat py_truthy]. rewrite Hcd.
    cbn -[fromisoformat py_truthy]. rewrite Hud.
    destruct (assoc "due_date" items) as [dv|];
      destruct (assoc "completed_at" items) as [ov|];
      cbn -[fromisoformat py_truthy]; rewrite ?Ed; cbn -[fromisoformat py_truthy];
      rewrite ?Eo; reflexivity.
  - intros items' H. unfold from_dict, py_getitem, bind, lift. rewrite H. reflexivity.
Qed.

Lemma mapM_app_raise {A B} (f : A -> M B) (pre post : list A) (x : A)
    (l : list B) (e : exn) (w w1 w2 : World) :
  mapM f pre w = (Ok l, w1) -> f x w1 = (Raise e, w2) ->
  mapM f (pre ++ x :: post) w = (Raise e, w2).
Proof.
  revert l w. induction pre as [|a pre IH]; intros l w Hpre Hx.
  - injection Hpre as <- <-. cbn [app mapM]. unfold bind. rewrite Hx. reflexivity.
  - cbn [app mapM] in *. unfold bind in Hpre |- *.
    destruct (f a w) as [[b|e'] w0]; [|discriminate].
    destruct (mapM f pre w0) as [[bs|e'] w0'] eqn:E; [|discriminate].
    unfold ret in Hpre. injection Hpre as <- <-.
    rewrite (IH _ _ E Hx). reflexivity.
Qed.

(** X12: One entry of the [tasks] array that ends [from_dict] in a
    [KeyError], as an entry without a title does, costs the whole store:
    [load_tasks] reports the error and leaves the store empty with
    [next_id] 1, the entries before it that were read without fault
    included. *)
Theorem load_drops_all_on_key_error (f : string) (items : list (string * pyval))
    (pre post : list pyval) (x : pyval) (loaded : list Task) (k : string)
    (w w1 w2 : World) :
  disk w = Parsed (PDict items) ->
  assoc "tasks" items = Some (PList (pre ++ x :: post)) ->
  mapM from_dict pre w = (Ok loaded, w1) ->
  from_dict x w1 = (Raise (KeyError k), w2) ->
  TaskManager_init f w
  = (Ok (mk_TaskManager f [] (PInt 1)),
     mk_World (disk w2) (clock w2) (ticks w2)
              (stdout w2 ++ [ErrorLoadingTasks (KeyError k)])).
Proof.
  intros Hd Ht Hpre Hx.
  unfold TaskManager_init, load_tasks, try_except, bind, path_exists, json_load, lift.
  cbv beta. rewrite Hd. cbv beta iota. rewrite Hd.
  cbn [py_getitem py_iter]. rewrite Ht. cbn [py_iter].
  rewrite (mapM_app_raise from_dict pre post x loaded _ w w1 w2 Hpre Hx).
  reflexivity.
Qed.

(** ** What loading can end in *)

Lemma quiet_refl (w : World) : quiet w w.
Proof. repeat split. Qed.

Lemma quiet_trans (w1 w2 w3 : World) : quiet w1 w2 -> quiet w2 w3 -> quiet w1 w3.
Proof. unfold quiet. intros (H1 & H2 & H3) (H4 & H5 & H6). repeat split; congruence. Qed.

Lemma reads_ret {A} (a : A) : reads (ret a).
Proof. intro w. exists (Ok a), w. split; [reflexivity|]. split; [apply quiet_refl|exact I]. Qed.

Lemma reads_lift {A} (r : result A) :
  match r with Ok _ => True | Raise e => reading_exn e = true end -> reads (lift r).
Proof. intros H w. exists r, w. split; [reflexivity|]. split; [apply quiet_refl|exact H]. Qed.

Lemma reads_now : reads now.
Proof. intro w. do 2 eexists. split; [reflexivity|]. split; [repeat split|exact I]. Qed.

Lemma reads_bind {A B} (m : M A) (k : A -> M B) :
  reads m -> (forall a, reads (k a)) -> reads (bind m k).
Proof.
  intros Hm Hk w. destruct (Hm w) as (r & w1 & E & Hq & Hr). unfold bind. rewrite E.
  destruct r as [a|e].
  - destruct (Hk a w1) as (r2 & w2 & E2 & Hq2 & Hr2).
    exists r2, w2. split; [exact E2|]. split; [|exact Hr2].
    apply quiet_trans with (w2 := w1); assumption.
  - exists (Raise e), w1. auto.
Qed.

Lemma fromisoformat_raises (s : string) (e : exn) :
  fromisoformat s = Raise e -> e = ValueError.
Proof.
  unfold fromisoformat.
  repeat match goal with
         | |- context [match ?x with _ => _ end] =>
             destruct x; try (intros [= <-]; reflexivity);
             try (apply datetime_new_raises)
         end.
Qed.

Lemma reads_py_fromisoformat (v : pyval) : reads (lift (py_fromisoformat v)).
Proof.
  apply reads_lift. destruct v; try reflexivity. simpl.
  destruct (fromisoformat s) as [d|e] eqn:E; [exact I|].
  rewrite (fromisoformat_raises _ _ E). reflexivity.
Qed.

Lemma reads_py_getitem (items : list (string * pyval)) (k : string) :
  reads (lift (py_getitem (PDict items) k)).
Proof. apply reads_lift. simpl. destruct (assoc k items); [exact I|reflexivity]. Qed.

Lemma reads_py_get (items : list (string * pyval)) (k : string) (v : pyval) :
  reads (lift (py_get (PDict items) k v)).
Proof. apply reads_lift. simpl. destruct (assoc k items); exact I. Qed.

Lemma reads_Task_init (t d c : pyval) (p : Priority) : reads (Task_init t d c p None).
Proof.
  unfold Task_init. repeat (apply reads_bind; [try apply reads_now|intro]).
  - apply reads_lift. exact I.
  - apply reads_ret.
Qed.

(** [from_dict] reads the clock at most; it ends in a task or in a
    [KeyError], a [ValueError] or a [TypeError]. *)
Lemma reads_from_dict (data : pyval) : reads (from_dict data).
Proof.
  destruct data as [| | | | |l|items];
    try (intro w; exists (Raise TypeError), w;
         split; [reflexivity|]; split; [apply quiet_refl|reflexivity]).
  unfold from_dict.
  apply reads_bind; [apply reads_py_getitem|intro ttl].
  apply reads_bind; [apply reads_py_get|intro desc].
  apply reads_bind; [apply reads_py_get|intro cat].
  apply reads_bind; [apply reads_py_get|intro pv].
  apply reads_bind.
  { apply reads_lift. destruct pv; try reflexivity. simpl.
    repeat (destruct (String.eqb _ _); [exact I|]). reflexivity. }
  intro prio.
  apply reads_bind; [apply reads_Task_init|intro task].
  apply reads_bind; [apply reads_py_get|intro i].
  apply reads_bind; [apply reads_py_get|intro sv].
  apply reads_bind.
  { apply reads_lift. destruct sv; try reflexivity. simpl.
    repeat (destruct (String.eqb _ _); [exact I|]). reflexivity. }
  intro st.
  apply reads_bind; [apply reads_py_getitem|intro cv].
  apply reads_bind; [apply reads_py_fromisoformat|intro created].
  apply reads_bind; [apply reads_py_getitem|intro uv].
  apply reads_bind; [apply reads_py_fromisoformat|intro updated].
  apply reads_bind; [apply reads_py_get|intro dv].
  apply reads_bind.
  { destruct (py_truthy dv); [|apply reads_ret].
    apply reads_bind; [apply reads_py_fromisoformat|intro; apply reads_ret]. }
  intro due.
  apply reads_bind; [apply reads_py_get|intro ov].
  apply reads_bind.
  { destruct (py_truthy ov); [|apply reads_ret].
    apply reads_bind; [apply reads_py_fromisoformat|intro; apply reads_ret]. }
  intro completed_. apply reads_ret.
Qed.

Lemma reads_mapM {A B} (f : A -> M B) (l : list A) :
  (forall a, reads (f a)) -> reads (mapM f l).
Proof.
  intro Hf. induction l as [|a l IH]; cbn [mapM]; [apply reads_ret|].
  apply reads_bind; [apply Hf|intro b].
  apply reads_bind; [exact IH|intro bs]. apply reads_ret.
Qed.

(** X13: Building a [TaskManager] never writes the file.  When it
    returns a store, either nothing was reported, or the store is the
    empty one with [next_id] 1 and exactly one report was printed, of a
    [JSONDecodeError], [KeyError] or [FileNotFoundError].  When an
    exception leaves it instead, that exception is of none of these
    three classes and nothing was reported. *)
Theorem load_outcomes (f : string) (w : World) :
  exists r w',
    TaskManager_init f w = (r, w')
    /\ disk w' = disk w /\ clock w' = clock w
    /\ match r with
       | Ok self =>
           filename self = f
           /\ (stdout w' = stdout w
               \/ (self = mk_TaskManager f [] (PInt 1)
                   /\ exists e, load_classes e = true
                                /\ stdout w' = stdout w ++ [ErrorLoadingTasks e]))
       | Raise e => load_classes e = false /\ stdout w' = stdout w
       end.
Proof.
  unfold TaskManager_init, load_tasks, try_except, bind, path_exists, json_load, lift, print, ret.
  destruct (disk w) as [| |doc] eqn:Hd; cbv beta iota; rewrite ?Hd; cbv beta iota.
  - do 2 eexists. split; [reflexivity|]. cbn. rewrite ?Hd. auto.
  - do 2 eexists. split; [reflexivity|]. cbn. rewrite ?Hd.
    split; [reflexivity|]. split; [reflexivity|]. split; [reflexivity|].
    right. split; [reflexivity|]. exists JSONDecodeError. auto.
  - destruct doc as [| | | | |l|items];
      try (do 2 eexists; split; [reflexivity|]; cbn; rewrite ?Hd; auto).
    cbn [py_getitem py_get].
    destruct (assoc "tasks" items) as [tv|].
    + destruct (py_iter tv) as [entries|e] eqn:Ei.
      * destruct (reads_mapM from_dict entries reads_from_dict w)
          as (r & w1 & E & (Hq1 & Hq2 & Hq3) & Hr).
        rewrite E. destruct r as [loaded|e].
        -- destruct (assoc "next_id" items); do 2 eexists;
             (split; [reflexivity|]); cbn; rewrite ?Hq1, ?Hd; auto.
        -- destruct e; try discriminate Hr; cbn [load_classes];
             do 2 eexists; (split; [reflexivity|]); cbn [disk clock stdout];
             rewrite ?Hq1, ?Hd; (split; [reflexivity|]); (split; [assumption|]); auto.
           split; [reflexivity|]. right. split; [reflexivity|].
           exists (KeyError key). rewrite Hq3. auto.
      * destruct tv; try discriminate Ei; injection Ei as <-;
          do 2 eexists; (split; [reflexivity|]); cbn; rewrite ?Hd; auto.
    + do 2 eexists. split; [reflexivity|]. cbn. rewrite ?Hd.
      split; [reflexivity|]. split; [reflexivity|]. split; [reflexivity|].
      right. split; [reflexivity|]. exists (KeyError "tasks"). auto.
Qed.

(** ** The listing, once more *)

Lemma insert_by_key_least (x : Task) (l : list Task) :
  Forall (task_le x) l -> insert_by_key x l = x :: l.
Proof.
  intro H. destruct H as [|y l Hy _]; [reflexivity|].
  cbn [insert_by_key]. unfold task_le in Hy. rewrite Hy. reflexivity.
Qed.

Lemma sorted_tasks_fixed (l : list Task) :
  StronglySorted task_le l -> sorted_tasks l = l.
Proof.
  induction 1 as [|x l Hs IH Hx]; [reflexivity|].
  cbn [sorted_tasks fold_right]. fold (sorted_tasks l). rewrite IH.
  apply insert_by_key_least. exact Hx.
Qed.

(** X14: Sorting the full listing again changes nothing, a list that is
    already in the order of the listing is returned as it is, and the
    listing has as many tasks as the store. *)
Theorem sorted_tasks_idempotent (l : list Task) :
  sorted_tasks (sorted_tasks l) = sorted_tasks l
  /\ (StronglySorted listed_before l -> sorted_tasks l = l)
  /\ List.length (sorted_tasks l) = List.length l.
Proof.
  split; [|split].
  - apply sorted_tasks_fixed. apply sorted_tasks_sorted.
  - intro H. apply sorted_tasks_fixed.
    apply StronglySorted_impl with (R := listed_before); [|exact H].
    intros a b. apply task_le_listed.
  - apply Permutation_length. apply sorted_tasks_perm.
Qed.

(** ** Categories and their tasks *)

(** X15: In a store whose categories are all strings, every label
    [get_categories] lists selects at least one task with
    [get_tasks_by_category], among them every task of exactly that
    label; and the list of labels is empty exactly when the store is. *)
Theorem listed_categories_have_tasks (self : TaskManager) :
  Forall (fun t => is_str (category t)) (tasks self) ->
  exists cats,
    get_categories self = Ok cats
    /\ (forall v, In v cats ->
          exists c r,
            v = PStr c
            /\ get_tasks_by_category self c = Ok r
            /\ r <> []
            /\ forall t, In t (tasks self) -> category t = PStr c -> In t r)
    /\ (cats = [] <-> tasks self = []).
Proof.
  intro Hstr.
  assert (Hcats : Forall is_str (map category (tasks self))).
  { apply Forall_map. exact Hstr. }
  destruct (py_set_strs (map category (tasks self)) [] Hcats (Forall_nil _) (NoDup_nil _))
    as (cats & Hrun & _ & Hmem).
  exists cats. split; [exact Hrun|]. split.
  - intros v Hv. apply Hmem in Hv. destruct Hv as [[]|Hv].
    apply in_map_iff in Hv. destruct Hv as (t & Ht & Hin).
    rewrite Forall_forall in Hstr. destruct (Hstr t Hin) as [c Hc].
    exists c, (filter (same_category c) (tasks self)).
    split; [congruence|].
    split; [apply get_tasks_by_category_strs; apply Forall_forall; exact Hstr|].
    assert (Hall : forall u, In u (tasks self) -> category u = PStr c ->
                             In u (filter (same_category c) (tasks self))).
    { intros u Hu Hcu. apply filter_In. split; [exact Hu|].
      unfold same_category. rewrite Hcu. apply String.eqb_refl. }
    split; [|exact Hall].
    intro Hnil. specialize (Hall t Hin Hc). rewrite Hnil in Hall. exact Hall.
  - split.
    + intro Hnil. destruct (tasks self) as [|t l]; [reflexivity|]. exfalso.
      assert (H : In (category t) cats) by (apply Hmem; right; left; reflexivity).
      rewrite Hnil in H. exact H.
    + intro Hnil. destruct cats as [|v cats]; [reflexivity|]. exfalso.
      assert (H : In v (v :: cats)) by (left; reflexivity).
      apply Hmem in H. rewrite Hnil in H. destruct H as [[]|[]].
Qed.

(** ** A [next_id] that is no number *)

(** X16: When the [next_id] of a store is no number (a document may
    carry any value there, and [load_tasks] takes it as it is),
    [add_task] ends in a [TypeError] after the task was built: the clock
    was read twice, the store was not extended and the file was not
    written. *)
Theorem add_task_non_numeric_next_id (self : TaskManager) (t d c : pyval)
    (p : Priority) (due : option string) (w : World) :
  non_numeric (next_id self) = true ->
  add_task self t d c p due w = (Raise TypeError, tick2 w)
  /\ forall (f : string) (items : list (string * pyval)) (w0 : World),
       disk w0 = Parsed (PDict items) ->
       assoc "tasks" items = Some (PList []) ->
       assoc "next_id" items = Some (next_id self) ->
       TaskManager_init f w0 = (Ok (mk_TaskManager f [] (next_id self)), w0).
Proof.
  intro H. split.
  - destruct (Task_init_run t d c p due w) as (dd & Hinit & _).
    unfold add_task, bind at 1. rewrite Hinit.
    unfold bind, lift. destruct (next_id self); try discriminate H; reflexivity.
  - intros f items w0 Hd Ht Hn.
    unfold TaskManager_init, load_tasks, try_except, bind, path_exists, json_load, lift.
    cbv beta. rewrite Hd. cbv beta iota. rewrite Hd.
    cbn [py_getitem py_get py_iter]. rewrite Ht. cbn [py_iter mapM]. rewrite Hn.
    reflexivity.
Qed.

(** ** The settings: clearing and resetting *)

Lemma filter_open_status (s : Status) (l : list Task) :
  s <> COMPLETED ->
  filter (fun t => Status_eqb (status t) s)
         (filter (fun t => negb (Status_eqb (status t) COMPLETED)) l)
  = filter (fun t => Status_eqb (status t) s) l.
Proof.
  intro Hs. induction l as [|t l IH]; [reflexivity|]. cbn [filter].
  destruct (Status_eqb (status t) COMPLETED) eqn:Ec; cbn [negb filter]; rewrite IH.
  - apply Status_eqb_eq in Ec. rewrite Ec.
    replace (Status_eqb COMPLETED s) with false; [reflexivity|].
    symmetry. apply Status_eqb_neq. congruence.
  - reflexivity.
Qed.

Lemma filter_completed_gone (l : list Task) :
  filter (fun t => Status_eqb (status t) COMPLETED)
         (filter (fun t => negb (Status_eqb (status t) COMPLETED)) l) = [].
Proof.
  induction l as [|t l IH]; [reflexivity|]. cbn [filter].
  destruct (Status_eqb (status t) COMPLETED) eqn:Ec; cbn [negb filter];
    rewrite ?Ec; exact IH.
Qed.

Lemma len_filter_split (l : list Task) :
  len (filter (fun t => negb (Status_eqb (status t) COMPLETED)) l)
  = len l - len (filter (fun t => Status_eqb (status t) COMPLETED) l).
Proof.
  unfold len. induction l as [|t l IH]; [reflexivity|]. cbn [filter].
  destruct (Status_eqb (status t) COMPLETED); cbn [negb List.length]; lia.
Qed.

(** X17: [clear_completed_tasks] changes the store only when it holds a
    completed task and the answer, folded to lower case, is yes or y:
    then no completed task is left, the tasks of every other status are
    the same as before, in the same order, [next_id] is what it was and
    the file holds the document of the new store.  In every other case
    the store and the file are left as they are; without a completed
    task no question is asked. *)
Theorem clear_completed_tasks_spec (self : TaskManager) (answer : string) (w : World) :
  exists ns self' w',
    clear_completed_tasks self answer w = (Ok (ns, self'), w')
    /\ next_id self' = next_id self /\ filename self' = filename self
    /\ ((get_tasks_by_status self COMPLETED <> []
         /\ (lower answer = "yes" \/ lower answer = "y")) ->
        get_tasks_by_status self' COMPLETED = []
        /\ (forall s, s <> COMPLETED ->
                      get_tasks_by_status self' s = get_tasks_by_status self s)
        /\ len (tasks self')
           = len (tasks self) - len (get_tasks_by_status self COMPLETED)
        /\ disk w' = Parsed (document self'))
    /\ (~ (get_tasks_by_status self COMPLETED <> []
           /\ (lower answer = "yes" \/ lower answer = "y")) ->
        self' = self /\ w' = w)
    /\ (get_tasks_by_status self COMPLETED = [] -> ns = [NoCompletedTasks]).
Proof.
  unfold clear_completed_tasks.
  destruct (get_tasks_by_status self COMPLETED) as [|t0 l0] eqn:Ec.
  - exists [NoCompletedTasks], self, w. split; [reflexivity|].
    split; [reflexivity|]. split; [reflexivity|]. split; [|split].
    + intros [H _]. exfalso. apply H. reflexivity.
    + auto.
    + reflexivity.
  - destruct (String.eqb (lower answer) "yes" || String.eqb (lower answer) "y") eqn:Ea.
    + unfold bind. rewrite save_tasks_run. unfold ret.
      do 3 eexists. split; [reflexivity|]. cbn [next_id filename tasks disk].
      split; [reflexivity|]. split; [reflexivity|]. split; [|split].
      * intros _. unfold get_tasks_by_status in *. cbn [tasks].
        split; [apply filter_completed_gone|].
        split; [intros s Hs; apply filter_open_status; exact Hs|].
        split; [rewrite <- Ec; apply len_filter_split|reflexivity].
      * intro H. exfalso. apply H. split; [discriminate|].
        apply orb_true_iff in Ea. destruct Ea as [Ea|Ea];
          apply String.eqb_eq in Ea; auto.
      * discriminate.
    + do 3 eexists. split; [reflexivity|].
      split; [reflexivity|]. split; [reflexivity|]. split; [|split].
      * intros [_ [H|H]]; rewrite H in Ea; discriminate Ea.
      * auto.
      * discriminate.
Qed.

(** X18: [reset_all_tasks] empties a store that has tasks when, and only
    when, the answer is the text DELETE ALL, letter for letter: the file
    then holds the document of the empty store with [next_id] 1, and the
    next [add_task] gives its task the id 1 again, although that id may
    have been given before.  Any other answer leaves the store and the
    file as they are, and on an empty store nothing is asked. *)
Theorem reset_all_tasks_restarts_ids (self : TaskManager) (answer : string)
    (t d c : pyval) (p : Priority) (due : option string) (w : World) :
  (tasks self <> [] -> answer = "DELETE ALL" ->
   exists ns w1 task w2,
     reset_all_tasks self answer w
     = (Ok (ns, mk_TaskManager (filename self) [] (PInt 1)), w1)
     /\ disk w1 = Parsed (document (mk_TaskManager (filename self) [] (PInt 1)))
     /\ add_task (mk_TaskManager (filename self) [] (PInt 1)) t d c p due w1
        = (Ok (task, mk_TaskManager (filename self) [task] (PInt 2)), w2)
     /\ id task = PInt 1)
  /\ (tasks self <> [] -> answer <> "DELETE ALL" ->
      exists ns, reset_all_tasks self answer w = (Ok (ns, self), w))
  /\ (tasks self = [] ->
      reset_all_tasks self answer w = (Ok ([NoTasksToReset], self), w)).
Proof.
  unfold reset_all_tasks. split; [|split].
  - intros Hne ->. destruct (tasks self) as [|t0 l0]; [congruence|].
    cbn [String.eqb Ascii.eqb Bool.eqb andb]. unfold bind. rewrite save_tasks_run.
    unfold ret.
    destruct (add_task_run (filename self) [] 1 t d c p due
                (mk_World (Parsed (document (mk_TaskManager (filename self) [] (PInt 1))))
                          (clock w) (ticks w) (stdout w)))
      as (task & w2 & Hrun & Hid & _).
    do 4 eexists. split; [reflexivity|]. split; [reflexivity|].
    split; [exact Hrun|exact Hid].
  - intros Hne Ha. destruct (tasks self) as [|t0 l0]; [congruence|].
    apply String.eqb_neq in Ha. rewrite Ha. eexists. reflexivity.
  - intros ->. reflexivity.
Qed.

(** ** Categories that are no strings *)

Lemma rfilter_app_raise {A} (p : A -> result bool) (l1 l2 : list A) (x : A) (e : exn) :
  (forall a, In a l1 -> exists b, p a = Ok b) -> p x = Raise e ->
  rfilter p (l1 ++ x :: l2) = Raise e.
Proof.
  intros H Hx. induction l1 as [|a l1 IH]; cbn [app rfilter].
  - rewrite Hx. reflexivity.
  - destruct (H a (or_introl eq_refl)) as [b Hb]. rewrite Hb. cbn [rbind].
    rewrite IH; [reflexivity|]. intros a' Ha'. apply H. right. exact Ha'.
Qed.

Lemma py_set_app_raise (l1 l2 : list pyval) (x : pyval) :
  forall acc, forallb hashable l1 = true -> hashable x = false ->
              py_set (l1 ++ x :: l2) acc = Raise TypeError.
Proof.
  induction l1 as [|a l1 IH]; intros acc H Hx; cbn [app py_set].
  - rewrite Hx. reflexivity.
  - cbn [forallb] in H. apply andb_true_iff in H. destruct H as [Ha H].
    rewrite Ha. apply IH; assumption.
Qed.

(** X19: The category of a task is not checked when a document is read,
    and the two views by category depend on it: in a store whose first
    task with a category that is no string comes after tasks with
    strings only, [get_tasks_by_category] ends in an [AttributeError],
    whatever label is asked for; and [get_categories] ends in a
    [TypeError] when that category is a list or a dictionary. *)
Theorem category_views_need_strings (self : TaskManager) (l1 l2 : list Task) (t : Task) :
  tasks self = l1 ++ t :: l2 ->
  Forall (fun u => is_str (category u)) l1 ->
  ~ is_str (category t) ->
  (forall c, get_tasks_by_category self c = Raise AttributeError)
  /\ (hashable (category t) = false -> get_categories self = Raise TypeError).
Proof.
  intros Hl H1 Ht. split.
  - intro c. unfold get_tasks_by_category. rewrite Hl.
    apply rfilter_app_raise.
    + intros a Ha. rewrite Forall_forall in H1. destruct (H1 a Ha) as [s Hs].
      rewrite Hs. eexists. reflexivity.
    + destruct (category t) as [| | | |s| |]; try reflexivity.
      exfalso. apply Ht. exists s. reflexivity.
  - intro Hh. unfold get_categories. rewrite Hl, map_app. cbn [map].
    apply py_set_app_raise; [|exact Hh].
    clear Hl. induction H1 as [|a l1 [s Hs] _ IH]; [reflexivity|].
    cbn [map forallb]. rewrite Hs, IH. reflexivity.
Qed.

(** ** The day a task is due *)

(** X20: A due date read from text is the midnight that begins the day,
    and [is_overdue] compares the clock with it: on the due day itself a
    task that is not completed is reported overdue at every moment but
    that midnight. *)
Theorem due_day_counts_as_overdue (t : Task) (d : datetime) (w : World) :
  due_date t = Some d -> status t <> COMPLETED ->
  hour d = 0 -> minute d = 0 -> second d = 0 -> microsecond d = 0 ->
  valid_datetime (clock w (ticks w)) = true ->
  year (clock w (ticks w)) = year d ->
  month (clock w (ticks w)) = month d ->
  day (clock w (ticks w)) = day d ->
  fst (is_overdue t w) = Ok (negb (datetime_eqb (clock w (ticks w)) d)).
Proof.
  intros Hd Hs Hh Hmi Hse Hus Hv Hy Hm Hda.
  unfold is_overdue. rewrite Hd. apply Status_eqb_neq in Hs. rewrite Hs.
  cbn [negb]. unfold bind, now, ret. cbn [fst]. f_equal.
  apply valid_datetime_bounds in Hv.
  destruct (clock w (ticks w)) as [ny nm nd nh nmi ns nus].
  destruct d as [dy dm dd dh dmi ds dus].
  cbn [year month day hour minute second microsecond] in *. subst.
  unfold datetime_ltb, datetime_eqb, datetime_compare, fields.
  cbn [year month day hour minute second microsecond lex_compare].
  rewrite !Z.compare_refl.
  repeat match goal with
         | |- context [?x ?= ?y] =>
             lazymatch x with
             | y => fail
             | _ => destruct (Z.compare_spec x y); try lia; subst
             end
         end; try reflexivity.
Qed.

(** ** Completing an overdue task *)


(** ** The further properties at concrete inputs *)

Lemma save_then_load_witness :
  exists w1 w2,
    save_tasks store_example (world_of Absent) = (Ok tt, w1)
    /\ TaskManager_init (filename store_example) w1 = (Ok store_example, w2)
    /\ stdout w2 = stdout (world_of Absent)
    /\ disk w2 = Parsed (document store_example).
Proof. apply save_then_load. reflexivity. Defined.

Lemma _parse_date_valid_midnight_witness :
  valid_datetime (mk_datetime 2024 2 29 0 0 0 0) = true
  /\ 1 <= 2024 <= 9999 /\ 1 <= 2 <= 12 /\ 1 <= 29 <= days_in_month 2024 2
  /\ 0 = 0 /\ 0 = 0 /\ 0 = 0 /\ 0 = 0.
Proof.
  apply (_parse_date_valid_midnight "29/02/2024" (mk_datetime 2024 2 29 0 0 0 0)).
  reflexivity.
Defined.

Lemma both_notations_give_the_date_witness :
  _parse_date (text_ymd 2024 2 29) = Ok (Some (mk_datetime 2024 2 29 0 0 0 0))
  /\ _parse_date (text_dmy 2024 2 29) = Ok (Some (mk_datetime 2024 2 29 0 0 0 0)).
Proof. apply both_notations_give_the_date. reflexivity. Defined.

Lemma restart_restores_store_witness :
  exists self1 w1 w2,
    (tm <- TaskManager_init "tasks.json" ;; run_ops ops_example tm)%M (world_still Absent)
    = (Ok self1, w1)
    /\ TaskManager_init "tasks.json" w1 = (Ok self1, w2)
    /\ stdout w2 = stdout (world_still Absent)
    /\ store_ok self1.
Proof.
  apply restart_restores_store; [reflexivity|]. intro k. reflexivity.
Defined.

Lemma add_then_get_witness :
  exists task self' w',
    add_task (mk_TaskManager "tasks.json" [task_example; task_loaded] (PInt 8))
             (PStr "Call the bank") (PStr "") (PStr "Home") LOW None (world_of Absent)
    = (Ok (task, self'), w')
    /\ get_task self' 8 = Some task
    /\ (forall j, j <> 8 ->
          get_task self' j
          = get_task (mk_TaskManager "tasks.json" [task_example; task_loaded] (PInt 8)) j)
    /\ List.length (tasks self') = S (List.length [task_example; task_loaded]).
Proof.
  apply add_then_get. split.
  - intros t [<-|[<-|[]]]; eexists; (split; [reflexivity|]); lia.
  - repeat constructor; simpl; intuition discriminate.
Defined.

Lemma delete_then_get_witness :
  exists b self' w',
    delete_task store_example 7 (world_of Absent) = (Ok (b, self'), w')
    /\ get_task self' 7 = None
    /\ (forall j, j <> 7 -> get_task self' j = get_task store_example j)
    /\ List.length (tasks store_example)
       = ((if b then 1 else 0) + List.length (tasks self'))%nat.
Proof.
  apply (delete_then_get store_example 8). split.
  - intros t [<-|[<-|[]]]; eexists; (split; [reflexivity|]); lia.
  - repeat constructor; simpl; intuition discriminate.
Defined.

Lemma update_then_get_witness :
  exists b self' w',
    update_task_status store_example 1 COMPLETED (world_of Absent) = (Ok (b, self'), w')
    /\ (b = true -> exists t', get_task self' 1 = Some t' /\ status t' = COMPLETED)
    /\ (b = false -> get_task self' 1 = None)
    /\ (forall j, j <> 1 -> get_task self' j = get_task store_example j)
    /\ map id (tasks self') = map id (tasks store_example).
Proof.
  apply (update_then_get store_example 8). split.
  - intros t [<-|[<-|[]]]; eexists; (split; [reflexivity|]); lia.
  - repeat constructor; simpl; intuition discriminate.
Defined.

Lemma overdue_stays_overdue_witness :
  fst (is_overdue task_due
         (mk_World Absent clock_example 7 [])) = Ok true.
Proof.
  apply (overdue_stays_overdue task_due (mk_World Absent clock_example 3 []));
    reflexivity.
Defined.

Lemma from_dict_defaults_witness :
  from_dict (PDict items_minimal) (world_of Absent)
  = (Ok (mk_Task PNone (PStr "Buy milk") (PStr "") (PStr "General") MEDIUM PENDING
                 (mk_datetime 2024 3 15 10 0 0 0) (mk_datetime 2024 3 15 10 0 0 0)
                 None None),
     tick2 (world_of Absent))
  /\ forall items' : list (string * pyval),
       assoc "title" items' = None ->
       from_dict (PDict items') (world_of Absent)
       = (Raise (KeyError "title"), world_of Absent).
Proof.
  apply (from_dict_defaults items_minimal (PStr "Buy milk")
           "2024-03-15T10:00:00" "2024-03-15T10:00:00");
    try reflexivity; intros v H; discriminate H.
Defined.

Lemma load_drops_all_on_key_error_witness :
  TaskManager_init "tasks.json" (world_of (Parsed doc_untitled))
  = (Ok (mk_TaskManager "tasks.json" [] (PInt 1)),
     mk_World (Parsed doc_untitled) clock_example 2
              [ErrorLoadingTasks (KeyError "title")]).
Proof.
  apply (load_drops_all_on_key_error "tasks.json"
           [("tasks",
             PList [entry 1 "Buy milk" "General" "Medium" "Pending"
                          "2024-03-15T10:00:00" "2024-03-15T10:00:00" PNone PNone;
                    PDict [("id", PInt 2); ("created_at", PStr "2024-03-15T10:00:00")]]);
            ("next_id", PInt 3)]
           [entry 1 "Buy milk" "General" "Medium" "Pending"
                  "2024-03-15T10:00:00" "2024-03-15T10:00:00" PNone PNone]
           []
           (PDict [("id", PInt 2); ("created_at", PStr "2024-03-15T10:00:00")])
           [task_loaded] "title"
           (world_of (Parsed doc_untitled))
           (mk_World (Parsed doc_untitled) clock_example 2 [])
           (mk_World (Parsed doc_untitled) clock_example 2 []));
    reflexivity.
Defined.

Lemma listed_categories_have_tasks_witness :
  exists cats,
    get_categories store_mixed_case = Ok cats
    /\ (forall v, In v cats ->
          exists c r,
            v = PStr c
            /\ get_tasks_by_category store_mixed_case c = Ok r
            /\ r <> []
            /\ forall t, In t (tasks store_mixed_case) -> category t = PStr c -> In t r)
    /\ (cats = [] <-> tasks store_mixed_case = []).
Proof.
  apply listed_categories_have_tasks. repeat constructor; eexists; reflexivity.
Defined.

Lemma add_task_non_numeric_next_id_witness :
  add_task store_text_next_id (PStr "Buy milk") (PStr "") (PStr "General") MEDIUM None
           (world_of Absent)
  = (Raise TypeError, tick2 (world_of Absent))
  /\ forall (f : string) (items : list (string * pyval)) (w0 : World),
       disk w0 = Parsed (PDict items) ->
       assoc "tasks" items = Some (PList []) ->
       assoc "next_id" items = Some (next_id store_text_next_id) ->
       TaskManager_init f w0 = (Ok (mk_TaskManager f [] (next_id store_text_next_id)), w0).
Proof. apply add_task_non_numeric_next_id. reflexivity. Defined.

Lemma category_views_need_strings_witness :
  (forall c, get_tasks_by_category store_uncategorised c = Raise AttributeError)
  /\ (hashable (category task_uncategorised) = false ->
      get_categories store_uncategorised = Raise TypeError).
Proof.
  apply (category_views_need_strings store_uncategorised [task_in 1 "Work"] []
           task_uncategorised).
  - reflexivity.
  - repeat constructor. eexists. reflexivity.
  - intros [s H]. discriminate H.
Defined.

Lemma due_day_counts_as_overdue_witness :
  fst (is_overdue task_due (world_of Absent))
  = Ok (negb (datetime_eqb (clock (world_of Absent) (ticks (world_of Absent)))
                           (mk_datetime 2024 3 15 0 0 0 0))).
Proof.
  apply due_day_counts_as_overdue; try reflexivity. discriminate.
Defined.

